(** * Car-rental backend: the booking lifecycle and the car unit counter

    A shallow embedding of [models/Car.js], [models/Booking.js] and of the
    three mutating handlers of [controllers/bookings.js]
    ([createBooking], [cancelBooking], [updateBooking]).

    Modelling conventions.
    - The two collections are finite maps from ObjectIds to documents; the
      user collection is the set of ids that still resolve under [populate].
    - A handler is a function from the database to the new database and the
      response: [Ok doc] for a 2xx answer, [Err e] for an [AppError] handed
      to [next] or an exception caught by [asyncHandler].
    - JavaScript numbers that hold instants (milliseconds), day counts, unit
      counts and prices are integers ([Z]); [Math.ceil] of a quotient is the
      exact integer ceiling.  Cars are stored with [parseInt]-ed counters;
      prices are whole amounts, so that no rounding enters the arithmetic.
      The day count of utils/helpers.js is computed on doubles ([Double])
      and compared with the exact ceiling.
    - The timestamps are not fields of the documents; the [updatedAt] that
      [updateBooking] assigns is kept beside the database ([Stamped]).
    - [parseDateTime] is a pure function of the date text and the time text;
      it is a parameter of the handlers.
    - Documents carry the fields the handlers read or write; the other
      paths of a stored car are taken to pass their validators.
    - The e-mail service only reads its arguments, is never awaited and
      catches its own errors, so it does not appear in the model. *)

From stdpp Require Import gmap strings list fin_maps.
From Stdlib Require Import ZArith Lia Ascii.

Open Scope Z_scope.

(** ObjectIds. *)
Abbreviation Id := positive.

(** ** JavaScript truthiness of the request fields the handlers test *)

Module Js.

(** A text field of [req.body]: [None] is [undefined]. *)
Definition truthy_str (s : option string) : bool :=
  match s with
  | Some s => negb (bool_decide (s = ""))
  | None => false
  end.

(** A boolean field of [req.body]: [None] is [undefined]. *)
Definition truthy (b : option bool) : bool :=
  match b with
  | Some true => true
  | _ => false
  end.

(** [x || d] on text. *)
Definition or_str (s : option string) (d : string) : string :=
  match s with
  | Some s => if bool_decide (s = "") then d else s
  | None => d
  end.

(** [x || false]. *)
Definition or_false (b : option bool) : bool := truthy b.

(** [x !== false]. *)
Definition not_strictly_false (b : option bool) : bool :=
  match b with
  | Some false => false
  | _ => true
  end.

(** [Math.ceil(a / b)] for integers [a] and [b > 0]. *)
Definition ceil_div (a b : Z) : Z :=
  if a mod b =? 0 then a / b else a / b + 1.

End Js.

(** [24 * 60 * 60 * 1000] *)
Definition oneDay : Z := 24 * 60 * 60 * 1000.

(** ** models/Car.js (the fields the booking handlers read or write) *)

Module Car.

Record t : Type := mk {
  pricePerDay : Z;
  totalCarsAvailable : Z;
  isAvailable : bool
}.

Definition set_totalCarsAvailable (n : Z) (c : t) : t :=
  mk (pricePerDay c) n (isAvailable c).

Definition set_isAvailable (a : bool) (c : t) : t :=
  mk (pricePerDay c) (totalCarsAvailable c) a.

(** The schema validators on these fields: [min: 10] on [pricePerDay],
    [min: 0] on [totalCarsAvailable]. *)
Definition validate (c : t) : bool :=
  (10 <=? pricePerDay c) && (0 <=? totalCarsAvailable c).

(** [car.save()]: [None] is a thrown ValidationError. *)
Definition save (c : t) : option t :=
  if validate c then Some c else None.

End Car.

(** ** models/Booking.js *)

Inductive BookingStatus : Type := pending | confirmed | cancelled | completed.

#[global] Instance BookingStatus_eq_dec : EqDecision BookingStatus.
Proof. solve_decision. Defined.

Module Booking.

Record t : Type := mk {
  user : Id;
  car : Id;
  pickupLocation : option string;
  pickupDate : Z;
  pickupTime : option string;
  dropoffDate : Z;
  dropoffTime : option string;
  totalDays : Z;
  pricePerDay : Z;
  totalPrice : Z;
  bookingStatus : BookingStatus;
  specialRequests : option string;
  additionalDriver : bool;
  insuranceSelected : bool;
  cancellationReason : option string
}.

Definition set_bookingStatus (s : BookingStatus) (b : t) : t :=
  mk (user b) (car b) (pickupLocation b) (pickupDate b) (pickupTime b)
     (dropoffDate b) (dropoffTime b) (totalDays b) (pricePerDay b)
     (totalPrice b) s (specialRequests b) (additionalDriver b)
     (insuranceSelected b) (cancellationReason b).

Definition set_cancellationReason (r : option string) (b : t) : t :=
  mk (user b) (car b) (pickupLocation b) (pickupDate b) (pickupTime b)
     (dropoffDate b) (dropoffTime b) (totalDays b) (pricePerDay b)
     (totalPrice b) (bookingStatus b) (specialRequests b)
     (additionalDriver b) (insuranceSelected b) r.

(** The schema validators: [required] on a String path rejects
    [undefined] and the empty text, [min: 1] on [totalDays],
    [maxlength: 500] on [specialRequests]. *)
Definition required_str (s : option string) : bool := Js.truthy_str s.

Definition validate (b : t) : bool :=
  required_str (pickupLocation b)
  && required_str (pickupTime b)
  && required_str (dropoffTime b)
  && (1 <=? totalDays b)
  && match specialRequests b with
     | Some s => (String.length s <=? 500)%nat
     | None => true
     end.

(** [BookingSchema.pre('save')]. *)
Definition pre_save (b : t) : t :=
  let diffDays := Js.ceil_div (Z.abs (dropoffDate b - pickupDate b)) oneDay in
  let totalPrice0 := pricePerDay b * diffDays in
  let totalPrice1 :=
    if insuranceSelected b then totalPrice0 + 15 * diffDays else totalPrice0 in
  let totalPrice2 :=
    if additionalDriver b then totalPrice1 + 10 * diffDays else totalPrice1 in
  mk (user b) (car b) (pickupLocation b) (pickupDate b) (pickupTime b)
     (dropoffDate b) (dropoffTime b) diffDays (pricePerDay b)
     totalPrice2 (bookingStatus b) (specialRequests b)
     (additionalDriver b) (insuranceSelected b) (cancellationReason b).

(** [doc.save()]: validation runs first, then the pre-save hook, then the
    document is written.  [None] is a thrown ValidationError. *)
Definition save (b : t) : option t :=
  if validate b then Some (pre_save b) else None.

End Booking.

(** ** The request context *)

Inductive Role : Type := RoleUser | RoleAdmin.

#[global] Instance Role_eq_dec : EqDecision Role.
Proof. solve_decision. Defined.

(** [req.user] *)
Record ReqUser : Type := mkReqUser { uid : Id; role : Role }.

(** The errors of the three handlers, one per [AppError] site, plus the two
    exceptions that reach [asyncHandler]. *)
Inductive AppError : Type :=
| MissingBookingInformation     (* 400 Missing required booking information *)
| DropoffMustBeAfterPickup      (* 400 Drop-off must be after pick-up *)
| CarNotFound                   (* 404 Car not found *)
| CarNotAvailable               (* 400 Car is not available for booking *)
| AlreadyBookedForDates         (* 400 Car is already booked for the selected dates *)
| MinimumBookingOneDay          (* 400 Minimum booking is 1 day *)
| BookingNotFound               (* 404 Booking not found *)
| CancellationReasonRequired    (* 400 Please Provide Cancellation Reason *)
| NotAuthorizedToCancel         (* 403 You are not authorized to cancel this booking *)
| AlreadyCancelled              (* 400 Booking is already cancelled *)
| CannotCancelCompleted         (* 400 Cannot cancel completed booking *)
| StatusRequired                (* 400 Please provide booking status *)
| InvalidBookingStatus          (* 400 Invalid booking status *)
| CarNoLongerAvailable          (* 400 Car is no longer available *)
| ValidationError               (* thrown by save / create *)
| TypeError.                    (* property read on null *)

(** The status code given to [new AppError(message, code)]; the code of a
    thrown exception is chosen by the error middleware. *)
Definition statusCode (e : AppError) : option Z :=
  match e with
  | CarNotFound | BookingNotFound => Some 404
  | NotAuthorizedToCancel => Some 403
  | ValidationError | TypeError => None
  | _ => Some 400
  end.

(** What a handler answers: a 2xx body, or the error passed to [next]. *)
Inductive Outcome (A : Type) : Type :=
| Ok (a : A)
| Err (e : AppError).

Arguments Ok {A} a.
Arguments Err {A} e.

(** ** The database *)

Record Db : Type := mkDb {
  users : gset Id;
  cars : gmap Id Car.t;
  bookings : gmap Id Booking.t
}.

(** ** Handlers as state-and-error computations *)

Definition Handler (A : Type) : Type := Db -> Db * Outcome A.

Definition ret {A} (a : A) : Handler A := fun db => (db, Ok a).

(** [return next(new AppError(..))], or a [throw]. *)
Definition fail {A} (e : AppError) : Handler A := fun db => (db, Err e).

Definition bind {A B} (m : Handler A) (k : A -> Handler B) : Handler B :=
  fun db =>
    match m db with
    | (db', Ok a) => k a db'
    | (db', Err e) => (db', Err e)
    end.

Notation "'let*' x ':=' m 'in' k" := (bind m (fun x => k))
  (at level 10, x pattern, m at level 100, k at level 200).

Notation "m '>>' k" := (bind m (fun _ => k))
  (at level 100, k at level 200, right associativity).

(** [if (c) return next(new AppError(e))] *)
Definition failWhen (c : bool) (e : AppError) : Handler unit :=
  if c then fail e else ret tt.

Module CarModel.

(** [Car.findById(id)] *)
Definition findById (cid : Id) : Handler (option Car.t) :=
  fun db => (db, Ok (cars db !! cid)).

(** [car.save()] for the car read under [cid]. *)
Definition save (cid : Id) (c : Car.t) : Handler unit :=
  fun db =>
    match Car.save c with
    | Some c' => (mkDb (users db) (<[cid := c']> (cars db)) (bookings db), Ok tt)
    | None => (db, Err ValidationError)
    end.

End CarModel.

(** The first document of a collection that satisfies a query. *)
Definition findOneIn (q : Booking.t -> bool) (bs : gmap Id Booking.t)
  : option Booking.t :=
  snd <$> List.find (fun kv => q kv.2) (map_to_list bs).

Module BookingModel.

(** [Booking.findById(id)] *)
Definition findById (bid : Id) : Handler (option Booking.t) :=
  fun db => (db, Ok (bookings db !! bid)).

(** [.populate("user", ..)]: does the referenced user still resolve? *)
Definition populatedUser (b : Booking.t) : Handler bool :=
  fun db => (db, Ok (bool_decide (Booking.user b ∈ users db))).

(** [Booking.findOne(query)], the query given as a predicate. *)
Definition findOne (q : Booking.t -> bool) : Handler (option Booking.t) :=
  fun db => (db, Ok (findOneIn q (bookings db))).

(** [booking.save()] for the booking read under [bid]. *)
Definition save (bid : Id) (b : Booking.t) : Handler Booking.t :=
  fun db =>
    match Booking.save b with
    | Some b' => (mkDb (users db) (cars db) (<[bid := b']> (bookings db)), Ok b')
    | None => (db, Err ValidationError)
    end.

(** [Booking.create(doc)]: a new document under a fresh ObjectId. *)
Definition create (b : Booking.t) : Handler (Id * Booking.t) :=
  fun db =>
    let bid := fresh (dom (bookings db)) in
    match Booking.save b with
    | Some b' => (mkDb (users db) (cars db) (<[bid := b']> (bookings db)), Ok (bid, b'))
    | None => (db, Err ValidationError)
    end.

End BookingModel.

(** ** controllers/bookings.js *)

(** [req.body] of [POST /api/v1/bookings]. *)
Record CreateBody : Type := mkCreateBody {
  carId : option Id;
  pickupLocation : option string;
  pickupDate : option string;
  pickupTime : option string;
  dropoffDate : option string;
  dropoffTime : option string;
  specialRequests : option string;
  additionalDriver : option bool;
  insuranceSelected : option bool
}.

(** The filter of the availability query in [createBooking]:
    same car, status in [confirmed, pending],
    [pickupDate < dropoffDateTime] and [dropoffDate > pickupDateTime]. *)
Definition overlapQuery (cid : Id) (pickupDateTime dropoffDateTime : Z)
    (b : Booking.t) : bool :=
  bool_decide (Booking.car b = cid)
  && (bool_decide (Booking.bookingStatus b = confirmed)
      || bool_decide (Booking.bookingStatus b = pending))
  && (Booking.pickupDate b <? dropoffDateTime)
  && (pickupDateTime <? Booking.dropoffDate b).

(** Lines 86-96 of the controller: the price it computes before the
    document is created. *)
Definition controllerTotalPrice (pricePerDay totalDays : Z)
    (insurance driver : option bool) : Z :=
  let totalPrice0 := pricePerDay * totalDays in
  let totalPrice1 :=
    if Js.truthy insurance then totalPrice0 + 15 * totalDays else totalPrice0 in
  if Js.truthy driver then totalPrice1 + 10 * totalDays else totalPrice1.

(** Lines 78-114 of the controller: the day count, the price and the object
    handed to [Booking.create]. *)
Definition newBooking (reqUser : ReqUser) (body : CreateBody) (cid : Id)
    (pickupDateTime dropoffDateTime : Z) (car : Car.t) : Booking.t :=
  let totalDays := Js.ceil_div (dropoffDateTime - pickupDateTime) oneDay in
  let totalPrice :=
    controllerTotalPrice (Car.pricePerDay car) totalDays
      (insuranceSelected body) (additionalDriver body) in
  {| Booking.user := uid reqUser;
     Booking.car := cid;
     Booking.pickupLocation := pickupLocation body;
     Booking.pickupDate := pickupDateTime;
     Booking.pickupTime := pickupTime body;
     Booking.dropoffDate := dropoffDateTime;
     Booking.dropoffTime := dropoffTime body;
     Booking.totalDays := totalDays;
     Booking.pricePerDay := Car.pricePerDay car;
     Booking.totalPrice := totalPrice;
     Booking.bookingStatus := confirmed;
     Booking.specialRequests := specialRequests body;
     Booking.additionalDriver := Js.or_false (additionalDriver body);
     Booking.insuranceSelected :=
       Js.not_strictly_false (insuranceSelected body);
     Booking.cancellationReason := None |}.

(** The car update that follows a created booking. *)
Definition takeUnitOnCreate (c : Car.t) : Car.t :=
  let c1 :=
    if Car.totalCarsAvailable c =? 1 then Car.set_isAvailable false c else c in
  Car.set_totalCarsAvailable (Z.max 0 (Car.totalCarsAvailable c1 - 1)) c1.

(** The car update of both cancellation paths. *)
Definition releaseUnit (c : Car.t) : Car.t :=
  let c1 := Car.set_totalCarsAvailable (Car.totalCarsAvailable c + 1) c in
  if negb (Car.isAvailable c1) && (0 <? Car.totalCarsAvailable c1)
  then Car.set_isAvailable true c1 else c1.

(** The car update of the cancelled-to-confirmed path. *)
Definition takeUnitOnReconfirm (c : Car.t) : Car.t :=
  let c1 := Car.set_totalCarsAvailable (Car.totalCarsAvailable c - 1) c in
  if Car.totalCarsAvailable c1 =? 0 then Car.set_isAvailable false c1 else c1.

(** [validStatuses.includes(status)] with the status it names. *)
Definition parseStatus (s : string) : option BookingStatus :=
  if bool_decide (s = "pending") then Some pending
  else if bool_decide (s = "confirmed") then Some confirmed
  else if bool_decide (s = "cancelled") then Some cancelled
  else if bool_decide (s = "completed") then Some completed
  else None.

Section Controller.

(** [parseDateTime(dateStr, timeStr)], in milliseconds. *)
Variable parseDateTime : string -> string -> Z.

Definition createBooking (reqUser : ReqUser) (body : CreateBody)
  : Handler Booking.t :=
  match carId body, pickupDate body, dropoffDate body with
  | Some cid, Some pickupDateStr, Some dropoffDateStr =>
    failWhen (negb (Js.truthy_str (pickupLocation body))
              || negb (Js.truthy_str (pickupDate body))
              || negb (Js.truthy_str (dropoffDate body)))
             MissingBookingInformation >>
    let pickupDateTime :=
      parseDateTime pickupDateStr (Js.or_str (pickupTime body) "10:00 AM") in
    let dropoffDateTime :=
      parseDateTime dropoffDateStr (Js.or_str (dropoffTime body) "10:00 AM") in
    failWhen (dropoffDateTime <=? pickupDateTime) DropoffMustBeAfterPickup >>
    let* found := CarModel.findById cid in
    match found with
    | None => fail CarNotFound
    | Some car =>
      failWhen (negb (Car.isAvailable car)) CarNotAvailable >>
      let* existingBooking :=
        BookingModel.findOne (overlapQuery cid pickupDateTime dropoffDateTime) in
      failWhen (bool_decide (is_Some existingBooking)) AlreadyBookedForDates >>
      let totalDays := Js.ceil_div (dropoffDateTime - pickupDateTime) oneDay in
      failWhen (totalDays <? 1) MinimumBookingOneDay >>
      let* created :=
        BookingModel.create
          (newBooking reqUser body cid pickupDateTime dropoffDateTime car) in
      CarModel.save cid (takeUnitOnCreate car) >>
      ret created.2
    end
  | _, _, _ => fail MissingBookingInformation
  end.

Definition cancelBooking (reqUser : ReqUser) (bookingId : Id)
    (cancellationReason : option string) : Handler Booking.t :=
  let* found := BookingModel.findById bookingId in
  match found with
  | None => fail BookingNotFound
  | Some booking =>
    failWhen (negb (Js.truthy_str cancellationReason))
             CancellationReasonRequired >>
    let* userResolves := BookingModel.populatedUser booking in
    failWhen (negb userResolves) TypeError >>
    failWhen (negb (bool_decide (Booking.user booking = uid reqUser))
              && negb (bool_decide (role reqUser = RoleAdmin)))
             NotAuthorizedToCancel >>
    failWhen (bool_decide (Booking.bookingStatus booking = cancelled))
             AlreadyCancelled >>
    failWhen (bool_decide (Booking.bookingStatus booking = completed))
             CannotCancelCompleted >>
    let* saved :=
      BookingModel.save bookingId
        (Booking.set_cancellationReason cancellationReason
           (Booking.set_bookingStatus cancelled booking)) in
    let* car := CarModel.findById (Booking.car booking) in
    match car with
    | None => fail TypeError
    | Some car =>
      CarModel.save (Booking.car booking) (releaseUnit car) >>
      ret saved
    end
  end.

Definition updateBooking (bookingId : Id) (status : option string)
    (cancellationReason : option string) : Handler Booking.t :=
  match status with
  | None => fail StatusRequired
  | Some statusStr =>
    failWhen (negb (Js.truthy_str status)) StatusRequired >>
    match parseStatus statusStr with
    | None => fail InvalidBookingStatus
    | Some status =>
      let* found := BookingModel.findById bookingId in
      match found with
      | None => fail BookingNotFound
      | Some booking =>
        let oldStatus := Booking.bookingStatus booking in
        let booking := Booking.set_bookingStatus status booking in
        let* booking :=
          if bool_decide (status = cancelled)
             && negb (bool_decide (oldStatus = cancelled))
          then
            let booking :=
              Booking.set_cancellationReason
                (Some (Js.or_str cancellationReason "Cancelled by admin"))
                booking in
            let* car := CarModel.findById (Booking.car booking) in
            match car with
            | Some car =>
              CarModel.save (Booking.car booking) (releaseUnit car) >>
              ret booking
            | None => ret booking
            end
          else ret booking in
        (if bool_decide (status = confirmed)
            && bool_decide (oldStatus = cancelled)
         then
           let* car := CarModel.findById (Booking.car booking) in
           match car with
           | Some car =>
             failWhen (Car.totalCarsAvailable car <=? 0)
                      CarNoLongerAvailable >>
             CarModel.save (Booking.car booking) (takeUnitOnReconfirm car)
           | None => ret tt
           end
         else ret tt) >>
        BookingModel.save bookingId booking
      end
    end
  end.

(** The instants the handler derives from the request. *)
Definition pickupInstant (body : CreateBody) (dateStr : string) : Z :=
  parseDateTime dateStr (Js.or_str (pickupTime body) "10:00 AM").

Definition dropoffInstant (body : CreateBody) (dateStr : string) : Z :=
  parseDateTime dateStr (Js.or_str (dropoffTime body) "10:00 AM").

(** A request reaches the car lookup when its four required fields are
    truthy and its window is not empty. *)
Definition wellFormed (body : CreateBody) (cid : Id) (p d : Z) : Prop :=
  exists pds dds,
    carId body = Some cid /\ pickupDate body = Some pds /\
    dropoffDate body = Some dds /\
    Js.truthy_str (pickupLocation body) = true /\
    pds <> "" /\ dds <> "" /\
    p = pickupInstant body pds /\ d = dropoffInstant body dds /\
    p < d.

(** The database after a successful create. *)
Definition afterCreate (db : Db) (cid : Id) (car : Car.t) (b : Booking.t) : Db :=
  mkDb (users db)
       (<[cid := takeUnitOnCreate car]> (cars db))
       (<[fresh (dom (bookings db)) := b]> (bookings db)).

End Controller.

(** ** Requests to the three handlers, and runs of them *)

Inductive Request : Type :=
| Create (reqUser : ReqUser) (body : CreateBody)
| Cancel (reqUser : ReqUser) (bookingId : Id) (cancellationReason : option string)
| SetStatus (bookingId : Id) (status : option string)
            (cancellationReason : option string).

Definition handle (parseDateTime : string -> string -> Z) (r : Request)
  : Handler Booking.t :=
  match r with
  | Create u body => createBooking parseDateTime u body
  | Cancel u bid reason => cancelBooking u bid reason
  | SetStatus bid status reason => updateBooking bid status reason
  end.

(** The database after a sequence of requests, whatever each one answers. *)
Fixpoint run (parseDateTime : string -> string -> Z) (rs : list Request)
    (db : Db) : Db :=
  match rs with
  | [] => db
  | r :: rs => run parseDateTime rs (handle parseDateTime r db).1
  end.

(** The stored flag agrees with the counter. *)
Definition flagConsistent (c : Car.t) : Prop :=
  Car.isAvailable c = (0 <? Car.totalCarsAvailable c).

Definition carsConsistent (db : Db) : Prop :=
  forall cid c, cars db !! cid = Some c -> flagConsistent c.

(** Documents as the handlers leave them: a stored booking passes its
    validators and has distinct window ends, a stored car passes its
    validators. *)
Definition bookingOk (b : Booking.t) : Prop :=
  Booking.validate b = true /\ Booking.pickupDate b <> Booking.dropoffDate b.

Definition dbOk (db : Db) : Prop :=
  (forall bid b, bookings db !! bid = Some b -> bookingOk b) /\
  (forall cid c, cars db !! cid = Some c -> Car.validate c = true).

(** The status and the unit counter read back from the database. *)
Definition statusOf (db : Db) (bid : Id) : option BookingStatus :=
  Booking.bookingStatus <$> bookings db !! bid.

Definition unitsOf (db : Db) (cid : Id) : option Z :=
  Car.totalCarsAvailable <$> cars db !! cid.

Definition flagOf (db : Db) (cid : Id) : option bool :=
  Car.isAvailable <$> cars db !! cid.

(** ** Sample data for the concrete runs *)

Module Sample.

(** Days since the epoch of the dates used below. *)
Definition dayNumber (d : string) : Z :=
  if bool_decide (d = "2025-06-01") then 20240
  else if bool_decide (d = "2025-06-02") then 20241
  else if bool_decide (d = "2025-06-03") then 20242
  else if bool_decide (d = "2025-06-04") then 20243
  else if bool_decide (d = "2025-06-05") then 20244
  else 0.

Definition minuteOfDay (t : string) : Z :=
  if bool_decide (t = "10:00 AM") then 600
  else if bool_decide (t = "02:00 PM") then 840
  else 0.

(** [parseDateTime] on these dates and times (clock read as UTC). *)
Definition parseDateTime (d t : string) : Z :=
  dayNumber d * oneDay + minuteOfDay t * 60000.

Definition alice : ReqUser := mkReqUser 1 RoleUser.
Definition bob : ReqUser := mkReqUser 2 RoleUser.

Definition people : gset Id := {[ 1%positive; 2%positive ]}.

(** A create request for car 7 from [d1] to [d2], 10:00 AM both ends. *)
Definition request (d1 d2 : string) (insurance driver : option bool)
  : CreateBody :=
  mkCreateBody (Some 7%positive) (Some "Airport") (Some d1) (Some "10:00 AM")
    (Some d2) (Some "10:00 AM") None driver insurance.

(** One car, id 7, rate 50 a day, [n] units, flag [a]; no bookings. *)
Definition garage (n : Z) (a : bool) : Db :=
  mkDb people {[ 7%positive := Car.mk 50 n a ]} ∅.

(** A stored booking of car 7 by alice, 1 to 3 June, in status [s]. *)
Definition stay (s : BookingStatus) : Booking.t :=
  Booking.mk 1 7 (Some "Airport")
    (parseDateTime "2025-06-01" "10:00 AM") (Some "10:00 AM")
    (parseDateTime "2025-06-03" "10:00 AM") (Some "10:00 AM")
    2 50 130 s None false true None.

(** The garage with that booking stored under id 1. *)
Definition garageWith (n : Z) (a : bool) (s : BookingStatus) : Db :=
  mkDb people {[ 7%positive := Car.mk 50 n a ]} {[ 1%positive := stay s ]}.

(** Scenario D: 1 to 4 June with insurance, on the one-unit garage. *)
Definition requestD : CreateBody :=
  request "2025-06-01" "2025-06-04" (Some true) None.

Definition bookedD : Booking.t :=
  Booking.mk 1 7 (Some "Airport")
    (parseDateTime "2025-06-01" "10:00 AM") (Some "10:00 AM")
    (parseDateTime "2025-06-04" "10:00 AM") (Some "10:00 AM")
    3 50 195 confirmed None false true None.

Definition afterD : Db :=
  mkDb people {[ 7%positive := Car.mk 50 0 false ]} {[ 1%positive := bookedD ]}.

(** The stay of [stay]: 1 to 3 June, no flag sent. *)
Definition requestStay : CreateBody :=
  request "2025-06-01" "2025-06-03" None None.

(** The same stay as [requestD] without the [insuranceSelected] field. *)
Definition requestNoFlag : CreateBody :=
  request "2025-06-01" "2025-06-04" None None.

(** An overlapping request, 2 to 4 June. *)
Definition requestOverlap : CreateBody :=
  request "2025-06-02" "2025-06-04" None None.

(** The garage whose flag says available while no unit is left, after the
    stay of [requestNoFlag] was created in it. *)
Definition afterZero : Db :=
  mkDb people {[ 7%positive := Car.mk 50 0 true ]} {[ 1%positive := bookedD ]}.

(** Two stays of car 7 that overlap: alice's, 1 to 3 June, cancelled, and
    bob's, 2 to 4 June, confirmed; one unit left. *)
Definition stayBob : Booking.t :=
  Booking.mk 2 7 (Some "Airport")
    (parseDateTime "2025-06-02" "10:00 AM") (Some "10:00 AM")
    (parseDateTime "2025-06-04" "10:00 AM") (Some "10:00 AM")
    2 50 130 confirmed None false true None.

Definition crowded : Db :=
  mkDb people {[ 7%positive := Car.mk 50 1 true ]}
    (<[ 2%positive := stayBob ]> {[ 1%positive := stay cancelled ]}).

(** A cancelled stay whose car has left the catalogue. *)
Definition orphaned : Db :=
  mkDb people ∅ {[ 1%positive := stay cancelled ]}.

(** Create, cancel, then back to pending and to confirmed by the admin. *)
Definition bounce : list Request :=
  [ Create alice requestNoFlag;
    Cancel alice 1 (Some "change of plans");
    SetStatus 1 (Some "pending") None;
    SetStatus 1 (Some "confirmed") None ].

End Sample.


(** ** The rest of the booking handlers and the code around them *)

(** Status in [confirmed, pending], the statuses the availability queries
    count as holding the car. *)
Definition isActive (b : Booking.t) : bool :=
  bool_decide (Booking.bookingStatus b = confirmed)
  || bool_decide (Booking.bookingStatus b = pending).

(** The strings of the [bookingStatus] enum in models/Booking.js. *)
Definition statusName (st : BookingStatus) : string :=
  match st with
  | pending => "pending"
  | confirmed => "confirmed"
  | cancelled => "cancelled"
  | completed => "completed"
  end.

(** No two distinct active bookings of one car have overlapping windows. *)
Definition noDoubleBooking (db : Db) : Prop :=
  forall i j bi bj,
    i <> j ->
    bookings db !! i = Some bi -> bookings db !! j = Some bj ->
    Booking.car bi = Booking.car bj ->
    isActive bi = true -> isActive bj = true ->
    ~ (Booking.pickupDate bi < Booking.dropoffDate bj /\
       Booking.pickupDate bj < Booking.dropoffDate bi).

(** A status update that moves a cancelled or completed booking to pending
    or confirmed. *)
Definition reactivates (db : Db) (r : Request) : bool :=
  match r with
  | SetStatus bid (Some s) _ =>
    match parseStatus s, bookings db !! bid with
    | Some st, Some b =>
      (bool_decide (st = confirmed) || bool_decide (st = pending))
      && negb (isActive b)
    | _, _ => false
    end
  | _ => false
  end.

(** The number of active bookings of car [cid]. *)
Definition unitsHeld (db : Db) (cid : Id) : Z :=
  Z.of_nat
    (size (filter (fun kv : Id * Booking.t =>
                     isActive kv.2 = true /\ Booking.car kv.2 = cid)
                  (bookings db))).

(** The fields of a booking that no handler writes after creation. *)
Definition sameReservation (b b' : Booking.t) : Prop :=
  Booking.user b' = Booking.user b /\
  Booking.car b' = Booking.car b /\
  Booking.pickupLocation b' = Booking.pickupLocation b /\
  Booking.pickupDate b' = Booking.pickupDate b /\
  Booking.pickupTime b' = Booking.pickupTime b /\
  Booking.dropoffDate b' = Booking.dropoffDate b /\
  Booking.dropoffTime b' = Booking.dropoffTime b /\
  Booking.pricePerDay b' = Booking.pricePerDay b /\
  Booking.specialRequests b' = Booking.specialRequests b /\
  Booking.additionalDriver b' = Booking.additionalDriver b /\
  Booking.insuranceSelected b' = Booking.insuranceSelected b.

(** A document whose day count and price are the ones the pre-save hook
    computes from its dates, rate and flags. *)
Definition hookPriced (b : Booking.t) : Prop :=
  Booking.totalDays b =
    Js.ceil_div (Z.abs (Booking.dropoffDate b - Booking.pickupDate b)) oneDay /\
  Booking.totalPrice b =
    Booking.pricePerDay b * Booking.totalDays b
    + (if Booking.insuranceSelected b then 15 * Booking.totalDays b else 0)
    + (if Booking.additionalDriver b then 10 * Booking.totalDays b else 0).

(** Every booking refers to a user that still exists. *)
Definition requestersResolve (db : Db) : Prop :=
  forall bid b, bookings db !! bid = Some b -> Booking.user b ∈ users db.

(** *** [getBooking] (controllers/bookings.js) *)

Inductive ViewError : Type :=
| ViewBookingNotFound      (* 404 Booking not found *)
| ViewNotAuthorized        (* 403 You are not authorized to view this booking *)
| ViewTypeError.           (* booking.user is null *)

Inductive ViewOutcome : Type :=
| ViewOk (b : Booking.t)
| ViewErr (e : ViewError).

(** The handler only reads. *)
Definition getBooking (reqUser : ReqUser) (bookingId : Id) (db : Db)
  : ViewOutcome :=
  match bookings db !! bookingId with
  | None => ViewErr ViewBookingNotFound
  | Some booking =>
    if negb (bool_decide (Booking.user booking ∈ users db))
    then ViewErr ViewTypeError
    else if negb (bool_decide (Booking.user booking = uid reqUser))
            && negb (bool_decide (role reqUser = RoleAdmin))
    then ViewErr ViewNotAuthorized
    else ViewOk booking
  end.

(** *** The hour conversion of [parseDateTime] (and of [getCars]) *)

(** [if (period === "PM" && hours < 12) hours += 12;
     if (period === "AM" && hours === 12) hours = 0;]
    [period] is [None] when the time text has no second word. *)
Definition hours24 (period : option string) (hours : Z) : Z :=
  let hours1 :=
    if bool_decide (period = Some "PM") && (hours <? 12)
    then hours + 12 else hours in
  if bool_decide (period = Some "AM") && (hours1 =? 12) then 0 else hours1.

(** *** Pagination of [getAllBookings] (same arithmetic in [getCars] and
    [getAllUsers]) *)

(** [(pageNum - 1) * limitNum] *)
Definition skipOf (pageNum limitNum : Z) : Z := (pageNum - 1) * limitNum.

(** [.skip(skip).limit(limitNum)] on the sorted result, for [pageNum >= 1]
    and [limitNum >= 1]. *)
Definition pageDocs {A : Type} (pageNum limitNum : Z) (docs : list A)
  : list A :=
  take (Z.to_nat limitNum) (drop (Z.to_nat (skipOf pageNum limitNum)) docs).

(** [Math.ceil(total / limitNum)] *)
Definition pagesOf (total limitNum : Z) : Z := Js.ceil_div total limitNum.

(** Pages [first], [first + 1], ..., [first + n - 1], one after the other. *)
Fixpoint pagesFrom {A : Type} (first : Z) (n : nat) (limitNum : Z)
    (docs : list A) : list A :=
  match n with
  | O => []
  | S n => pageDocs first limitNum docs
           ++ pagesFrom (first + 1) n limitNum docs
  end.

(** *** Numbers of the helpers: binary64 *)

(** The helpers of utils/helpers.js compute on JavaScript numbers.  A
    finite double that is not negative is kept as [mant * 2 ^ expo]; the
    results of [-] and [/] are the nearest doubles, ties to the even
    mantissa.  The values met below lie between 1 / 86400000 and 2 ^ 54, so
    neither subnormal numbers nor overflow are modelled. *)
Module Double.

Record t : Type := mk { mant : Z; expo : Z }.

(** The whole number nearest to [num / den], ties to the even one. *)
Definition roundHalfEven (num den : Z) : Z :=
  let f := num / den in
  let r := num mod den in
  if 2 * r <? den then f
  else if den <? 2 * r then f + 1
  else if Z.even f then f else f + 1.

(** The double nearest to [a / b], for [0 <= a] and [0 < b]: [lg] is the
    binary exponent of the quotient and the mantissa has 53 bits. *)
Definition round (a b : Z) : t :=
  if a <=? 0 then mk 0 0
  else
    let k := Z.log2 a - Z.log2 b in
    let lg :=
      if a * 2 ^ Z.max 0 (- k) <? b * 2 ^ Z.max 0 k then k - 1 else k in
    let e := lg - 52 in
    mk (roundHalfEven (a * 2 ^ Z.max 0 (- e)) (b * 2 ^ Z.max 0 e)) e.

(** The double nearest to a whole number that is not negative. *)
Definition ofZ (z : Z) : t := round z 1.

(** [x / d] for a whole number [d > 0]. *)
Definition div (x : t) (d : Z) : t :=
  round (mant x * 2 ^ Z.max 0 (expo x)) (d * 2 ^ Z.max 0 (- expo x)).

(** [Math.ceil(x)] *)
Definition ceil (x : t) : Z :=
  if 0 <=? expo x then mant x * 2 ^ expo x
  else Js.ceil_div (mant x) (2 ^ (- expo x)).

End Double.

(** *** utils/helpers.js *)

Module Helpers.

(** The largest time value of a [Date]; beyond it [new Date(x)] is an
    invalid date, whose time value is [NaN]. *)
Definition maxTime : Z := 8640000000000000.

(** [calculateTotalDays(pickupDate, dropoffDate)] on the time values of the
    two arguments: [None] is [NaN].  [dropoff - pickup] is the double
    nearest to the difference of the two time values, and [Math.abs] of it
    is the double nearest to the absolute difference. *)
Definition calculateTotalDays (pickupDate dropoffDate : Z) : option Z :=
  if (Z.abs pickupDate <=? maxTime) && (Z.abs dropoffDate <=? maxTime)
  then Some (Double.ceil
               (Double.div (Double.ofZ (Z.abs (dropoffDate - pickupDate)))
                  oneDay))
  else None.

(** [slugify(text)] is modelled on the list of the characters of [text], for
    characters below 128, where [\s], [\w], [trim] and [toLowerCase] are
    what follows. *)

(** [\s] on a character below 128: tab, line feed, vertical tab, form feed,
    carriage return, space. *)
Definition isSpace (c : ascii) : bool :=
  let n := nat_of_ascii c in
  ((9 <=? n) && (n <=? 13))%nat || (n =? 32)%nat.

Definition isUpper (c : ascii) : bool :=
  let n := nat_of_ascii c in ((65 <=? n) && (n <=? 90))%nat.

(** [\w]: letters, digits and the underscore. *)
Definition isWord (c : ascii) : bool :=
  let n := nat_of_ascii c in
  ((48 <=? n) && (n <=? 57))%nat || ((65 <=? n) && (n <=? 90))%nat
  || ((97 <=? n) && (n <=? 122))%nat || (n =? 95)%nat.

Definition dash : ascii := "-"%char.

Definition isDash (c : ascii) : bool := (nat_of_ascii c =? 45)%nat.

(** [.toLowerCase()] on a character below 128. *)
Definition toLowerChar (c : ascii) : ascii :=
  if isUpper c then ascii_of_nat (nat_of_ascii c + 32) else c.

(** [.trim()] *)
Fixpoint trimStart (l : list ascii) : list ascii :=
  match l with
  | c :: l' => if isSpace c then trimStart l' else l
  | [] => []
  end.

Definition trim (l : list ascii) : list ascii :=
  rev (trimStart (rev (trimStart l))).

(** [.replace(/\s+/g, '-')]: every maximal run of white space becomes one
    dash; [inRun] says that the previous character was white space. *)
Fixpoint spacesToDash (inRun : bool) (l : list ascii) : list ascii :=
  match l with
  | c :: l' =>
    if isSpace c
    then (if inRun then spacesToDash true l' else dash :: spacesToDash true l')
    else c :: spacesToDash false l'
  | [] => []
  end.

(** [.replace(/[^\w\-]+/g, '')] *)
Definition dropNonWord (l : list ascii) : list ascii :=
  List.filter (fun c => isWord c || isDash c) l.

(** [.replace(/\-\-+/g, '-')]: every run of two or more dashes becomes one
    dash; [afterDash] says that the previous character was a dash. *)
Fixpoint collapseDashes (afterDash : bool) (l : list ascii) : list ascii :=
  match l with
  | c :: l' =>
    if isDash c
    then (if afterDash then collapseDashes true l'
          else c :: collapseDashes true l')
    else c :: collapseDashes false l'
  | [] => []
  end.

(** [slugify(text)] on the characters of [text]. *)
Definition slugify (l : list ascii) : list ascii :=
  collapseDashes false
    (dropNonWord (spacesToDash false (trim (map toLowerChar l)))).

(** A lower-case letter, a digit, an underscore or a dash. *)
Definition slugChar (c : ascii) : bool :=
  (isWord c || isDash c) && negb (isUpper c).

(** No two dashes in a row; [afterDash] as above. *)
Fixpoint noDoubleDash (afterDash : bool) (l : list ascii) : bool :=
  match l with
  | c :: l' =>
    if isDash c then negb afterDash && noDoubleDash true l'
    else noDoubleDash false l'
  | [] => true
  end.

End Helpers.

(** *** The date filter of [getCars] (controllers/cars.js) *)

(** The filter of [Booking.find] in [getCars]: overlap and active status,
    whatever the car. *)
Definition windowQuery (pickupDateTime dropoffDateTime : Z)
    (b : Booking.t) : bool :=
  (Booking.pickupDate b <? dropoffDateTime)
  && (pickupDateTime <? Booking.dropoffDate b)
  && (bool_decide (Booking.bookingStatus b = confirmed)
      || bool_decide (Booking.bookingStatus b = pending)).

(** [.distinct("car")] of the bookings found. *)
Definition bookedCarIds (pickupDateTime dropoffDateTime : Z) (db : Db)
  : gset Id :=
  list_to_set
    (Booking.car <$>
       List.filter (windowQuery pickupDateTime dropoffDateTime)
         (snd <$> map_to_list (bookings db))).

(** The part of [queryObj] that every [getCars] query with both dates
    carries: [isAvailable: true] and, when some car is booked,
    [_id: { $nin: bookedCarIds }].  The optional filters (location, type,
    transmission, brand, passengers, price) only narrow the result
    further. *)
Definition listedFor (pickupDateTime dropoffDateTime : Z) (db : Db)
    (cid : Id) (c : Car.t) : bool :=
  let booked := bookedCarIds pickupDateTime dropoffDateTime db in
  Car.isAvailable c
  && (if bool_decide (booked = ∅) then true
      else negb (bool_decide (cid ∈ booked))).

(** *** The counter and the flag [createCar] stores (controllers/cars.js) *)

(** [parseInt(totalCarsAvailable) || 1]; [None] is [NaN]. *)
Definition createdUnits (parsed : option Z) : Z :=
  match parsed with
  | Some n => if n =? 0 then 1 else n
  | None => 1
  end.

(** [parseInt(totalCarsAvailable) > 0] *)
Definition createdFlag (parsed : option Z) : bool :=
  match parsed with
  | Some n => 0 <? n
  | None => false
  end.

(** *** [deleteUser] (controllers/admin.js) *)

Inductive AdminError : Type :=
| UserNotFound               (* 404 User not found *)
| UserHasBookings.           (* 400 Cannot delete user with existing bookings *)

Definition deleteUser (userId : Id) (db : Db) : Db * option AdminError :=
  if bool_decide (userId ∈ users db) then
    let userBookings :=
      size (filter (fun kv : Id * Booking.t => Booking.user kv.2 = userId)
                   (bookings db)) in
    if (0 <? userBookings)%nat then (db, Some UserHasBookings)
    else (mkDb (users db ∖ {[ userId ]}) (cars db) (bookings db), None)
  else (db, Some UserNotFound).

(** *** The revenue of the dashboard (controllers/admin.js) *)

(** [$match: { bookingStatus: 'confirmed' }], [$sum: '$totalPrice'];
    0 when nothing matches.  Prices are whole numbers in this development:
    the sum below is the one of the code where [exactRevenue] holds. *)
Definition revenue (db : Db) : Z :=
  map_fold (fun (_ : Id) (b : Booking.t) acc =>
              if bool_decide (Booking.bookingStatus b = confirmed)
              then Booking.totalPrice b + acc else acc)
           0 (bookings db).

(** The sums of the dashboard are exact on [db]: prices are whole numbers
    in this development, none is negative, and the sum over the confirmed
    bookings stays below [2 ^ 53], so that adding the stored numbers rounds
    nowhere, in whatever order they are added. *)
Definition exactRevenue (db : Db) : Prop :=
  map_Forall (fun (_ : Id) (b : Booking.t) => 0 <= Booking.totalPrice b)
             (bookings db) /\
  revenue db < 2 ^ 53.

(** *** [booking.updatedAt] in [updateBooking] (controllers/bookings.js) *)

(** The [updatedAt] values of the stored bookings, kept beside the
    database. *)
Record Stamped : Type := mkStamped {
  docs : Db;
  updatedAt : gmap Id Z
}.

(** [updateBooking] with line 338, [booking.updatedAt = Date.now()]: [now]
    is the reading of the clock.  The assignment is made on the loaded
    document and reaches the collection with [booking.save()] at line 383,
    so when the handler answers with the booking; the document of the
    answer carries it. *)
Definition updateBookingAt (now : Z) (bookingId : Id) (status : option string)
    (cancellationReason : option string) (s : Stamped)
  : Stamped * Outcome (Booking.t * Z) :=
  let r := updateBooking bookingId status cancellationReason (docs s) in
  match r.2 with
  | Ok booking =>
    (mkStamped r.1 (<[bookingId := now]> (updatedAt s)), Ok (booking, now))
  | Err e => (mkStamped r.1 (updatedAt s), Err e)
  end.

(** *** A garage with two stays *)

Module Busy.

(** Alice's stay of car 7, 1 to 2 June, confirmed. *)
Definition early : Booking.t :=
  Booking.mk 1 7 (Some "Airport")
    (Sample.parseDateTime "2025-06-01" "10:00 AM") (Some "10:00 AM")
    (Sample.parseDateTime "2025-06-02" "10:00 AM") (Some "10:00 AM")
    1 50 65 confirmed None false true None.

(** Bob's stay of car 7 with a second driver, 4 to 5 June, confirmed. *)
Definition late : Booking.t :=
  Booking.mk 2 7 (Some "Airport")
    (Sample.parseDateTime "2025-06-04" "10:00 AM") (Some "10:00 AM")
    (Sample.parseDateTime "2025-06-05" "10:00 AM") (Some "10:00 AM")
    1 50 75 confirmed None true true None.

(** Car 7 with one unit left and both stays stored. *)
Definition db : Db :=
  mkDb Sample.people {[ 7%positive := Car.mk 50 1 true ]}
    (<[ 2%positive := late ]> {[ 1%positive := early ]}).

(** The days between the two stays, 2 to 4 June. *)
Definition between : CreateBody :=
  Sample.request "2025-06-02" "2025-06-04" None None.

(** The stay created for [between]. *)
Definition middle : Booking.t :=
  Booking.mk 1 7 (Some "Airport")
    (Sample.parseDateTime "2025-06-02" "10:00 AM") (Some "10:00 AM")
    (Sample.parseDateTime "2025-06-04" "10:00 AM") (Some "10:00 AM")
    2 50 130 confirmed None false true None.

End Busy.

(** * Properties *)

(** ** Integer ceiling *)

Lemma oneDay_pos : 0 < oneDay.
Proof. reflexivity. Qed.

Lemma ceil_div_bounds (a b : Z) :
  0 < b -> (Js.ceil_div a b - 1) * b < a <= Js.ceil_div a b * b.
Proof.
  intros Hb. unfold Js.ceil_div.
  pose proof (Z.div_mod a b ltac:(lia)) as Hdm.
  pose proof (Z.mod_pos_bound a b Hb) as Hm.
  destruct (Z.eqb_spec (a mod b) 0) as [E | E]; nia.
Qed.

Lemma ceil_div_unique (a b n : Z) :
  0 < b -> (n - 1) * b < a <= n * b -> Js.ceil_div a b = n.
Proof.
  intros Hb Hn. pose proof (ceil_div_bounds a b Hb) as Hc. nia.
Qed.

Lemma ceil_div_pos (a b : Z) : 0 < b -> 0 < a -> 1 <= Js.ceil_div a b.
Proof.
  intros Hb Ha. pose proof (ceil_div_bounds a b Hb) as Hc. nia.
Qed.

(** ** Queries over the booking collection *)

Lemma findOneIn_None (q : Booking.t -> bool) (bs : gmap Id Booking.t) :
  findOneIn q bs = None <->
  forall bid b, bs !! bid = Some b -> q b = false.
Proof.
  unfold findOneIn. split.
  - intros Hnone bid b Hb.
    destruct (List.find _ _) as [kv|] eqn:Hfind; [discriminate|].
    apply (find_none _ _ Hfind (bid, b)).
    apply list_elem_of_In, elem_of_map_to_list, Hb.
  - intros Hall.
    destruct (List.find _ _) as [[bid b]|] eqn:Hfind; [|reflexivity].
    apply find_some in Hfind as [Hin Hq]. simpl in Hq.
    apply list_elem_of_In, elem_of_map_to_list in Hin.
    rewrite (Hall _ _ Hin) in Hq. discriminate.
Qed.

Lemma findOneIn_Some (q : Booking.t -> bool) (bs : gmap Id Booking.t) b :
  findOneIn q bs = Some b ->
  exists bid, bs !! bid = Some b /\ q b = true.
Proof.
  unfold findOneIn.
  destruct (List.find _ _) as [[bid b']|] eqn:Hfind; [|discriminate].
  intros [= <-]. apply find_some in Hfind as [Hin Hq]. simpl in Hq.
  apply list_elem_of_In, elem_of_map_to_list in Hin. eauto.
Qed.

Lemma findOneIn_is_Some (q : Booking.t -> bool) (bs : gmap Id Booking.t) :
  is_Some (findOneIn q bs) <->
  exists bid b, bs !! bid = Some b /\ q b = true.
Proof.
  split.
  - intros [b Hb]. apply findOneIn_Some in Hb as [bid ?]. eauto.
  - intros (bid & b & Hb & Hq).
    destruct (findOneIn q bs) eqn:E; [eauto|].
    rewrite findOneIn_None in E. rewrite (E _ _ Hb) in Hq. discriminate.
Qed.

(** ** The decision tree of [createBooking] *)

Ltac unfold_handler :=
  unfold bind, failWhen, fail, ret, CarModel.findById, CarModel.save,
    BookingModel.findById, BookingModel.findOne, BookingModel.save,
    BookingModel.create, BookingModel.populatedUser, Car.save, Booking.save
    in *.

Section CreateBooking.

Variable parseDateTime : string -> string -> Z.

#[local] Abbreviation wellFormed := (wellFormed parseDateTime).
#[local] Abbreviation pickupInstant := (pickupInstant parseDateTime).
#[local] Abbreviation dropoffInstant := (dropoffInstant parseDateTime).

Lemma createBooking_at_car reqUser body db cid p d :
  wellFormed body cid p d ->
  createBooking parseDateTime reqUser body db =
  match cars db !! cid with
  | None => (db, Err CarNotFound)
  | Some car =>
    if negb (Car.isAvailable car) then (db, Err CarNotAvailable)
    else if bool_decide (is_Some (findOneIn (overlapQuery cid p d) (bookings db)))
    then (db, Err AlreadyBookedForDates)
    else
      let doc := newBooking reqUser body cid p d car in
      if Booking.validate doc then
        let db1 := mkDb (users db) (cars db)
                     (<[fresh (dom (bookings db)) := Booking.pre_save doc]>
                        (bookings db)) in
        if Car.validate (takeUnitOnCreate car)
        then (afterCreate db cid car (Booking.pre_save doc),
              Ok (Booking.pre_save doc))
        else (db1, Err ValidationError)
      else (db, Err ValidationError)
  end.
Proof.
  intros (pds & dds & Hc & Hp & Hd & Hloc & Hpds & Hdds & -> & -> & Hlt).
  unfold createBooking. rewrite Hc, Hp, Hd, Hloc. unfold_handler. simpl.
  rewrite !bool_decide_eq_false_2 by assumption. simpl.
  fold (pickupInstant body pds) (dropoffInstant body dds).
  destruct (dropoffInstant body dds <=? pickupInstant body pds) eqn:Hle;
    [apply Z.leb_le in Hle; lia|].
  destruct (cars db !! cid) as [car|]; [|reflexivity].
  destruct (Car.isAvailable car); [|reflexivity]. simpl.
  destruct (bool_decide (is_Some _)); [reflexivity|].
  assert (Hdays : (Js.ceil_div (dropoffInstant body dds - pickupInstant body pds)
                     oneDay <? 1) = false).
  { apply Z.ltb_ge, ceil_div_pos; [apply oneDay_pos | lia]. }
  rewrite Hdays.
  destruct (Booking.validate _); [|reflexivity]. simpl.
  destruct (Car.validate _); reflexivity.
Qed.

(** Without its four required fields or with an empty window the request
    never reaches the car lookup. *)
Lemma createBooking_Ok_wellFormed reqUser body db db' b :
  createBooking parseDateTime reqUser body db = (db', Ok b) ->
  exists cid p d, wellFormed body cid p d.
Proof.
  unfold createBooking, wellFormed.
  destruct (carId body) as [cid|] eqn:Hc; [|discriminate].
  destruct (pickupDate body) as [pds|] eqn:Hp; [|discriminate].
  destruct (dropoffDate body) as [dds|] eqn:Hd; [|discriminate].
  unfold_handler.
  destruct (Js.truthy_str (pickupLocation body)) eqn:Hloc; [|discriminate].
  simpl.
  destruct (bool_decide (pds = "")) eqn:Hpds; [discriminate|].
  destruct (bool_decide (dds = "")) eqn:Hdds; [discriminate|].
  simpl.
  fold (pickupInstant body pds) (dropoffInstant body dds).
  destruct (dropoffInstant body dds <=? pickupInstant body pds) eqn:Hle;
    [discriminate|].
  intros _. exists cid, (pickupInstant body pds), (dropoffInstant body dds),
    pds, dds.
  apply bool_decide_eq_false in Hpds, Hdds. apply Z.leb_gt in Hle.
  repeat split; auto.
Qed.

(** A successful create, read backwards. *)
Lemma createBooking_Ok_inv reqUser body db db' b :
  createBooking parseDateTime reqUser body db = (db', Ok b) ->
  exists cid p d car,
    wellFormed body cid p d /\
    cars db !! cid = Some car /\
    Car.isAvailable car = true /\
    findOneIn (overlapQuery cid p d) (bookings db) = None /\
    Booking.validate (newBooking reqUser body cid p d car) = true /\
    b = Booking.pre_save (newBooking reqUser body cid p d car) /\
    db' = afterCreate db cid car b.
Proof.
  intros Hrun.
  destruct (createBooking_Ok_wellFormed _ _ _ _ _ Hrun) as (cid & p & d & Hwf).
  rewrite (createBooking_at_car reqUser body db cid p d Hwf) in Hrun.
  destruct (cars db !! cid) as [car|] eqn:Hcar; [|discriminate].
  destruct (Car.isAvailable car) eqn:Ha; [|discriminate]. simpl in Hrun.
  destruct (findOneIn _ _) as [x|] eqn:Hfind.
  { rewrite bool_decide_eq_true_2 in Hrun by eauto. discriminate. }
  rewrite bool_decide_eq_false_2 in Hrun by (intros [? ?]; discriminate).
  destruct (Booking.validate _) eqn:Hv; [|discriminate]. simpl in Hrun.
  destruct (Car.validate _); [|discriminate].
  injection Hrun as <- <-.
  exists cid, p, d, car. repeat split; auto.
Qed.

End CreateBooking.

(** ** What the pre-save hook stores *)

Lemma pre_save_totalDays (b : Booking.t) :
  Booking.totalDays (Booking.pre_save b) =
  Js.ceil_div (Z.abs (Booking.dropoffDate b - Booking.pickupDate b)) oneDay.
Proof. reflexivity. Qed.

Lemma pre_save_totalPrice (b : Booking.t) :
  let days := Booking.totalDays (Booking.pre_save b) in
  Booking.totalPrice (Booking.pre_save b) =
  Booking.pricePerDay b * days
  + (if Booking.insuranceSelected b then 15 * days else 0)
  + (if Booking.additionalDriver b then 10 * days else 0).
Proof.
  unfold Booking.pre_save. simpl.
  destruct (Booking.insuranceSelected b), (Booking.additionalDriver b); lia.
Qed.

Lemma pre_save_idempotent (b : Booking.t) :
  Booking.pre_save (Booking.pre_save b) = Booking.pre_save b.
Proof. reflexivity. Qed.

(** ** Pricing of a created booking *)

(** C4. A successfully created booking is stored with a non-empty window,
    with [totalDays] the ceiling of the window length over one day
    (86400000 ms), at least 1, and with
    [totalPrice = pricePerDay * totalDays], plus [15 * totalDays] when the
    stored [insuranceSelected] is true, plus [10 * totalDays] when the
    stored [additionalDriver] is true. *)
Theorem created_booking_days_and_price parseDateTime reqUser body db db' b :
  createBooking parseDateTime reqUser body db = (db', Ok b) ->
  let window := Booking.dropoffDate b - Booking.pickupDate b in
  let days := Booking.totalDays b in
  bookings db' !! fresh (dom (bookings db)) = Some b /\
  0 < window /\
  days = Js.ceil_div window 86400000 /\
  (days - 1) * 86400000 < window <= days * 86400000 /\
  1 <= days /\
  Booking.totalPrice b =
    Booking.pricePerDay b * days
    + (if Booking.insuranceSelected b then 15 * days else 0)
    + (if Booking.additionalDriver b then 10 * days else 0).
Proof.
  intros Hrun.
  apply createBooking_Ok_inv in Hrun
    as (cid & p & d & car & Hwf & _ & _ & _ & _ & Hb & Hdb).
  destruct Hwf as (pds & dds & _ & _ & _ & _ & _ & _ & _ & _ & Hlt).
  assert (Hwin : Booking.dropoffDate b - Booking.pickupDate b = d - p)
    by (subst b; reflexivity).
  assert (Hdays : Booking.totalDays b = Js.ceil_div (d - p) oneDay).
  { subst b. rewrite pre_save_totalDays. simpl. f_equal. lia. }
  cbv zeta. rewrite Hwin, Hdays.
  pose proof (ceil_div_bounds (d - p) oneDay oneDay_pos) as Hc.
  change oneDay with 86400000 in *.
  split; [subst db'; apply lookup_insert_eq|].
  split; [lia|]. split; [reflexivity|]. split; [exact Hc|]. split; [nia|].
  rewrite <- Hdays. rewrite Hb at 1 2 3 4.
  rewrite (pre_save_totalPrice (newBooking reqUser body cid p d car)).
  rewrite Hb. reflexivity.
Qed.

(** [created_booking_days_and_price] on the sample data. *)
Lemma created_booking_days_and_price_witness :
  createBooking Sample.parseDateTime Sample.alice Sample.requestD
    (Sample.garage 1 true) = (Sample.afterD, Ok Sample.bookedD)
  /\ Booking.totalDays Sample.bookedD = 3
  /\ Booking.totalPrice Sample.bookedD = 50 * 3 + 15 * 3.
Proof.
  assert (H : createBooking Sample.parseDateTime Sample.alice Sample.requestD
                (Sample.garage 1 true) = (Sample.afterD, Ok Sample.bookedD))
    by (vm_compute; reflexivity).
  split; [exact H|].
  destruct (created_booking_days_and_price _ _ _ _ _ _ H)
    as (_ & _ & Hdays & _ & _ & Hprice).
  split; [exact Hdays | exact Hprice].
Defined.

(** C10. When the request omits [insuranceSelected], the document the
    controller hands to [Booking.create] is [newBooking] of the request, the
    car of the catalogue and the instants of the request; its [totalPrice]
    is the controller's price, which reads the omitted flag as false and so
    is the daily rate times the days plus the driver surcharge only; the
    stored booking is that document after the pre-save hook, has
    [insuranceSelected = true], and its [totalPrice] is the controller's
    price plus [15 * totalDays]. *)
Theorem omitted_insurance_is_stored_and_charged
    parseDateTime reqUser body db db' b :
  insuranceSelected body = None ->
  createBooking parseDateTime reqUser body db = (db', Ok b) ->
  exists cid p d car,
    wellFormed parseDateTime body cid p d /\
    cars db !! cid = Some car /\
    let doc := newBooking reqUser body cid p d car in
    let controllerPrice :=
      controllerTotalPrice (Car.pricePerDay car) (Booking.totalDays b)
        (insuranceSelected body) (additionalDriver body) in
    b = Booking.pre_save doc /\
    bookings db' !! fresh (dom (bookings db)) = Some b /\
    Booking.insuranceSelected doc = true /\
    Booking.insuranceSelected b = true /\
    Booking.totalDays doc = Booking.totalDays b /\
    Booking.pricePerDay b = Car.pricePerDay car /\
    Booking.totalPrice doc = controllerPrice /\
    controllerPrice =
      Car.pricePerDay car * Booking.totalDays b
      + (if Js.truthy (additionalDriver body)
         then 10 * Booking.totalDays b else 0) /\
    Booking.totalPrice b = controllerPrice + 15 * Booking.totalDays b /\
    controllerPrice < Booking.totalPrice b.
Proof.
  intros Hins Hrun.
  pose proof (created_booking_days_and_price _ _ _ _ _ _ Hrun)
    as (Hstored & _ & _ & _ & Hone & Hprice).
  apply createBooking_Ok_inv in Hrun
    as (cid & p & d & car & Hwf & Hcar & _ & _ & _ & Hb & Hdb).
  exists cid, p, d, car. split; [exact Hwf|]. split; [exact Hcar|].
  destruct Hwf as (pds & dds & _ & _ & _ & _ & _ & _ & _ & _ & Hlt).
  cbv zeta.
  assert (Hflag : Booking.insuranceSelected b = true)
    by (subst b; simpl; rewrite Hins; reflexivity).
  assert (Hdrv : Booking.additionalDriver b = Js.truthy (additionalDriver body))
    by (subst b; reflexivity).
  assert (Hrate : Booking.pricePerDay b = Car.pricePerDay car)
    by (subst b; reflexivity).
  assert (Hdays : Booking.totalDays (newBooking reqUser body cid p d car)
                  = Booking.totalDays b).
  { subst b. rewrite pre_save_totalDays. simpl. f_equal. lia. }
  assert (Hctl : controllerTotalPrice (Car.pricePerDay car)
                   (Booking.totalDays b) (insuranceSelected body)
                   (additionalDriver body) =
                 Car.pricePerDay car * Booking.totalDays b
                 + (if Js.truthy (additionalDriver body)
                    then 10 * Booking.totalDays b else 0)).
  { unfold controllerTotalPrice. rewrite Hins. simpl.
    destruct (Js.truthy (additionalDriver body)); lia. }
  assert (Hdoc : Booking.totalPrice (newBooking reqUser body cid p d car) =
                 controllerTotalPrice (Car.pricePerDay car)
                   (Booking.totalDays b) (insuranceSelected body)
                   (additionalDriver body)).
  { rewrite <- Hdays. reflexivity. }
  rewrite Hflag, Hdrv, Hrate in Hprice.
  split; [exact Hb|]. split; [exact Hstored|].
  split; [simpl; rewrite Hins; reflexivity|].
  split; [exact Hflag|]. split; [exact Hdays|]. split; [exact Hrate|].
  split; [exact Hdoc|]. split; [exact Hctl|].
  rewrite Hctl, Hprice.
  split; destruct (Js.truthy (additionalDriver body)); lia.
Qed.

(** [omitted_insurance_is_stored_and_charged] on the sample data: three
    days at 50, controller's price 150, stored price 195. *)
Lemma omitted_insurance_is_stored_and_charged_witness :
  insuranceSelected Sample.requestNoFlag = None
  /\ createBooking Sample.parseDateTime Sample.alice Sample.requestNoFlag
       (Sample.garage 1 true) = (Sample.afterD, Ok Sample.bookedD)
  /\ exists p d car,
       cars (Sample.garage 1 true) !! 7%positive = Some car /\
       Sample.bookedD
       = Booking.pre_save
           (newBooking Sample.alice Sample.requestNoFlag 7 p d car) /\
       Booking.insuranceSelected Sample.bookedD = true /\
       Booking.totalPrice
         (newBooking Sample.alice Sample.requestNoFlag 7 p d car) = 150 /\
       controllerTotalPrice (Car.pricePerDay car) 3 None None = 150 /\
       Booking.totalPrice Sample.bookedD = 195.
Proof.
  assert (H : createBooking Sample.parseDateTime Sample.alice
                Sample.requestNoFlag (Sample.garage 1 true)
              = (Sample.afterD, Ok Sample.bookedD))
    by (vm_compute; reflexivity).
  split; [reflexivity|]. split; [exact H|].
  destruct (omitted_insurance_is_stored_and_charged Sample.parseDateTime
              Sample.alice Sample.requestNoFlag _ _ _ eq_refl H)
    as (cid & p & d & car & Hwf & Hcar & Hb & _ & _ & Hflag & _ & _ & Hdoc
        & Hctl & Hprice & _).
  destruct Hwf as (pds & dds & Hcid & _).
  injection Hcid as <-.
  exists p, d, car. split; [exact Hcar|]. split; [exact Hb|].
  split; [exact Hflag|].
  unfold Sample.garage in Hcar. cbn [cars] in Hcar.
  apply lookup_singleton_Some in Hcar as [_ <-].
  split; [rewrite Hdoc; reflexivity|]. split; [reflexivity|reflexivity].
Defined.

(** ** The sample states are states the handlers produce *)

Lemma sample_states_reachable :
  run Sample.parseDateTime [Create Sample.alice Sample.requestStay]
    (Sample.garage 1 true) = Sample.garageWith 0 false confirmed /\
  run Sample.parseDateTime
    [Create Sample.alice Sample.requestStay;
     SetStatus 1 (Some "completed") None]
    (Sample.garage 1 true) = Sample.garageWith 0 false completed /\
  run Sample.parseDateTime [Create Sample.alice Sample.requestStay]
    (Sample.garage 2 true) = Sample.garageWith 1 true confirmed.
Proof. vm_compute. repeat split; reflexivity. Qed.

(** ** Capacity checks of [createBooking] *)

Lemma overlapQuery_true (cid : Id) (p d : Z) (b : Booking.t) :
  overlapQuery cid p d b = true <->
  Booking.car b = cid /\
  (Booking.bookingStatus b = pending \/ Booking.bookingStatus b = confirmed) /\
  p < Booking.dropoffDate b /\ Booking.pickupDate b < d.
Proof.
  unfold overlapQuery.
  rewrite !andb_true_iff, orb_true_iff, !bool_decide_eq_true, !Z.ltb_lt.
  tauto.
Qed.

Lemma takeUnitOnCreate_units (c : Car.t) :
  Car.totalCarsAvailable (takeUnitOnCreate c) =
  Z.max 0 (Car.totalCarsAvailable c - 1).
Proof. unfold takeUnitOnCreate. destruct (_ =? 1); reflexivity. Qed.

Lemma takeUnitOnCreate_valid (c : Car.t) :
  Car.validate c = true -> Car.validate (takeUnitOnCreate c) = true.
Proof.
  unfold Car.validate. rewrite !andb_true_iff, !Z.leb_le.
  rewrite takeUnitOnCreate_units.
  unfold takeUnitOnCreate. destruct (_ =? 1); simpl; lia.
Qed.

Lemma sample_wellFormed (d1 d2 : string) ins drv :
  d1 <> "" -> d2 <> "" ->
  Sample.parseDateTime d1 "10:00 AM" < Sample.parseDateTime d2 "10:00 AM" ->
  wellFormed Sample.parseDateTime (Sample.request d1 d2 ins drv) 7
    (Sample.parseDateTime d1 "10:00 AM") (Sample.parseDateTime d2 "10:00 AM").
Proof.
  intros H1 H2 Hlt. exists d1, d2. repeat split; auto.
Qed.

(** C1, as stated, fails: car 7 has [isAvailable = true] and
    [totalCarsAvailable = 0], the window 1 to 4 June is valid and nothing
    overlaps it, yet the create answers 201 and the booking is stored. *)
Lemma create_with_zero_counter_succeeds :
  let db := Sample.garage 0 true in
  let p := Sample.parseDateTime "2025-06-01" "10:00 AM" in
  let d := Sample.parseDateTime "2025-06-04" "10:00 AM" in
  let r := createBooking Sample.parseDateTime Sample.alice
             Sample.requestNoFlag db in
  wellFormed Sample.parseDateTime Sample.requestNoFlag 7 p d /\
  cars db !! 7%positive = Some (Car.mk 50 0 true) /\
  findOneIn (overlapQuery 7 p d) (bookings db) = None /\
  r = (Sample.afterZero, Ok Sample.bookedD) /\
  ~ ((exists e, r.2 = Err e) /\ bookings r.1 = bookings db).
Proof.
  cbv zeta.
  assert (H : createBooking Sample.parseDateTime Sample.alice
                Sample.requestNoFlag (Sample.garage 0 true)
              = (Sample.afterZero, Ok Sample.bookedD))
    by (vm_compute; reflexivity).
  split; [apply sample_wellFormed; [discriminate | discriminate | reflexivity]|].
  split; [reflexivity|]. split; [reflexivity|]. split; [exact H|].
  rewrite H. intros [[e He] _]. discriminate.
Qed.

(** C1, amended. On an existing car, for a request whose window passes
    validation and the overlap check, capacity is gated by the
    [isAvailable] flag alone: with the flag false the create fails with
    "Car is not available for booking" and the database is unchanged; with
    the flag true (and the document and the car passing their schema
    validators) the booking is stored whatever the counter holds, and the
    counter becomes [max(0, counter - 1)]. *)
Theorem create_capacity_gate_is_the_flag
    parseDateTime reqUser body db cid p d car :
  wellFormed parseDateTime body cid p d ->
  cars db !! cid = Some car ->
  findOneIn (overlapQuery cid p d) (bookings db) = None ->
  let r := createBooking parseDateTime reqUser body db in
  (Car.isAvailable car = false -> r = (db, Err CarNotAvailable)) /\
  (Car.isAvailable car = true ->
   Booking.validate (newBooking reqUser body cid p d car) = true ->
   Car.validate car = true ->
   exists b,
     r = (afterCreate db cid car b, Ok b) /\
     bookings r.1 !! fresh (dom (bookings db)) = Some b /\
     Booking.bookingStatus b = confirmed /\
     unitsOf r.1 cid = Some (Z.max 0 (Car.totalCarsAvailable car - 1))).
Proof.
  intros Hwf Hcar Hfree. cbv zeta.
  rewrite (createBooking_at_car parseDateTime reqUser body db cid p d Hwf).
  rewrite Hcar, Hfree.
  rewrite bool_decide_eq_false_2 by (intros [? ?]; discriminate).
  split.
  - intros ->. reflexivity.
  - intros -> Hv Hcv. simpl. rewrite Hv.
    rewrite (takeUnitOnCreate_valid car Hcv).
    eexists. split; [reflexivity|]. simpl.
    split; [apply lookup_insert_eq|]. split; [reflexivity|].
    unfold unitsOf. cbn [fst afterCreate cars]. rewrite lookup_insert_eq.
    cbn [fmap option_fmap option_map]. rewrite takeUnitOnCreate_units.
    reflexivity.
Qed.

(** [create_capacity_gate_is_the_flag] on the sample data. *)
Lemma create_capacity_gate_is_the_flag_witness :
  let db := Sample.garage 0 true in
  let p := Sample.parseDateTime "2025-06-01" "10:00 AM" in
  let d := Sample.parseDateTime "2025-06-04" "10:00 AM" in
  wellFormed Sample.parseDateTime Sample.requestNoFlag 7 p d /\
  cars db !! 7%positive = Some (Car.mk 50 0 true) /\
  findOneIn (overlapQuery 7 p d) (bookings db) = None /\
  exists b,
    createBooking Sample.parseDateTime Sample.alice Sample.requestNoFlag db
      = (afterCreate db 7 (Car.mk 50 0 true) b, Ok b) /\
    unitsOf (afterCreate db 7 (Car.mk 50 0 true) b) 7 = Some 0.
Proof.
  cbv zeta.
  assert (Hwf : wellFormed Sample.parseDateTime Sample.requestNoFlag 7
                  (Sample.parseDateTime "2025-06-01" "10:00 AM")
                  (Sample.parseDateTime "2025-06-04" "10:00 AM"))
    by (apply sample_wellFormed; [discriminate | discriminate | reflexivity]).
  split; [exact Hwf|]. split; [reflexivity|]. split; [reflexivity|].
  destruct (create_capacity_gate_is_the_flag Sample.parseDateTime Sample.alice
              Sample.requestNoFlag (Sample.garage 0 true) 7 _ _
              (Car.mk 50 0 true) Hwf eq_refl eq_refl) as [_ Hgo].
  destruct (Hgo eq_refl eq_refl eq_refl) as (b & Hr & _ & _ & Hunits).
  exists b. split; [exact Hr|]. rewrite Hr in Hunits. exact Hunits.
Defined.

(** ** The overlap check of [createBooking] *)

(** C3, as stated, fails: alice's stay of 1 to 3 June is confirmed on car 7,
    whose flag is false (the state her create leaves on a one-unit car, see
    [sample_states_reachable]); bob asks for 2 to 4 June.  A blocking
    reservation exists, yet the answer is "Car is not available for
    booking", not the overlap error. *)
Lemma overlap_error_masked_by_flag :
  let db := Sample.garageWith 0 false confirmed in
  let p := Sample.parseDateTime "2025-06-02" "10:00 AM" in
  let d := Sample.parseDateTime "2025-06-04" "10:00 AM" in
  let r := createBooking Sample.parseDateTime Sample.bob
             Sample.requestOverlap db in
  wellFormed Sample.parseDateTime Sample.requestOverlap 7 p d /\
  (exists bid b,
     bookings db !! bid = Some b /\ Booking.car b = 7%positive /\
     (Booking.bookingStatus b = pending \/ Booking.bookingStatus b = confirmed) /\
     p < Booking.dropoffDate b /\ Booking.pickupDate b < d) /\
  r = (db, Err CarNotAvailable) /\
  ~ (r.2 = Err AlreadyBookedForDates <->
     exists bid b,
       bookings db !! bid = Some b /\ Booking.car b = 7%positive /\
       (Booking.bookingStatus b = pending \/
        Booking.bookingStatus b = confirmed) /\
       p < Booking.dropoffDate b /\ Booking.pickupDate b < d).
Proof.
  cbv zeta.
  assert (Hex : exists bid b,
     bookings (Sample.garageWith 0 false confirmed) !! bid = Some b /\
     Booking.car b = 7%positive /\
     (Booking.bookingStatus b = pending \/ Booking.bookingStatus b = confirmed) /\
     Sample.parseDateTime "2025-06-02" "10:00 AM" < Booking.dropoffDate b /\
     Booking.pickupDate b < Sample.parseDateTime "2025-06-04" "10:00 AM").
  { exists 1%positive, (Sample.stay confirmed).
    split; [reflexivity|]. split; [reflexivity|]. split; [right; reflexivity|].
    split; reflexivity. }
  assert (H : createBooking Sample.parseDateTime Sample.bob
                Sample.requestOverlap (Sample.garageWith 0 false confirmed)
              = (Sample.garageWith 0 false confirmed, Err CarNotAvailable))
    by (vm_compute; reflexivity).
  split; [apply sample_wellFormed; [discriminate | discriminate | reflexivity]|].
  split; [exact Hex|]. split; [exact H|].
  rewrite H. intros [_ Hback]. specialize (Hback Hex). discriminate.
Qed.

(** C3, amended. For a create request that passes the field and window
    checks, on an existing car whose [isAvailable] flag is true, the answer
    is "Car is already booked for the selected dates" exactly when some
    booking of that car in status pending or confirmed has a window
    [c, d') with [pickup < d'] and [c < dropoff]; the database is then
    unchanged.  Hence bookings that are cancelled or completed, that end at
    or before the new pick-up, or that start at or after the new drop-off,
    do not block. *)
Theorem overlap_error_iff_blocking_booking
    parseDateTime reqUser body db cid p d car :
  wellFormed parseDateTime body cid p d ->
  cars db !! cid = Some car ->
  Car.isAvailable car = true ->
  let r := createBooking parseDateTime reqUser body db in
  (r.2 = Err AlreadyBookedForDates <->
   exists bid b,
     bookings db !! bid = Some b /\ Booking.car b = cid /\
     (Booking.bookingStatus b = pending \/ Booking.bookingStatus b = confirmed) /\
     p < Booking.dropoffDate b /\ Booking.pickupDate b < d) /\
  (r.2 = Err AlreadyBookedForDates -> r.1 = db) /\
  ((forall bid b,
      bookings db !! bid = Some b -> Booking.car b = cid ->
      Booking.bookingStatus b = cancelled \/
      Booking.bookingStatus b = completed \/
      Booking.dropoffDate b <= p \/ d <= Booking.pickupDate b) ->
   r.2 <> Err AlreadyBookedForDates).
Proof.
  intros Hwf Hcar Ha. cbv zeta.
  assert (Hiff : (createBooking parseDateTime reqUser body db).2
                 = Err AlreadyBookedForDates <->
                 is_Some (findOneIn (overlapQuery cid p d) (bookings db))).
  { rewrite (createBooking_at_car parseDateTime reqUser body db cid p d Hwf).
    rewrite Hcar, Ha. simpl.
    destruct (findOneIn _ _) as [x|] eqn:Hfind.
    - rewrite bool_decide_eq_true_2 by eauto. simpl. split; eauto.
    - rewrite bool_decide_eq_false_2 by (intros [? ?]; discriminate).
      split; [|intros [? ?]; discriminate].
      destruct (Booking.validate _); simpl; [|discriminate].
      destruct (Car.validate _); discriminate. }
  assert (Hblock : is_Some (findOneIn (overlapQuery cid p d) (bookings db)) <->
    exists bid b,
     bookings db !! bid = Some b /\ Booking.car b = cid /\
     (Booking.bookingStatus b = pending \/ Booking.bookingStatus b = confirmed) /\
     p < Booking.dropoffDate b /\ Booking.pickupDate b < d).
  { rewrite findOneIn_is_Some. split.
    - intros (bid & b & Hb & Hq). apply overlapQuery_true in Hq. eauto.
    - intros (bid & b & Hb & Hq). exists bid, b. split; [exact Hb|].
      apply overlapQuery_true. exact Hq. }
  split; [rewrite Hiff; exact Hblock|]. split.
  - intros Herr. apply Hiff in Herr.
    rewrite (createBooking_at_car parseDateTime reqUser body db cid p d Hwf).
    rewrite Hcar, Ha. simpl. rewrite bool_decide_eq_true_2 by exact Herr.
    reflexivity.
  - intros Hnone Herr. apply Hiff, Hblock in Herr
      as (bid & b & Hb & Hc & Hst & Hp & Hd).
    destruct (Hnone bid b Hb Hc) as [E | [E | [E | E]]];
      try (rewrite E in Hst; destruct Hst; discriminate); lia.
Qed.

(** [overlap_error_iff_blocking_booking] on the sample data. *)
Lemma overlap_error_iff_blocking_booking_witness :
  let db := Sample.garageWith 1 true confirmed in
  let p := Sample.parseDateTime "2025-06-02" "10:00 AM" in
  let d := Sample.parseDateTime "2025-06-04" "10:00 AM" in
  wellFormed Sample.parseDateTime Sample.requestOverlap 7 p d /\
  cars db !! 7%positive = Some (Car.mk 50 1 true) /\
  (createBooking Sample.parseDateTime Sample.bob Sample.requestOverlap db).2
    = Err AlreadyBookedForDates.
Proof.
  cbv zeta.
  assert (Hwf : wellFormed Sample.parseDateTime Sample.requestOverlap 7
                  (Sample.parseDateTime "2025-06-02" "10:00 AM")
                  (Sample.parseDateTime "2025-06-04" "10:00 AM"))
    by (apply sample_wellFormed; [discriminate | discriminate | reflexivity]).
  split; [exact Hwf|]. split; [reflexivity|].
  apply (overlap_error_iff_blocking_booking Sample.parseDateTime Sample.bob
           Sample.requestOverlap (Sample.garageWith 1 true confirmed) 7 _ _
           (Car.mk 50 1 true) Hwf eq_refl eq_refl).
  exists 1%positive, (Sample.stay confirmed).
  split; [reflexivity|]. split; [reflexivity|]. split; [right; reflexivity|].
  split; reflexivity.
Defined.

(** ** The decision tree of [cancelBooking] *)

Lemma cancelBooking_tree reqUser bid reason db :
  cancelBooking reqUser bid reason db =
  match bookings db !! bid with
  | None => (db, Err BookingNotFound)
  | Some b =>
    if negb (Js.truthy_str reason) then (db, Err CancellationReasonRequired)
    else if negb (bool_decide (Booking.user b ∈ users db))
    then (db, Err TypeError)
    else if negb (bool_decide (Booking.user b = uid reqUser))
            && negb (bool_decide (role reqUser = RoleAdmin))
    then (db, Err NotAuthorizedToCancel)
    else if bool_decide (Booking.bookingStatus b = cancelled)
    then (db, Err AlreadyCancelled)
    else if bool_decide (Booking.bookingStatus b = completed)
    then (db, Err CannotCancelCompleted)
    else
      let b1 := Booking.set_cancellationReason reason
                  (Booking.set_bookingStatus cancelled b) in
      if Booking.validate b1 then
        let db1 := mkDb (users db) (cars db)
                     (<[bid := Booking.pre_save b1]> (bookings db)) in
        match cars db !! Booking.car b with
        | None => (db1, Err TypeError)
        | Some c =>
          if Car.validate (releaseUnit c)
          then (mkDb (users db) (<[Booking.car b := releaseUnit c]> (cars db))
                  (<[bid := Booking.pre_save b1]> (bookings db)),
                Ok (Booking.pre_save b1))
          else (db1, Err ValidationError)
        end
      else (db, Err ValidationError)
  end.
Proof.
  unfold cancelBooking. unfold_handler. simpl.
  destruct (bookings db !! bid) as [b|]; [|reflexivity].
  destruct (Js.truthy_str reason); [|reflexivity]. simpl.
  destruct (bool_decide (Booking.user b ∈ users db)); [|reflexivity]. simpl.
  destruct (negb (bool_decide (Booking.user b = uid reqUser))
            && negb (bool_decide (role reqUser = RoleAdmin))); [reflexivity|].
  destruct (bool_decide (Booking.bookingStatus b = cancelled)); [reflexivity|].
  destruct (bool_decide (Booking.bookingStatus b = completed)); [reflexivity|].
  destruct (Booking.validate _); [|reflexivity]. simpl.
  destruct (cars db !! Booking.car b) as [c|]; [|reflexivity].
  destruct (Car.validate _); reflexivity.
Qed.

(** C5, as stated, fails: bob is neither the requester of booking 1 nor an
    admin, and sends no reason; the answer is "Please Provide Cancellation
    Reason" (400), not the 403. *)
Lemma cancel_reason_checked_before_owner :
  let db := Sample.garageWith 0 false confirmed in
  let r := cancelBooking Sample.bob 1 None db in
  bookings db !! 1%positive = Some (Sample.stay confirmed) /\
  Booking.user (Sample.stay confirmed) <> uid Sample.bob /\
  role Sample.bob <> RoleAdmin /\
  r = (db, Err CancellationReasonRequired) /\
  statusCode CancellationReasonRequired = Some 400 /\
  r.2 <> Err NotAuthorizedToCancel.
Proof.
  cbv zeta.
  assert (H : cancelBooking Sample.bob 1 None
                (Sample.garageWith 0 false confirmed)
              = (Sample.garageWith 0 false confirmed,
                 Err CancellationReasonRequired))
    by (vm_compute; reflexivity).
  split; [reflexivity|]. split; [discriminate|]. split; [discriminate|].
  split; [exact H|]. split; [reflexivity|]. rewrite H. discriminate.
Qed.

(** C5, amended. [cancelBooking] checks its failure conditions in the
    order: booking absent (404), then empty or missing reason (400), then
    actor neither the requester nor an admin (403), then already cancelled,
    then completed; each leaves the database unchanged.  The requester
    reference is dereferenced between the reason check and the owner check,
    so the last three are stated for a booking whose requester still
    resolves.  In particular an unauthorised actor with an empty reason is
    answered with the reason error. *)
Theorem cancel_check_order reqUser bid reason db :
  let r := cancelBooking reqUser bid reason db in
  (bookings db !! bid = None -> r = (db, Err BookingNotFound)) /\
  (forall b,
     bookings db !! bid = Some b ->
     (Js.truthy_str reason = false ->
      r = (db, Err CancellationReasonRequired)) /\
     (Js.truthy_str reason = true -> Booking.user b ∈ users db ->
      (Booking.user b <> uid reqUser -> role reqUser <> RoleAdmin ->
       r = (db, Err NotAuthorizedToCancel)) /\
      (Booking.user b = uid reqUser \/ role reqUser = RoleAdmin ->
       (Booking.bookingStatus b = cancelled ->
        r = (db, Err AlreadyCancelled)) /\
       (Booking.bookingStatus b = completed ->
        r = (db, Err CannotCancelCompleted))))).
Proof.
  cbv zeta. rewrite cancelBooking_tree. split.
  - intros ->. reflexivity.
  - intros b ->. split.
    + intros ->. reflexivity.
    + intros -> Hu. simpl. rewrite (bool_decide_eq_true_2 _ Hu). simpl. split.
      * intros Hne Hrole.
        rewrite (bool_decide_eq_false_2 _ Hne), (bool_decide_eq_false_2 _ Hrole).
        reflexivity.
      * intros Hauth.
        assert (Hno : negb (bool_decide (Booking.user b = uid reqUser))
                      && negb (bool_decide (role reqUser = RoleAdmin)) = false).
        { destruct Hauth as [E | E]; rewrite (bool_decide_eq_true_2 _ E);
            [reflexivity | apply andb_false_r]. }
        rewrite Hno. split.
        -- intros E. rewrite (bool_decide_eq_true_2 _ E). reflexivity.
        -- intros E. rewrite E. reflexivity.
Qed.

(** [cancel_check_order] on the sample data. *)
Lemma cancel_check_order_witness :
  let db := Sample.garageWith 0 false confirmed in
  bookings db !! 1%positive = Some (Sample.stay confirmed) /\
  Js.truthy_str None = false /\
  cancelBooking Sample.bob 1 None db = (db, Err CancellationReasonRequired).
Proof.
  cbv zeta. split; [reflexivity|]. split; [reflexivity|].
  destruct (cancel_check_order Sample.bob 1 None
              (Sample.garageWith 0 false confirmed)) as [_ Hsome].
  destruct (Hsome (Sample.stay confirmed) eq_refl) as [Hreason _].
  exact (Hreason eq_refl).
Defined.

(** ** The decision tree of [updateBooking] *)

Lemma parseStatus_truthy (s : string) (st : BookingStatus) :
  parseStatus s = Some st -> Js.truthy_str (Some s) = true.
Proof.
  intros H. simpl. destruct (bool_decide (s = "")) eqn:E; [|reflexivity].
  apply bool_decide_eq_true in E. subst s. discriminate.
Qed.

Lemma updateBooking_tree bid s st reason db :
  parseStatus s = Some st ->
  updateBooking bid (Some s) reason db =
  match bookings db !! bid with
  | None => (db, Err BookingNotFound)
  | Some b =>
    let oldStatus := Booking.bookingStatus b in
    let b1 := Booking.set_bookingStatus st b in
    if bool_decide (st = cancelled) && negb (bool_decide (oldStatus = cancelled))
    then
      let b2 := Booking.set_cancellationReason
                  (Some (Js.or_str reason "Cancelled by admin")) b1 in
      match cars db !! Booking.car b with
      | Some c =>
        if Car.validate (releaseUnit c)
        then BookingModel.save bid b2
               (mkDb (users db) (<[Booking.car b := releaseUnit c]> (cars db))
                  (bookings db))
        else (db, Err ValidationError)
      | None => BookingModel.save bid b2 db
      end
    else if bool_decide (st = confirmed) && bool_decide (oldStatus = cancelled)
    then
      match cars db !! Booking.car b with
      | Some c =>
        if Car.totalCarsAvailable c <=? 0 then (db, Err CarNoLongerAvailable)
        else if Car.validate (takeUnitOnReconfirm c)
        then BookingModel.save bid b1
               (mkDb (users db)
                  (<[Booking.car b := takeUnitOnReconfirm c]> (cars db))
                  (bookings db))
        else (db, Err ValidationError)
      | None => BookingModel.save bid b1 db
      end
    else BookingModel.save bid b1 db
  end.
Proof.
  intros Hst. unfold updateBooking.
  pose proof (parseStatus_truthy s st Hst) as Ht.
  unfold failWhen at 1. rewrite Ht, Hst. simpl.
  unfold bind at 1. unfold ret at 1.
  unfold bind at 1. unfold BookingModel.findById at 1.
  destruct (bookings db !! bid) as [b|]; [|reflexivity].
  cbv zeta.
  destruct st, (Booking.bookingStatus b) eqn:Hold; simpl;
    unfold bind, ret, fail, failWhen, CarModel.findById, CarModel.save, Car.save;
    simpl;
    try reflexivity;
    destruct (cars db !! Booking.car b) as [c|]; simpl; try reflexivity;
    try (destruct (Car.totalCarsAvailable c <=? 0); simpl; try reflexivity);
    destruct (Car.validate _); reflexivity.
Qed.

Lemma parseStatus_cancelled (s : string) :
  parseStatus s = Some cancelled <-> s = "cancelled".
Proof.
  unfold parseStatus. split.
  - repeat case_bool_decide; try discriminate. auto.
  - intros ->. reflexivity.
Qed.

Lemma updateBooking_rejects bid status reason db :
  (forall s, status = Some s -> parseStatus s = None) ->
  exists e, updateBooking bid status reason db = (db, Err e).
Proof.
  intros Hbad. unfold updateBooking. destruct status as [s|]; [|eauto].
  rewrite (Hbad s eq_refl). unfold_handler.
  destruct (negb _); eauto.
Qed.

(** The validators do not read the two fields a transition writes. *)
Lemma validate_set_bookingStatus st b :
  Booking.validate (Booking.set_bookingStatus st b) = Booking.validate b.
Proof. reflexivity. Qed.

Lemma validate_set_cancellationReason r b :
  Booking.validate (Booking.set_cancellationReason r b) = Booking.validate b.
Proof. reflexivity. Qed.

Lemma releaseUnit_units (c : Car.t) :
  Car.totalCarsAvailable (releaseUnit c) = Car.totalCarsAvailable c + 1.
Proof. unfold releaseUnit. destruct (_ && _); reflexivity. Qed.

Lemma releaseUnit_valid (c : Car.t) :
  Car.validate c = true -> Car.validate (releaseUnit c) = true.
Proof.
  unfold Car.validate. rewrite !andb_true_iff, !Z.leb_le, releaseUnit_units.
  unfold releaseUnit. destruct (_ && _); simpl; lia.
Qed.

Lemma takeUnitOnReconfirm_units (c : Car.t) :
  Car.totalCarsAvailable (takeUnitOnReconfirm c) = Car.totalCarsAvailable c - 1.
Proof. unfold takeUnitOnReconfirm. destruct (_ =? 0); reflexivity. Qed.

Lemma takeUnitOnReconfirm_flag (c : Car.t) :
  Car.isAvailable (takeUnitOnReconfirm c) =
  if Car.totalCarsAvailable c - 1 =? 0 then false else Car.isAvailable c.
Proof. unfold takeUnitOnReconfirm. simpl. destruct (_ =? 0); reflexivity. Qed.

Lemma takeUnitOnReconfirm_valid (c : Car.t) :
  Car.validate c = true -> 0 < Car.totalCarsAvailable c ->
  Car.validate (takeUnitOnReconfirm c) = true.
Proof.
  unfold Car.validate.
  rewrite !andb_true_iff, !Z.leb_le, takeUnitOnReconfirm_units.
  unfold takeUnitOnReconfirm. destruct (_ =? 0); simpl; lia.
Qed.

#[local] Arguments releaseUnit : simpl never.
#[local] Arguments takeUnitOnReconfirm : simpl never.
#[local] Arguments takeUnitOnCreate : simpl never.
#[local] Arguments Booking.pre_save : simpl never.
#[local] Arguments Booking.validate : simpl never.
#[local] Arguments Car.validate : simpl never.

(** ** Transitions out of [completed] *)

(** C2, as stated, fails: booking 1 is completed and car 7 holds 0 units
    (the state after alice's create and the admin's update to "completed",
    see [sample_states_reachable]); the status update to "cancelled" is
    accepted, the stored status becomes cancelled and the counter
    becomes 1. *)
Lemma completed_booking_cancelled_by_status_update :
  let db := Sample.garageWith 0 false completed in
  let r := updateBooking 1 (Some "cancelled") None db in
  statusOf db 1 = Some completed /\
  unitsOf db 7 = Some 0 /\
  statusOf r.1 1 = Some cancelled /\
  unitsOf r.1 7 = Some 1 /\
  ~ (statusOf r.1 1 = Some completed /\ unitsOf r.1 7 = unitsOf db 7).
Proof.
  cbv zeta.
  assert (Hs : statusOf (updateBooking 1 (Some "cancelled") None
                 (Sample.garageWith 0 false completed)).1 1 = Some cancelled)
    by (vm_compute; reflexivity).
  split; [reflexivity|]. split; [reflexivity|]. split; [exact Hs|].
  split; [vm_compute; reflexivity|].
  rewrite Hs. intros [? _]. discriminate.
Qed.

(** C2, amended. For a completed booking: [cancelBooking], whoever calls it
    and whatever the reason, fails and leaves the database unchanged; a
    status update whose target is not "cancelled" leaves every car
    unchanged, and with target "completed" the status stays completed.
    The status update is not gated on the old status: with targets
    "pending" and "confirmed" the stored status becomes the target, and
    with target "cancelled" it becomes cancelled and the counter of the car
    increases by 1 (for a stored booking and car that pass their
    validators). *)
Theorem completed_booking_transitions bid b db :
  bookings db !! bid = Some b ->
  Booking.bookingStatus b = completed ->
  (forall reqUser reason,
     exists e, cancelBooking reqUser bid reason db = (db, Err e)) /\
  (forall status reason,
     let r := updateBooking bid status reason db in
     (status <> Some "cancelled" -> cars r.1 = cars db) /\
     (status = Some "completed" -> statusOf r.1 bid = Some completed) /\
     (Booking.validate b = true ->
      (status = Some "pending" -> statusOf r.1 bid = Some pending) /\
      (status = Some "confirmed" -> statusOf r.1 bid = Some confirmed) /\
      (status = Some "cancelled" ->
       forall c, cars db !! Booking.car b = Some c -> Car.validate c = true ->
       statusOf r.1 bid = Some cancelled /\
       unitsOf r.1 (Booking.car b) = Some (Car.totalCarsAvailable c + 1)))).
Proof.
  intros Hb Hst. split.
  - intros reqUser reason. rewrite cancelBooking_tree, Hb, Hst. simpl.
    destruct (negb (Js.truthy_str reason)); [eauto|].
    destruct (negb (bool_decide _)); [eauto|].
    destruct (_ && _); eauto.
  - intros status reason. cbv zeta. split; [|split].
    + intros Hne.
      destruct status as [s|];
        [|destruct (updateBooking_rejects bid None reason db) as [e ->];
          [discriminate | reflexivity]].
      destruct (parseStatus s) as [st|] eqn:Hp;
        [|destruct (updateBooking_rejects bid (Some s) reason db) as [e ->];
          [intros ? [= <-]; exact Hp | reflexivity]].
      rewrite (updateBooking_tree bid s st reason db Hp), Hb, Hst. cbv zeta.
      assert (st <> cancelled).
      { intros ->. apply parseStatus_cancelled in Hp. congruence. }
      rewrite (bool_decide_eq_false_2 (st = cancelled)) by assumption.
      rewrite andb_false_r. simpl.
      unfold BookingModel.save, Booking.save. destruct (Booking.validate _);
        reflexivity.
    + intros ->.
      rewrite (updateBooking_tree bid "completed" completed reason db eq_refl).
      rewrite Hb, Hst. simpl.
      unfold BookingModel.save, Booking.save, statusOf.
      destruct (Booking.validate _); simpl.
      * rewrite lookup_insert_eq. reflexivity.
      * rewrite Hb. simpl. rewrite Hst. reflexivity.
    + intros Hv. split; [|split].
      * intros ->.
        rewrite (updateBooking_tree bid "pending" pending reason db eq_refl).
        rewrite Hb, Hst. simpl.
        unfold BookingModel.save, Booking.save, statusOf.
        rewrite validate_set_bookingStatus, Hv. simpl.
        rewrite lookup_insert_eq. reflexivity.
      * intros ->.
        rewrite (updateBooking_tree bid "confirmed" confirmed reason db eq_refl).
        rewrite Hb, Hst. simpl.
        unfold BookingModel.save, Booking.save, statusOf.
        rewrite validate_set_bookingStatus, Hv. simpl.
        rewrite lookup_insert_eq. reflexivity.
      * intros -> c Hc Hcv.
        rewrite (updateBooking_tree bid "cancelled" cancelled reason db eq_refl).
        rewrite Hb, Hst, Hc. simpl.
        rewrite (releaseUnit_valid c Hcv).
        unfold BookingModel.save, Booking.save, statusOf, unitsOf.
        rewrite validate_set_cancellationReason, validate_set_bookingStatus, Hv.
        simpl. rewrite !lookup_insert_eq. simpl.
        rewrite releaseUnit_units. split; reflexivity.
Qed.

(** [completed_booking_transitions] on the sample data. *)
Lemma completed_booking_transitions_witness :
  let db := Sample.garageWith 0 false completed in
  bookings db !! 1%positive = Some (Sample.stay completed) /\
  Booking.bookingStatus (Sample.stay completed) = completed /\
  (exists e, cancelBooking Sample.alice 1 (Some "late") db = (db, Err e)) /\
  statusOf (updateBooking 1 (Some "completed") None db).1 1 = Some completed.
Proof.
  cbv zeta. split; [reflexivity|]. split; [reflexivity|].
  destruct (completed_booking_transitions 1 (Sample.stay completed)
              (Sample.garageWith 0 false completed) eq_refl eq_refl)
    as [Hcancel Hupdate].
  split; [apply Hcancel|].
  destruct (Hupdate (Some "completed") None) as (_ & Hkeep & _).
  exact (Hkeep eq_refl).
Defined.

(** ** From cancelled back to confirmed *)

(** The cancelled-to-confirmed path on an existing car, step by step. *)
Lemma updateBooking_reconfirm bid b c reason db :
  bookings db !! bid = Some b ->
  Booking.bookingStatus b = cancelled ->
  cars db !! Booking.car b = Some c ->
  updateBooking bid (Some "confirmed") reason db =
  if Car.totalCarsAvailable c <=? 0 then (db, Err CarNoLongerAvailable)
  else if Car.validate (takeUnitOnReconfirm c)
  then BookingModel.save bid (Booking.set_bookingStatus confirmed b)
         (mkDb (users db)
            (<[Booking.car b := takeUnitOnReconfirm c]> (cars db))
            (bookings db))
  else (db, Err ValidationError).
Proof.
  intros Hb Hst Hc.
  rewrite (updateBooking_tree bid "confirmed" confirmed reason db eq_refl).
  rewrite Hb, Hst, Hc. reflexivity.
Qed.

(** C6. A status update from cancelled to "confirmed" on a booking whose
    car exists: with a counter of 0 or less it fails with "Car is no longer
    available" and the database is unchanged, so the booking stays
    cancelled; otherwise (stored booking and car passing their validators)
    the counter decreases by exactly 1, [isAvailable] becomes false when the
    counter reaches 0 and is otherwise kept, and the stored status becomes
    confirmed.  The other bookings of the database are arbitrary: nothing
    on this path reads them. *)
Theorem reconfirm_checks_counter_only bid b c reason db :
  bookings db !! bid = Some b ->
  Booking.bookingStatus b = cancelled ->
  cars db !! Booking.car b = Some c ->
  let r := updateBooking bid (Some "confirmed") reason db in
  (Car.totalCarsAvailable c <= 0 ->
   r = (db, Err CarNoLongerAvailable) /\ statusOf r.1 bid = Some cancelled) /\
  (0 < Car.totalCarsAvailable c ->
   Booking.validate b = true -> Car.validate c = true ->
   let b' := Booking.pre_save (Booking.set_bookingStatus confirmed b) in
   r = (mkDb (users db)
          (<[Booking.car b := takeUnitOnReconfirm c]> (cars db))
          (<[bid := b']> (bookings db)), Ok b') /\
   statusOf r.1 bid = Some confirmed /\
   unitsOf r.1 (Booking.car b) = Some (Car.totalCarsAvailable c - 1) /\
   flagOf r.1 (Booking.car b) =
     Some (if Car.totalCarsAvailable c - 1 =? 0 then false
           else Car.isAvailable c)).
Proof.
  intros Hb Hst Hc. cbv zeta.
  rewrite (updateBooking_reconfirm bid b c reason db Hb Hst Hc). split.
  - intros Hle. apply Z.leb_le in Hle. rewrite Hle.
    split; [reflexivity|]. unfold statusOf. simpl. rewrite Hb. simpl.
    rewrite Hst. reflexivity.
  - intros Hpos Hv Hcv. apply Z.leb_gt in Hpos as Hgt. rewrite Hgt.
    rewrite (takeUnitOnReconfirm_valid c Hcv Hpos).
    unfold BookingModel.save, Booking.save.
    rewrite validate_set_bookingStatus, Hv.
    unfold statusOf, unitsOf, flagOf. simpl. rewrite !lookup_insert_eq. simpl.
    rewrite takeUnitOnReconfirm_units, takeUnitOnReconfirm_flag.
    repeat split; reflexivity.
Qed.

(** [reconfirm_checks_counter_only] on the sample data. *)
Lemma reconfirm_checks_counter_only_witness :
  let db := Sample.garageWith 0 false cancelled in
  bookings db !! 1%positive = Some (Sample.stay cancelled) /\
  Booking.bookingStatus (Sample.stay cancelled) = cancelled /\
  cars db !! Booking.car (Sample.stay cancelled) = Some (Car.mk 50 0 false) /\
  updateBooking 1 (Some "confirmed") None db = (db, Err CarNoLongerAvailable).
Proof.
  cbv zeta. split; [reflexivity|]. split; [reflexivity|]. split; [reflexivity|].
  destruct (reconfirm_checks_counter_only 1 (Sample.stay cancelled)
              (Car.mk 50 0 false) None (Sample.garageWith 0 false cancelled)
              eq_refl eq_refl eq_refl) as [Hfull _].
  apply Hfull. simpl. lia.
Defined.

(** The path accepts a booking that overlaps a confirmed one. *)
Example reconfirm_next_to_overlapping_stay :
  let r := updateBooking 1 (Some "confirmed") None Sample.crowded in
  overlapQuery 7 (Booking.pickupDate (Sample.stay cancelled))
    (Booking.dropoffDate (Sample.stay cancelled)) Sample.stayBob = true /\
  statusOf r.1 1 = Some confirmed /\ statusOf r.1 2 = Some confirmed /\
  unitsOf r.1 7 = Some 0 /\ flagOf r.1 7 = Some false.
Proof. vm_compute. repeat split; reflexivity. Qed.

(** C9. A status update from cancelled to "confirmed" on a booking whose car
    is no longer in the catalogue does not fail: the booking is saved as
    confirmed, with no capacity check, and the car collection is left as it
    was. *)
Theorem reconfirm_without_car bid b reason db :
  bookings db !! bid = Some b ->
  Booking.bookingStatus b = cancelled ->
  cars db !! Booking.car b = None ->
  Booking.validate b = true ->
  let r := updateBooking bid (Some "confirmed") reason db in
  let b' := Booking.pre_save (Booking.set_bookingStatus confirmed b) in
  r = (mkDb (users db) (cars db) (<[bid := b']> (bookings db)), Ok b') /\
  statusOf r.1 bid = Some confirmed /\
  cars r.1 = cars db.
Proof.
  intros Hb Hst Hc Hv. cbv zeta.
  rewrite (updateBooking_tree bid "confirmed" confirmed reason db eq_refl).
  rewrite Hb, Hst, Hc. simpl.
  unfold BookingModel.save, Booking.save.
  rewrite validate_set_bookingStatus, Hv.
  unfold statusOf. simpl. rewrite lookup_insert_eq.
  repeat split; reflexivity.
Qed.

(** [reconfirm_without_car] on the sample data. *)
Lemma reconfirm_without_car_witness :
  bookings Sample.orphaned !! 1%positive = Some (Sample.stay cancelled) /\
  cars Sample.orphaned !! Booking.car (Sample.stay cancelled) = None /\
  Booking.validate (Sample.stay cancelled) = true /\
  statusOf (updateBooking 1 (Some "confirmed") None Sample.orphaned).1 1
    = Some confirmed /\
  cars (updateBooking 1 (Some "confirmed") None Sample.orphaned).1 = ∅.
Proof.
  split; [reflexivity|]. split; [reflexivity|]. split; [reflexivity|].
  destruct (reconfirm_without_car 1 (Sample.stay cancelled) None
              Sample.orphaned eq_refl eq_refl eq_refl eq_refl)
    as (_ & Hstatus & Hcars).
  split; [exact Hstatus | exact Hcars].
Defined.

(** ** Unit accounting between confirmed and cancelled *)

(** C8, as stated, fails: the garage starts with one unit of car 7 and no
    booking.  After create, cancel, and the admin moving the booking to
    pending and to confirmed, the booking is confirmed while the counter is
    back at 1; cancelling it again raises the counter to 2, above the single
    unit the car has. *)
Lemma release_exceeds_the_units_of_the_car :
  let db0 := Sample.garage 1 true in
  let db4 := run Sample.parseDateTime Sample.bounce db0 in
  let r := cancelBooking Sample.alice 1 (Some "again") db4 in
  bookings db0 = ∅ /\ unitsOf db0 7 = Some 1 /\
  statusOf db4 1 = Some confirmed /\ unitsOf db4 7 = Some 1 /\
  statusOf r.1 1 = Some cancelled /\ unitsOf r.1 7 = Some 2 /\
  ~ (forall n, unitsOf r.1 7 = Some n -> n <= 1).
Proof.
  cbv zeta.
  assert (H : unitsOf (cancelBooking Sample.alice 1 (Some "again")
                (run Sample.parseDateTime Sample.bounce
                   (Sample.garage 1 true))).1 7 = Some 2)
    by (vm_compute; reflexivity).
  split; [reflexivity|]. split; [reflexivity|].
  split; [vm_compute; reflexivity|]. split; [vm_compute; reflexivity|].
  split; [vm_compute; reflexivity|]. split; [exact H|].
  intros Hcap. specialize (Hcap 2 H). lia.
Qed.

(** C8, amended. For a stored booking and car that pass their validators:
    when a confirmed booking becomes cancelled, through [cancelBooking]
    (reason given, requester resolving, actor the requester or an admin) or
    through a status update to "cancelled", the counter of its car
    increases by exactly 1, with no upper bound applied (the car has no
    total-units field); when a cancelled booking is moved back to
    "confirmed", the update fails with "Car is no longer available" if the
    counter is 0 or less and otherwise decreases the counter by exactly 1. *)
Theorem confirmed_cancelled_unit_accounting bid b c db :
  bookings db !! bid = Some b ->
  cars db !! Booking.car b = Some c ->
  Booking.validate b = true ->
  Car.validate c = true ->
  (Booking.bookingStatus b = confirmed ->
   (forall reqUser reason,
      Js.truthy_str reason = true ->
      Booking.user b ∈ users db ->
      Booking.user b = uid reqUser \/ role reqUser = RoleAdmin ->
      let r := cancelBooking reqUser bid reason db in
      statusOf r.1 bid = Some cancelled /\
      unitsOf r.1 (Booking.car b) = Some (Car.totalCarsAvailable c + 1)) /\
   (forall reason,
      let r := updateBooking bid (Some "cancelled") reason db in
      statusOf r.1 bid = Some cancelled /\
      unitsOf r.1 (Booking.car b) = Some (Car.totalCarsAvailable c + 1))) /\
  (Booking.bookingStatus b = cancelled ->
   forall reason,
     let r := updateBooking bid (Some "confirmed") reason db in
     (Car.totalCarsAvailable c <= 0 -> r = (db, Err CarNoLongerAvailable)) /\
     (0 < Car.totalCarsAvailable c ->
      statusOf r.1 bid = Some confirmed /\
      unitsOf r.1 (Booking.car b) = Some (Car.totalCarsAvailable c - 1))).
Proof.
  intros Hb Hc Hv Hcv. split.
  - intros Hst. split.
    + intros reqUser reason Hreason Hu Hauth. cbv zeta.
      rewrite cancelBooking_tree, Hb, Hreason, Hst, Hc. simpl.
      rewrite (bool_decide_eq_true_2 _ Hu). simpl.
      assert (Hno : negb (bool_decide (Booking.user b = uid reqUser))
                    && negb (bool_decide (role reqUser = RoleAdmin)) = false).
      { destruct Hauth as [E | E]; rewrite (bool_decide_eq_true_2 _ E);
          [reflexivity | apply andb_false_r]. }
      rewrite Hno.
      rewrite validate_set_cancellationReason, validate_set_bookingStatus, Hv.
      rewrite (releaseUnit_valid c Hcv).
      unfold statusOf, unitsOf. simpl. rewrite !lookup_insert_eq. simpl.
      rewrite releaseUnit_units. split; reflexivity.
    + intros reason. cbv zeta.
      rewrite (updateBooking_tree bid "cancelled" cancelled reason db eq_refl).
      rewrite Hb, Hst, Hc. simpl.
      rewrite (releaseUnit_valid c Hcv).
      unfold BookingModel.save, Booking.save, statusOf, unitsOf.
      rewrite validate_set_cancellationReason, validate_set_bookingStatus, Hv.
      simpl. rewrite !lookup_insert_eq. simpl.
      rewrite releaseUnit_units. split; reflexivity.
  - intros Hst reason. cbv zeta.
    rewrite (updateBooking_reconfirm bid b c reason db Hb Hst Hc). split.
    + intros Hle. apply Z.leb_le in Hle. rewrite Hle. reflexivity.
    + intros Hpos. apply Z.leb_gt in Hpos as Hgt. rewrite Hgt.
      rewrite (takeUnitOnReconfirm_valid c Hcv Hpos).
      unfold BookingModel.save, Booking.save, statusOf, unitsOf.
      rewrite validate_set_bookingStatus, Hv.
      simpl. rewrite !lookup_insert_eq. simpl.
      rewrite takeUnitOnReconfirm_units. split; reflexivity.
Qed.

(** [confirmed_cancelled_unit_accounting] on the sample data. *)
Lemma confirmed_cancelled_unit_accounting_witness :
  let db := Sample.garageWith 0 false confirmed in
  bookings db !! 1%positive = Some (Sample.stay confirmed) /\
  cars db !! Booking.car (Sample.stay confirmed) = Some (Car.mk 50 0 false) /\
  Booking.validate (Sample.stay confirmed) = true /\
  Car.validate (Car.mk 50 0 false) = true /\
  unitsOf (cancelBooking Sample.alice 1 (Some "change of plans") db).1 7
    = Some 1.
Proof.
  cbv zeta. split; [reflexivity|]. split; [reflexivity|].
  split; [reflexivity|]. split; [reflexivity|].
  destruct (confirmed_cancelled_unit_accounting 1 (Sample.stay confirmed)
              (Car.mk 50 0 false) (Sample.garageWith 0 false confirmed)
              eq_refl eq_refl eq_refl eq_refl) as [Hrelease _].
  destruct (Hrelease eq_refl) as [Hcancel _].
  destruct (Hcancel Sample.alice (Some "change of plans") eq_refl)
    as [_ Hunits].
  - vm_compute. reflexivity.
  - left. reflexivity.
  - exact Hunits.
Defined.

(** ** The availability flag and the counter *)

Ltac flag_cases :=
  repeat match goal with
         | H : context [?x <? ?y] |- _ => destruct (Z.ltb_spec x y)
         | |- context [?x <? ?y] => destruct (Z.ltb_spec x y)
         | |- context [?x =? ?y] => destruct (Z.eqb_spec x y)
         end;
  simpl in *; try congruence; try lia.

Lemma takeUnitOnCreate_consistent (c : Car.t) :
  flagConsistent c -> Car.isAvailable c = true ->
  flagConsistent (takeUnitOnCreate c).
Proof.
  destruct c as [price n a].
  unfold flagConsistent, takeUnitOnCreate, Car.set_isAvailable,
    Car.set_totalCarsAvailable.
  simpl. intros Hc ->. flag_cases.
Qed.

Lemma releaseUnit_consistent (c : Car.t) :
  flagConsistent c -> flagConsistent (releaseUnit c).
Proof.
  destruct c as [price n a].
  unfold flagConsistent, releaseUnit, Car.set_isAvailable,
    Car.set_totalCarsAvailable.
  simpl. intros Hc. destruct a; flag_cases.
Qed.

Lemma takeUnitOnReconfirm_consistent (c : Car.t) :
  flagConsistent c -> 0 < Car.totalCarsAvailable c ->
  flagConsistent (takeUnitOnReconfirm c).
Proof.
  destruct c as [price n a].
  unfold flagConsistent, takeUnitOnReconfirm, Car.set_isAvailable,
    Car.set_totalCarsAvailable.
  simpl. intros Hc Hpos. destruct a; flag_cases.
Qed.

Lemma carsConsistent_insert db cid c c' :
  carsConsistent db -> cars db !! cid = Some c ->
  (flagConsistent c -> flagConsistent c') ->
  forall us bs, carsConsistent (mkDb us (<[cid := c']> (cars db)) bs).
Proof.
  intros Hdb Hc Hstep us bs k x. simpl.
  destruct (decide (cid = k)) as [<- | Hne].
  - rewrite lookup_insert_eq. intros [= <-]. apply Hstep, (Hdb cid c Hc).
  - rewrite lookup_insert_ne by assumption. apply Hdb.
Qed.

Lemma carsConsistent_same_cars db db' :
  carsConsistent db -> cars db' = cars db -> carsConsistent db'.
Proof. intros Hdb Heq k x. rewrite Heq. apply Hdb. Qed.

Lemma createBooking_early parseDateTime reqUser body db :
  (exists e, createBooking parseDateTime reqUser body db = (db, Err e)) \/
  exists cid p d, wellFormed parseDateTime body cid p d.
Proof.
  unfold createBooking, wellFormed.
  destruct (carId body) as [cid|] eqn:Hc; [|left; eexists; reflexivity].
  destruct (pickupDate body) as [pds|] eqn:Hp; [|left; eexists; reflexivity].
  destruct (dropoffDate body) as [dds|] eqn:Hd; [|left; eexists; reflexivity].
  unfold bind at 1. unfold failWhen at 1, fail at 1, ret at 1.
  destruct (Js.truthy_str (pickupLocation body)) eqn:Hloc; simpl;
    [|left; eexists; reflexivity].
  destruct (bool_decide (pds = "")) eqn:Hpds; simpl;
    [left; eexists; reflexivity|].
  destruct (bool_decide (dds = "")) eqn:Hdds; simpl;
    [left; eexists; reflexivity|].
  unfold bind at 1. unfold failWhen at 1, fail at 1, ret at 1.
  fold (pickupInstant parseDateTime body pds)
       (dropoffInstant parseDateTime body dds).
  destruct (dropoffInstant parseDateTime body dds
            <=? pickupInstant parseDateTime body pds) eqn:Hle;
    [left; eexists; reflexivity|].
  right. exists cid, (pickupInstant parseDateTime body pds),
    (dropoffInstant parseDateTime body dds), pds, dds.
  apply bool_decide_eq_false in Hpds, Hdds. apply Z.leb_gt in Hle.
  repeat split; auto.
Qed.

Lemma createBooking_consistent parseDateTime reqUser body db :
  carsConsistent db ->
  carsConsistent (createBooking parseDateTime reqUser body db).1.
Proof.
  intros Hdb.
  destruct (createBooking_early parseDateTime reqUser body db)
    as [[e ->] | (cid & p & d & Hwf)]; [exact Hdb|].
  rewrite (createBooking_at_car parseDateTime reqUser body db cid p d Hwf).
  destruct (cars db !! cid) as [car|] eqn:Hcar; [|exact Hdb].
  destruct (Car.isAvailable car) eqn:Ha; [|exact Hdb]. simpl.
  destruct (bool_decide _); [exact Hdb|]. cbv zeta.
  destruct (Booking.validate _); [|exact Hdb].
  destruct (Car.validate _).
  - apply (carsConsistent_insert db cid car _ Hdb Hcar).
    intros Hc. apply takeUnitOnCreate_consistent; assumption.
  - apply (carsConsistent_same_cars db); [exact Hdb | reflexivity].
Qed.

Lemma cancelBooking_consistent reqUser bid reason db :
  carsConsistent db -> carsConsistent (cancelBooking reqUser bid reason db).1.
Proof.
  intros Hdb. rewrite cancelBooking_tree.
  destruct (bookings db !! bid) as [b|]; [|exact Hdb].
  destruct (negb (Js.truthy_str reason)); [exact Hdb|].
  destruct (negb (bool_decide _)); [exact Hdb|].
  destruct (_ && _); [exact Hdb|].
  destruct (bool_decide _); [exact Hdb|].
  destruct (bool_decide _); [exact Hdb|]. cbv zeta.
  destruct (Booking.validate _); [|exact Hdb].
  destruct (cars db !! Booking.car b) as [c|] eqn:Hc.
  - destruct (Car.validate _).
    + apply (carsConsistent_insert db _ c _ Hdb Hc), releaseUnit_consistent.
    + apply (carsConsistent_same_cars db); [exact Hdb | reflexivity].
  - apply (carsConsistent_same_cars db); [exact Hdb | reflexivity].
Qed.

Lemma save_booking_consistent bid b db :
  carsConsistent db -> carsConsistent (BookingModel.save bid b db).1.
Proof.
  intros Hdb. unfold BookingModel.save. destruct (Booking.save b); [|exact Hdb].
  apply (carsConsistent_same_cars db); [exact Hdb | reflexivity].
Qed.

Lemma updateBooking_consistent bid status reason db :
  carsConsistent db -> carsConsistent (updateBooking bid status reason db).1.
Proof.
  intros Hdb.
  destruct status as [s|];
    [|destruct (updateBooking_rejects bid None reason db) as [e ->];
      [discriminate | exact Hdb]].
  destruct (parseStatus s) as [st|] eqn:Hp;
    [|destruct (updateBooking_rejects bid (Some s) reason db) as [e ->];
      [intros ? [= <-]; exact Hp | exact Hdb]].
  rewrite (updateBooking_tree bid s st reason db Hp).
  destruct (bookings db !! bid) as [b|]; [|exact Hdb]. cbv zeta.
  destruct (_ && _).
  - destruct (cars db !! Booking.car b) as [c|] eqn:Hc.
    + destruct (Car.validate _); [|exact Hdb].
      apply save_booking_consistent.
      apply (carsConsistent_insert db _ c _ Hdb Hc), releaseUnit_consistent.
    + apply save_booking_consistent, Hdb.
  - destruct (_ && _).
    + destruct (cars db !! Booking.car b) as [c|] eqn:Hc.
      * destruct (Z.leb_spec (Car.totalCarsAvailable c) 0); [exact Hdb|].
        destruct (Car.validate _); [|exact Hdb].
        apply save_booking_consistent.
        apply (carsConsistent_insert db _ c _ Hdb Hc).
        intros Hcons. apply takeUnitOnReconfirm_consistent; assumption.
      * apply save_booking_consistent, Hdb.
    + apply save_booking_consistent, Hdb.
Qed.

(** C7. [isAvailable = (totalCarsAvailable > 0)] is preserved by every
    request to the three handlers that write the counter: if it holds of
    every car before a create, a cancel or a status update, it holds of
    every car afterwards.  The four writes are the decrement after a
    create (reached only with the flag true), the increment of both
    cancellation paths, and the decrement of the cancelled-to-confirmed
    path (reached only with a positive counter). *)
Theorem flag_matches_counter_preserved parseDateTime (r : Request) db :
  carsConsistent db ->
  carsConsistent (handle parseDateTime r db).1 /\
  (forall c, flagConsistent c ->
     (Car.isAvailable c = true -> flagConsistent (takeUnitOnCreate c)) /\
     flagConsistent (releaseUnit c) /\
     (0 < Car.totalCarsAvailable c -> flagConsistent (takeUnitOnReconfirm c))).
Proof.
  intros Hdb. split.
  - destruct r as [u body | u bid reason | bid status reason]; simpl.
    + apply createBooking_consistent, Hdb.
    + apply cancelBooking_consistent, Hdb.
    + apply updateBooking_consistent, Hdb.
  - intros c Hc. split; [|split].
    + apply takeUnitOnCreate_consistent, Hc.
    + apply releaseUnit_consistent, Hc.
    + apply takeUnitOnReconfirm_consistent, Hc.
Qed.

Lemma sample_garage_consistent :
  carsConsistent (Sample.garage 1 true).
Proof.
  intros cid c H. unfold Sample.garage in H. cbn [cars] in H.
  apply lookup_singleton_Some in H as [_ <-]. reflexivity.
Qed.

(** [flag_matches_counter_preserved] on the sample data. *)
Lemma flag_matches_counter_preserved_witness :
  carsConsistent (Sample.garage 1 true) /\
  carsConsistent
    (handle Sample.parseDateTime (Create Sample.alice Sample.requestD)
       (Sample.garage 1 true)).1.
Proof.
  split; [exact sample_garage_consistent|].
  apply (flag_matches_counter_preserved Sample.parseDateTime
           (Create Sample.alice Sample.requestD) (Sample.garage 1 true)
           sample_garage_consistent).
Defined.

(** ** Stored documents keep passing their validators *)

Lemma pre_save_ok (b : Booking.t) :
  Booking.validate b = true ->
  Booking.pickupDate b <> Booking.dropoffDate b ->
  bookingOk (Booking.pre_save b).
Proof.
  unfold bookingOk, Booking.validate, Booking.pre_save. simpl.
  rewrite !andb_true_iff, !Z.leb_le.
  intros ((((Hl & Hp) & Hd) & _) & Hs) Hne.
  split; [|exact Hne]. repeat split; try assumption.
  apply ceil_div_pos; [apply oneDay_pos | lia].
Qed.

Lemma dbOk_store_booking db bid b cs :
  dbOk db -> (forall cid c, cs !! cid = Some c -> Car.validate c = true) ->
  bookingOk b ->
  dbOk (mkDb (users db) cs (<[bid := b]> (bookings db))).
Proof.
  intros [Hbs _] Hcs Hb. split; [|exact Hcs].
  intros k x. simpl. destruct (decide (bid = k)) as [<- | Hne].
  - rewrite lookup_insert_eq. intros [= <-]. exact Hb.
  - rewrite lookup_insert_ne by assumption. apply Hbs.
Qed.

Lemma carsValid_insert (cs : gmap Id Car.t) cid c :
  (forall k x, cs !! k = Some x -> Car.validate x = true) ->
  Car.validate c = true ->
  forall k x, <[cid := c]> cs !! k = Some x -> Car.validate x = true.
Proof.
  intros Hcs Hc k x. destruct (decide (cid = k)) as [<- | Hne].
  - rewrite lookup_insert_eq. intros [= <-]. exact Hc.
  - rewrite lookup_insert_ne by assumption. apply Hcs.
Qed.

Lemma dbOk_store_car db cid c :
  dbOk db -> Car.validate c = true ->
  dbOk (mkDb (users db) (<[cid := c]> (cars db)) (bookings db)).
Proof.
  intros [Hbs Hcs] Hc. split; [exact Hbs|].
  apply carsValid_insert; assumption.
Qed.

Lemma save_booking_ok bid b b0 db :
  dbOk db -> bookings db !! bid = Some b0 ->
  Booking.pickupDate b = Booking.pickupDate b0 ->
  Booking.dropoffDate b = Booking.dropoffDate b0 ->
  dbOk (BookingModel.save bid b db).1.
Proof.
  intros Hdb Hb0 Hp Hd. unfold BookingModel.save, Booking.save.
  destruct (Booking.validate b) eqn:Hv; [|exact Hdb].
  apply dbOk_store_booking; [exact Hdb | apply Hdb |].
  apply pre_save_ok; [exact Hv|].
  rewrite Hp, Hd. apply (proj1 Hdb bid b0 Hb0).
Qed.

(** Every request leaves a database of valid documents valid. *)
Theorem handle_preserves_dbOk parseDateTime (r : Request) db :
  dbOk db -> dbOk (handle parseDateTime r db).1.
Proof.
  intros Hdb. destruct r as [u body | u bid reason | bid status reason]; simpl.
  - destruct (createBooking_early parseDateTime u body db)
      as [[e ->] | (cid & p & d & Hwf)]; [exact Hdb|].
    rewrite (createBooking_at_car parseDateTime u body db cid p d Hwf).
    destruct (cars db !! cid) as [car|] eqn:Hcar; [|exact Hdb].
    destruct (negb (Car.isAvailable car)); [exact Hdb|].
    destruct (bool_decide _); [exact Hdb|]. cbv zeta.
    destruct (Booking.validate _) eqn:Hv; [|exact Hdb].
    assert (Hok : bookingOk (Booking.pre_save (newBooking u body cid p d car))).
    { apply pre_save_ok; [exact Hv|].
      destruct Hwf as (? & ? & _ & _ & _ & _ & _ & _ & _ & _ & Hlt).
      simpl. lia. }
    destruct (Car.validate (takeUnitOnCreate car)) eqn:Hcv.
    + apply dbOk_store_booking; [exact Hdb | | exact Hok].
      apply carsValid_insert; [apply Hdb | exact Hcv].
    + apply dbOk_store_booking; [exact Hdb | apply Hdb | exact Hok].
  - rewrite cancelBooking_tree.
    destruct (bookings db !! bid) as [b|] eqn:Hb; [|exact Hdb].
    destruct (negb (Js.truthy_str reason)); [exact Hdb|].
    destruct (negb (bool_decide _)); [exact Hdb|].
    destruct (_ && _); [exact Hdb|].
    destruct (bool_decide _); [exact Hdb|].
    destruct (bool_decide _); [exact Hdb|]. cbv zeta.
    destruct (Booking.validate _) eqn:Hv; [|exact Hdb].
    assert (Hok : bookingOk (Booking.pre_save
              (Booking.set_cancellationReason reason
                 (Booking.set_bookingStatus cancelled b)))).
    { apply pre_save_ok; [exact Hv|]. apply (proj1 Hdb bid b Hb). }
    destruct (cars db !! Booking.car b) as [c|] eqn:Hc.
    + destruct (Car.validate (releaseUnit c)) eqn:Hcv.
      * apply dbOk_store_booking; [exact Hdb | | exact Hok].
        apply carsValid_insert; [apply Hdb | exact Hcv].
      * apply dbOk_store_booking; [exact Hdb | apply Hdb | exact Hok].
    + apply dbOk_store_booking; [exact Hdb | apply Hdb | exact Hok].
  - destruct status as [s|];
      [|destruct (updateBooking_rejects bid None reason db) as [e ->];
        [discriminate | exact Hdb]].
    destruct (parseStatus s) as [st|] eqn:Hp;
      [|destruct (updateBooking_rejects bid (Some s) reason db) as [e ->];
        [intros ? [= <-]; exact Hp | exact Hdb]].
    rewrite (updateBooking_tree bid s st reason db Hp).
    destruct (bookings db !! bid) as [b|] eqn:Hb; [|exact Hdb]. cbv zeta.
    destruct (_ && _).
    + destruct (cars db !! Booking.car b) as [c|] eqn:Hc.
      * destruct (Car.validate (releaseUnit c)) eqn:Hcv; [|exact Hdb].
        apply (save_booking_ok bid _ b); try reflexivity; [|exact Hb].
        apply dbOk_store_car; assumption.
      * apply (save_booking_ok bid _ b); try reflexivity; assumption.
    + destruct (_ && _).
      * destruct (cars db !! Booking.car b) as [c|] eqn:Hc.
        -- destruct (Car.totalCarsAvailable c <=? 0); [exact Hdb|].
           destruct (Car.validate (takeUnitOnReconfirm c)) eqn:Hcv;
             [|exact Hdb].
           apply (save_booking_ok bid _ b); try reflexivity; [|exact Hb].
           apply dbOk_store_car; assumption.
        -- apply (save_booking_ok bid _ b); try reflexivity; assumption.
      * apply (save_booking_ok bid _ b); try reflexivity; assumption.
Qed.

(** * Further properties of the handlers *)

(** ** [createBooking]: rejections *)

Lemma createBooking_early_cases parseDateTime reqUser body db :
  createBooking parseDateTime reqUser body db
    = (db, Err MissingBookingInformation) \/
  createBooking parseDateTime reqUser body db
    = (db, Err DropoffMustBeAfterPickup) \/
  exists cid p d, wellFormed parseDateTime body cid p d.
Proof.
  unfold createBooking, wellFormed.
  destruct (carId body) as [cid|] eqn:Hc; [|left; reflexivity].
  destruct (pickupDate body) as [pds|] eqn:Hp; [|left; reflexivity].
  destruct (dropoffDate body) as [dds|] eqn:Hd; [|left; reflexivity].
  unfold bind at 1. unfold failWhen at 1, fail at 1, ret at 1.
  destruct (Js.truthy_str (pickupLocation body)) eqn:Hloc; cbn;
    [|left; reflexivity].
  destruct (bool_decide (pds = "")) eqn:Hpds; cbn; [left; reflexivity|].
  destruct (bool_decide (dds = "")) eqn:Hdds; cbn; [left; reflexivity|].
  unfold bind at 1. unfold failWhen at 1, fail at 1, ret at 1.
  fold (pickupInstant parseDateTime body pds)
       (dropoffInstant parseDateTime body dds).
  destruct (dropoffInstant parseDateTime body dds
            <=? pickupInstant parseDateTime body pds) eqn:Hle;
    [right; left; reflexivity|].
  right; right. exists cid, (pickupInstant parseDateTime body pds),
    (dropoffInstant parseDateTime body dds), pds, dds.
  apply bool_decide_eq_false in Hpds, Hdds. apply Z.leb_gt in Hle.
  repeat split; auto.
Qed.

(** A well-formed request determines its car and its window. *)
Lemma wellFormed_unique parseDateTime body cid p d cid' p' d' :
  wellFormed parseDateTime body cid p d ->
  wellFormed parseDateTime body cid' p' d' ->
  cid' = cid /\ p' = p /\ d' = d.
Proof.
  intros (pds & dds & Hc & Hp & Hd & _ & _ & _ & -> & -> & _)
         (pds' & dds' & Hc' & Hp' & Hd' & _ & _ & _ & -> & -> & _).
  rewrite Hc in Hc'. rewrite Hp in Hp'. rewrite Hd in Hd'.
  injection Hc' as <-. injection Hp' as <-. injection Hd' as <-. auto.
Qed.

(** X1. [createBooking] answers "Missing required booking information" when
    [carId], [pickupLocation], [pickupDate] or [dropoffDate] is missing or
    empty; with the four present, "Drop-off must be after pick-up" when the
    drop-off instant is not after the pick-up instant (an empty window
    included); and "Car not found" when the window is in order and the car
    is unknown.  Each leaves the database unchanged. *)
Theorem create_rejections parseDateTime reqUser body db :
  let r := createBooking parseDateTime reqUser body db in
  (carId body = None \/ Js.truthy_str (pickupLocation body) = false \/
   Js.truthy_str (pickupDate body) = false \/
   Js.truthy_str (dropoffDate body) = false ->
   r = (db, Err MissingBookingInformation)) /\
  (forall cid pds dds,
     carId body = Some cid -> pickupDate body = Some pds ->
     dropoffDate body = Some dds ->
     Js.truthy_str (pickupLocation body) = true -> pds <> "" -> dds <> "" ->
     dropoffInstant parseDateTime body dds
       <= pickupInstant parseDateTime body pds ->
     r = (db, Err DropoffMustBeAfterPickup)) /\
  (forall cid p d,
     wellFormed parseDateTime body cid p d -> cars db !! cid = None ->
     r = (db, Err CarNotFound)).
Proof.
  cbv zeta. split; [|split].
  - intros Hmiss. unfold createBooking.
    destruct (carId body) as [cid|]; [|reflexivity].
    destruct (pickupDate body) as [pds|] eqn:Hp; [|reflexivity].
    destruct (dropoffDate body) as [dds|] eqn:Hd; [|reflexivity].
    unfold bind at 1. unfold failWhen at 1, fail at 1.
    destruct Hmiss as [H | [H | [H | H]]]; [discriminate| | |];
      rewrite H; rewrite ?orb_true_r; reflexivity.
  - intros cid pds dds Hc Hp Hd Hloc Hpds Hdds Hle.
    unfold createBooking. rewrite Hc, Hp, Hd, Hloc. unfold_handler. simpl.
    rewrite !bool_decide_eq_false_2 by assumption. simpl.
    fold (pickupInstant parseDateTime body pds)
         (dropoffInstant parseDateTime body dds).
    apply Z.leb_le in Hle. rewrite Hle. reflexivity.
  - intros cid p d Hwf Hcar.
    rewrite (createBooking_at_car parseDateTime reqUser body db cid p d Hwf).
    rewrite Hcar. reflexivity.
Qed.

(** [create_rejections] on the sample data: no car id; a window that ends
    where it starts. *)
Lemma create_rejections_witness :
  createBooking Sample.parseDateTime Sample.alice
    (mkCreateBody None (Some "Airport") (Some "2025-06-01") None
       (Some "2025-06-03") None None None None) (Sample.garage 1 true)
  = (Sample.garage 1 true, Err MissingBookingInformation) /\
  createBooking Sample.parseDateTime Sample.alice
    (Sample.request "2025-06-01" "2025-06-01" None None) (Sample.garage 1 true)
  = (Sample.garage 1 true, Err DropoffMustBeAfterPickup).
Proof.
  split.
  - apply (create_rejections Sample.parseDateTime Sample.alice
             (mkCreateBody None (Some "Airport") (Some "2025-06-01") None
                (Some "2025-06-03") None None None None)
             (Sample.garage 1 true)).
    left. reflexivity.
  - apply (proj1 (proj2 (create_rejections Sample.parseDateTime Sample.alice
             (Sample.request "2025-06-01" "2025-06-01" None None)
             (Sample.garage 1 true))) 7%positive "2025-06-01" "2025-06-01");
      try reflexivity; try discriminate.
Defined.

(** X2. [createBooking] never answers "Minimum booking is 1 day": a request
    that passes the window check has a day count of at least 1, so the
    [totalDays < 1] test cannot fire. *)
Theorem create_never_minimum_one_day parseDateTime reqUser body db :
  (createBooking parseDateTime reqUser body db).2 <> Err MinimumBookingOneDay.
Proof.
  destruct (createBooking_early_cases parseDateTime reqUser body db)
    as [-> | [-> | (cid & p & d & Hwf)]]; [discriminate | discriminate |].
  rewrite (createBooking_at_car parseDateTime reqUser body db cid p d Hwf).
  destruct (cars db !! cid) as [car|]; [|discriminate].
  destruct (negb (Car.isAvailable car)); [discriminate|].
  destruct (bool_decide _); [discriminate|]. cbv zeta.
  destruct (Booking.validate _); [|discriminate].
  destruct (Car.validate _); discriminate.
Qed.

(** X3. The default "10:00 AM" only serves to compute the window: a request
    without [pickupTime] or without [dropoffTime] (missing or empty) is
    never stored.  It is answered with an error and the database is
    unchanged, because the raw field goes into the document and the schema
    requires it. *)
Theorem create_without_time_never_stored parseDateTime reqUser body db :
  Js.truthy_str (pickupTime body) = false \/
  Js.truthy_str (dropoffTime body) = false ->
  exists e, createBooking parseDateTime reqUser body db = (db, Err e).
Proof.
  intros Htime.
  destruct (createBooking_early_cases parseDateTime reqUser body db)
    as [-> | [-> | (cid & p & d & Hwf)]]; [eauto | eauto |].
  rewrite (createBooking_at_car parseDateTime reqUser body db cid p d Hwf).
  destruct (cars db !! cid) as [car|]; [|eauto].
  destruct (negb (Car.isAvailable car)); [eauto|].
  destruct (bool_decide _); [eauto|]. cbv zeta.
  assert (Hv : Booking.validate (newBooking reqUser body cid p d car) = false).
  { unfold Booking.validate, Booking.required_str, newBooking.
    cbn [Booking.pickupLocation Booking.pickupTime Booking.dropoffTime].
    destruct Htime as [-> | ->];
      rewrite ?andb_false_r, ?andb_false_l; reflexivity. }
  rewrite Hv. eauto.
Qed.

(** [create_without_time_never_stored] on the sample data. *)
Lemma create_without_time_never_stored_witness :
  let body := mkCreateBody (Some 7%positive) (Some "Airport")
                (Some "2025-06-01") None (Some "2025-06-03") (Some "10:00 AM")
                None None None in
  Js.truthy_str (pickupTime body) = false /\
  exists e, createBooking Sample.parseDateTime Sample.alice body
              (Sample.garage 1 true) = (Sample.garage 1 true, Err e).
Proof.
  cbv zeta. split; [reflexivity|].
  apply create_without_time_never_stored. left. reflexivity.
Defined.

(** ** What a request writes into the booking collection *)

Lemma pre_save_hookPriced (b : Booking.t) : hookPriced (Booking.pre_save b).
Proof.
  split; [reflexivity|]. exact (pre_save_totalPrice b).
Qed.

Lemma pre_save_sameReservation (b : Booking.t) :
  sameReservation b (Booking.pre_save b).
Proof. unfold sameReservation. repeat split; reflexivity. Qed.

Lemma fresh_booking_id (db : Db) :
  bookings db !! fresh (dom (bookings db)) = None.
Proof. apply not_elem_of_dom, is_fresh. Qed.

Lemma cancelled_not_completed_active (b : Booking.t) :
  Booking.bookingStatus b <> cancelled ->
  Booking.bookingStatus b <> completed -> isActive b = true.
Proof.
  unfold isActive. destruct (Booking.bookingStatus b); try congruence;
    reflexivity.
Qed.

(** A request leaves the booking collection as it was, or rewrites one
    stored booking (status and reason only, then the hook), or adds one
    booking under an unused id. *)
Lemma handle_bookings_cases parseDateTime (r : Request) db :
  let db' := (handle parseDateTime r db).1 in
  bookings db' = bookings db \/
  (exists bid b sb,
     bookings db !! bid = Some b /\
     bookings db' = <[bid := sb]> (bookings db) /\
     sameReservation b sb /\ hookPriced sb /\
     ((exists u reason,
         r = Cancel u bid reason /\ isActive b = true /\
         Booking.bookingStatus sb = cancelled /\
         Booking.cancellationReason sb = reason) \/
      (exists s reason st,
         r = SetStatus bid (Some s) reason /\ parseStatus s = Some st /\
         Booking.bookingStatus sb = st))) \/
  (exists u body cid p d car,
     r = Create u body /\
     wellFormed parseDateTime body cid p d /\
     cars db !! cid = Some car /\ Car.isAvailable car = true /\
     findOneIn (overlapQuery cid p d) (bookings db) = None /\
     Booking.validate (newBooking u body cid p d car) = true /\
     bookings db' =
       <[fresh (dom (bookings db))
         := Booking.pre_save (newBooking u body cid p d car)]> (bookings db)).
Proof.
  cbv zeta. destruct r as [u body | u bid reason | bid status reason]; simpl.
  - destruct (createBooking_early_cases parseDateTime u body db)
      as [-> | [-> | (cid & p & d & Hwf)]]; [left; reflexivity..|].
    rewrite (createBooking_at_car parseDateTime u body db cid p d Hwf).
    destruct (cars db !! cid) as [car|] eqn:Hcar; [|left; reflexivity].
    destruct (Car.isAvailable car) eqn:Ha; [|left; reflexivity]. simpl.
    destruct (findOneIn _ _) as [x|] eqn:Hfind.
    { rewrite bool_decide_eq_true_2 by eauto. left; reflexivity. }
    rewrite bool_decide_eq_false_2 by (intros [? ?]; discriminate).
    destruct (Booking.validate _) eqn:Hv; [|left; reflexivity].
    right; right. exists u, body, cid, p, d, car.
    repeat (split; [first [reflexivity | assumption]|]).
    destruct (Car.validate _); reflexivity.
  - rewrite cancelBooking_tree.
    destruct (bookings db !! bid) as [b|] eqn:Hb; [|left; reflexivity].
    destruct (negb (Js.truthy_str reason)); [left; reflexivity|].
    destruct (negb (bool_decide _)); [left; reflexivity|].
    destruct (_ && _); [left; reflexivity|].
    destruct (bool_decide (Booking.bookingStatus b = cancelled)) eqn:Hc;
      [left; reflexivity|].
    destruct (bool_decide (Booking.bookingStatus b = completed)) eqn:Hd;
      [left; reflexivity|].
    cbv zeta. destruct (Booking.validate _); [|left; reflexivity].
    apply bool_decide_eq_false in Hc, Hd.
    right; left. exists bid, b. eexists. split; [exact Hb|].
    split; [destruct (cars db !! Booking.car b) as [c|];
              [destruct (Car.validate _)|]; reflexivity|].
    split; [unfold sameReservation; repeat split; reflexivity|].
    split; [apply pre_save_hookPriced|].
    left. exists u, reason. split; [reflexivity|].
    split; [apply cancelled_not_completed_active; assumption|].
    split; reflexivity.
  - destruct status as [s|];
      [|destruct (updateBooking_rejects bid None reason db) as [e ->];
        [discriminate | left; reflexivity]].
    destruct (parseStatus s) as [st|] eqn:Hp;
      [|destruct (updateBooking_rejects bid (Some s) reason db) as [e ->];
        [intros ? [= <-]; exact Hp | left; reflexivity]].
    rewrite (updateBooking_tree bid s st reason db Hp).
    destruct (bookings db !! bid) as [b|] eqn:Hb; [|left; reflexivity].
    cbv zeta.
    assert (Hsave : forall b1 db1,
      bookings db1 = bookings db ->
      sameReservation b b1 -> Booking.bookingStatus b1 = st ->
      bookings (BookingModel.save bid b1 db1).1 = bookings db \/
      exists sb,
        bookings (BookingModel.save bid b1 db1).1
          = <[bid := sb]> (bookings db) /\
        sameReservation b sb /\ hookPriced sb /\
        Booking.bookingStatus sb = st).
    { intros b1 db1 Hdb1 Hsame Hst. unfold BookingModel.save, Booking.save.
      destruct (Booking.validate b1); [|left; exact Hdb1].
      right. exists (Booking.pre_save b1). simpl. rewrite Hdb1.
      split; [reflexivity|]. split; [exact Hsame|].
      split; [apply pre_save_hookPriced | exact Hst]. }
    assert (Hwrap : forall b1 db1,
      bookings db1 = bookings db ->
      sameReservation b b1 -> Booking.bookingStatus b1 = st ->
      bookings (BookingModel.save bid b1 db1).1 = bookings db \/
      (exists bid0 b0 sb,
         bookings db !! bid0 = Some b0 /\
         bookings (BookingModel.save bid b1 db1).1
           = <[bid0 := sb]> (bookings db) /\
         sameReservation b0 sb /\ hookPriced sb /\
         ((exists u reason0,
             SetStatus bid (Some s) reason = Cancel u bid0 reason0 /\
             isActive b0 = true /\
             Booking.bookingStatus sb = cancelled /\
             Booking.cancellationReason sb = reason0) \/
          (exists s0 reason0 st0,
             SetStatus bid (Some s) reason = SetStatus bid0 (Some s0) reason0 /\
             parseStatus s0 = Some st0 /\
             Booking.bookingStatus sb = st0))) \/
      (exists u body cid p d car,
         SetStatus bid (Some s) reason = Create u body /\
         wellFormed parseDateTime body cid p d /\
         cars db !! cid = Some car /\ Car.isAvailable car = true /\
         findOneIn (overlapQuery cid p d) (bookings db) = None /\
         Booking.validate (newBooking u body cid p d car) = true /\
         bookings (BookingModel.save bid b1 db1).1 =
           <[fresh (dom (bookings db))
             := Booking.pre_save (newBooking u body cid p d car)]>
             (bookings db))).
    { intros b1 db1 Hdb1 Hsame Hst.
      destruct (Hsave b1 db1 Hdb1 Hsame Hst)
        as [Heq | (sb & Heq & Hs & Hh & Hstat)]; [left; exact Heq|].
      right; left. exists bid, b, sb. repeat (split; [assumption|]).
      right. exists s, reason, st.
      split; [reflexivity|]. split; assumption. }
    assert (Hsame1 : sameReservation b (Booking.set_bookingStatus st b))
      by (unfold sameReservation; repeat split; reflexivity).
    assert (Hsame2 : forall rs,
      sameReservation b
        (Booking.set_cancellationReason rs (Booking.set_bookingStatus st b)))
      by (intros rs; unfold sameReservation; repeat split; reflexivity).
    destruct (_ && _).
    + destruct (cars db !! Booking.car b) as [c|].
      * destruct (Car.validate _); [|left; reflexivity].
        apply Hwrap; [reflexivity | apply Hsame2 | reflexivity].
      * apply Hwrap; [reflexivity | apply Hsame2 | reflexivity].
    + destruct (_ && _).
      * destruct (cars db !! Booking.car b) as [c|].
        -- destruct (Car.totalCarsAvailable c <=? 0); [left; reflexivity|].
           destruct (Car.validate _); [|left; reflexivity].
           apply Hwrap; [reflexivity | apply Hsame1 | reflexivity].
        -- apply Hwrap; [reflexivity | apply Hsame1 | reflexivity].
      * apply Hwrap; [reflexivity | apply Hsame1 | reflexivity].
Qed.

(** ** [createBooking]: what a success writes *)

(** X4. A successful create stores the answered booking under an id no
    booking had, leaves every other booking, every other car and the users
    as they were, and so grows the collection by exactly one document.  The
    booking belongs to the requesting user, is confirmed, and carries the
    car's rate at that moment. *)
Theorem create_adds_one_booking parseDateTime reqUser body db db' b :
  createBooking parseDateTime reqUser body db = (db', Ok b) ->
  let bid := fresh (dom (bookings db)) in
  bookings db !! bid = None /\
  bookings db' !! bid = Some b /\
  (forall k, k <> bid -> bookings db' !! k = bookings db !! k) /\
  size (bookings db') = S (size (bookings db)) /\
  users db' = users db /\
  Booking.user b = uid reqUser /\
  Booking.bookingStatus b = confirmed /\
  exists cid car,
    carId body = Some cid /\ cars db !! cid = Some car /\
    Booking.car b = cid /\
    Booking.pricePerDay b = Car.pricePerDay car /\
    (forall k, k <> cid -> cars db' !! k = cars db !! k).
Proof.
  intros Hrun.
  apply createBooking_Ok_inv in Hrun
    as (cid & p & d & car & Hwf & Hcar & _ & _ & _ & Hb & Hdb).
  cbv zeta. pose proof (fresh_booking_id db) as Hfresh.
  subst db'. unfold afterCreate. cbn [bookings cars users].
  split; [exact Hfresh|]. split; [apply lookup_insert_eq|].
  split; [intros k Hk; apply lookup_insert_ne; congruence|].
  split; [apply map_size_insert_None, Hfresh|].
  split; [reflexivity|]. split; [subst b; reflexivity|].
  split; [subst b; reflexivity|].
  exists cid, car. destruct Hwf as (pds & dds & Hc & _).
  split; [exact Hc|]. split; [exact Hcar|]. split; [subst b; reflexivity|].
  split; [subst b; reflexivity|].
  intros k Hk. apply lookup_insert_ne. congruence.
Qed.

(** [create_adds_one_booking] on the sample data. *)
Lemma create_adds_one_booking_witness :
  createBooking Sample.parseDateTime Sample.alice Sample.requestD
    (Sample.garage 1 true) = (Sample.afterD, Ok Sample.bookedD) /\
  size (bookings Sample.afterD) = 1%nat /\
  Booking.user Sample.bookedD = uid Sample.alice.
Proof.
  assert (H : createBooking Sample.parseDateTime Sample.alice Sample.requestD
                (Sample.garage 1 true) = (Sample.afterD, Ok Sample.bookedD))
    by (vm_compute; reflexivity).
  split; [exact H|].
  destruct (create_adds_one_booking _ _ _ _ _ _ H)
    as (_ & _ & _ & Hsize & _ & Huser & _).
  split; [exact Hsize | exact Huser].
Defined.

(** ** Double bookings *)

Lemma isActive_status (b b' : Booking.t) :
  Booking.bookingStatus b' = Booking.bookingStatus b ->
  isActive b' = isActive b.
Proof. unfold isActive. intros ->. reflexivity. Qed.

(** X5. If no two distinct active bookings of one car overlap, the same
    holds after any create, any cancel and any status update, except a
    status update that moves a cancelled or completed booking back to
    pending or confirmed: a create never stores a booking that overlaps an
    active one of the same car, whatever the car's counter and flag, and
    the other transitions change no window and activate nothing. *)
Theorem no_double_booking_preserved parseDateTime (r : Request) db :
  noDoubleBooking db ->
  reactivates db r = false ->
  noDoubleBooking (handle parseDateTime r db).1.
Proof.
  intros Hinv Hre.
  destruct (handle_bookings_cases parseDateTime r db)
    as [Heq | [(bid & b & sb & Hb & Heq & Hsame & _ & Hkind)
              | (u & body & cid & p & d & car & Hr & Hwf & _ & _ & Hfree & _
                 & Heq)]];
    intros i j bi bj Hij Hi Hj Hcar Hai Haj; rewrite Heq in Hi, Hj.
  - exact (Hinv i j bi bj Hij Hi Hj Hcar Hai Haj).
  - assert (Hact : isActive sb = true -> isActive b = true).
    { intros Hsb. destruct Hkind as [(u & reason & _ & Hab & _)
                                    | (s & reason & st & Hr & Hp & Hst)].
      - exact Hab.
      - subst r. simpl in Hre. rewrite Hp, Hb in Hre.
        unfold isActive in Hsb. rewrite Hst in Hsb. rewrite Hsb in Hre.
        simpl in Hre. apply negb_false_iff in Hre. exact Hre. }
    destruct Hsame as (_ & Hc & _ & Hp & _ & Hd & _).
    destruct (decide (i = bid)) as [-> | Hib];
      destruct (decide (j = bid)) as [-> | Hjb].
    + congruence.
    + rewrite lookup_insert_eq in Hi. injection Hi as <-.
      rewrite lookup_insert_ne in Hj by congruence.
      rewrite Hp, Hd. rewrite Hc in Hcar.
      exact (Hinv bid j b bj Hij Hb Hj Hcar (Hact Hai) Haj).
    + rewrite lookup_insert_eq in Hj. injection Hj as <-.
      rewrite lookup_insert_ne in Hi by congruence.
      rewrite Hp, Hd. rewrite Hc in Hcar.
      exact (Hinv i bid bi b Hij Hi Hb Hcar Hai (Hact Haj)).
    + rewrite lookup_insert_ne in Hi, Hj by congruence.
      exact (Hinv i j bi bj Hij Hi Hj Hcar Hai Haj).
  - pose proof (fresh_booking_id db) as Hfresh.
    set (bid := fresh (dom (bookings db))) in *.
    assert (Hclear : forall k bk,
      bookings db !! k = Some bk -> Booking.car bk = cid ->
      isActive bk = true ->
      ~ (p < Booking.dropoffDate bk /\ Booking.pickupDate bk < d)).
    { intros k bk Hk Hck Hak [H1 H2].
      rewrite findOneIn_None in Hfree. specialize (Hfree k bk Hk).
      assert (Hq : overlapQuery cid p d bk = true).
      { apply overlapQuery_true. split; [exact Hck|]. split; [|lia].
        unfold isActive in Hak. apply orb_true_iff in Hak as [H | H];
          apply bool_decide_eq_true in H; auto. }
      congruence. }
    destruct (decide (i = bid)) as [-> | Hib];
      destruct (decide (j = bid)) as [-> | Hjb].
    + congruence.
    + rewrite lookup_insert_eq in Hi. injection Hi as <-.
      rewrite lookup_insert_ne in Hj by congruence.
      change (~ (p < Booking.dropoffDate bj /\ Booking.pickupDate bj < d)).
      apply (Hclear j bj Hj); [symmetry; exact Hcar | exact Haj].
    + rewrite lookup_insert_eq in Hj. injection Hj as <-.
      rewrite lookup_insert_ne in Hi by congruence.
      change (~ (Booking.pickupDate bi < d /\ p < Booking.dropoffDate bi)).
      intros [H1 H2]. apply (Hclear i bi Hi); [exact Hcar | exact Hai | lia].
    + rewrite lookup_insert_ne in Hi, Hj by congruence.
      exact (Hinv i j bi bj Hij Hi Hj Hcar Hai Haj).
Qed.

Lemma sample_garage_noDoubleBooking (n : Z) (a : bool) :
  noDoubleBooking (Sample.garage n a).
Proof. intros i j bi bj _ Hi. discriminate. Qed.

Lemma busy_noDoubleBooking : noDoubleBooking Busy.db.
Proof.
  intros i j bi bj Hij Hi Hj _ _ _. unfold Busy.db in Hi, Hj.
  cbn [bookings] in Hi, Hj.
  apply lookup_insert_Some in Hi as [[<- <-] | [Hi2 Hi]];
    apply lookup_insert_Some in Hj as [[<- <-] | [Hj2 Hj]].
  - congruence.
  - apply lookup_singleton_Some in Hj as [<- <-].
    intros [H _]. vm_compute in H. discriminate.
  - apply lookup_singleton_Some in Hi as [<- <-].
    intros [_ H]. vm_compute in H. discriminate.
  - apply lookup_singleton_Some in Hi as [<- <-].
    apply lookup_singleton_Some in Hj as [<- _]. congruence.
Qed.

(** [no_double_booking_preserved] on the garage with two stays: alice's
    and bob's confirmed stays of car 7 are stored, the request for the days
    between them is answered and stored as a third confirmed stay of the
    car, and no two of the three overlap; nor do they after bob's stay is
    then moved to pending. *)
Lemma no_double_booking_preserved_witness :
  let db1 :=
    (handle Sample.parseDateTime (Create Sample.alice Busy.between)
       Busy.db).1 in
  let db2 :=
    (handle Sample.parseDateTime (SetStatus 2 (Some "pending") None) db1).1 in
  (bookings Busy.db !! 1%positive = Some Busy.early /\
   bookings Busy.db !! 2%positive = Some Busy.late /\
   Booking.car Busy.early = Booking.car Busy.late /\
   isActive Busy.early = true /\ isActive Busy.late = true) /\
  noDoubleBooking Busy.db /\
  reactivates Busy.db (Create Sample.alice Busy.between) = false /\
  bookings db1
    = <[ 3%positive := Busy.middle ]> (bookings Busy.db) /\
  noDoubleBooking db1 /\
  reactivates db1 (SetStatus 2 (Some "pending") None) = false /\
  statusOf db2 2 = Some pending /\
  size (bookings db2) = 3%nat /\
  noDoubleBooking db2.
Proof.
  cbv zeta.
  pose proof (no_double_booking_preserved Sample.parseDateTime
                (Create Sample.alice Busy.between) Busy.db
                busy_noDoubleBooking eq_refl) as H1.
  assert (Hre : reactivates
                  (handle Sample.parseDateTime
                     (Create Sample.alice Busy.between) Busy.db).1
                  (SetStatus 2 (Some "pending") None) = false)
    by (vm_compute; reflexivity).
  pose proof (no_double_booking_preserved Sample.parseDateTime
                (SetStatus 2 (Some "pending") None) _ H1 Hre) as H2.
  split; [repeat split; vm_compute; reflexivity|].
  split; [exact busy_noDoubleBooking|]. split; [reflexivity|].
  split; [vm_compute; reflexivity|]. split; [exact H1|].
  split; [exact Hre|]. split; [vm_compute; reflexivity|].
  split; [vm_compute; reflexivity | exact H2].
Defined.

(** The exception is real: after the update of [Sample.crowded], alice's
    and bob's confirmed stays of car 7 overlap. *)
Example reactivation_can_double_book :
  noDoubleBooking Sample.crowded /\
  reactivates Sample.crowded (SetStatus 1 (Some "confirmed") None) = true /\
  ~ noDoubleBooking
      (handle Sample.parseDateTime (SetStatus 1 (Some "confirmed") None)
         Sample.crowded).1.
Proof.
  split; [|split; [reflexivity|]].
  - intros i j bi bj Hij Hi Hj _ Hai Haj. unfold Sample.crowded in Hi, Hj.
    cbn [bookings] in Hi, Hj.
    apply lookup_insert_Some in Hi as [[<- <-] | [Hi2 Hi]];
      apply lookup_insert_Some in Hj as [[<- <-] | [Hj2 Hj]].
    + congruence.
    + apply lookup_singleton_Some in Hj as [<- <-]. discriminate.
    + apply lookup_singleton_Some in Hi as [<- <-]. discriminate.
    + apply lookup_singleton_Some in Hi as [<- <-]. discriminate.
  - intros Hno.
    apply (Hno 1%positive 2%positive
             (Booking.pre_save
                (Booking.set_bookingStatus confirmed (Sample.stay cancelled)))
             Sample.stayBob);
      [discriminate | vm_compute; reflexivity | vm_compute; reflexivity
      | reflexivity | reflexivity | reflexivity |].
    split; reflexivity.
Qed.

(** ** What no request changes *)

Lemma sameReservation_refl (b : Booking.t) : sameReservation b b.
Proof. unfold sameReservation. repeat split; reflexivity. Qed.

Lemma hookPriced_same (b sb : Booking.t) :
  sameReservation b sb -> hookPriced b -> hookPriced sb ->
  Booking.totalDays sb = Booking.totalDays b /\
  Booking.totalPrice sb = Booking.totalPrice b.
Proof.
  intros (_ & _ & _ & Hp & _ & Hd & _ & Hr & _ & Hdr & Hin) [Hb1 Hb2] [Hs1 Hs2].
  assert (Hdays : Booking.totalDays sb = Booking.totalDays b)
    by (rewrite Hs1, Hb1, Hp, Hd; reflexivity).
  split; [exact Hdays|].
  rewrite Hs2, Hb2, Hdays, Hr, Hdr, Hin. reflexivity.
Qed.

(** X10. No request deletes a booking, and no request changes the
    requester, the car, the window, the location and time texts, the rate,
    the special requests or the add-on flags of a stored booking.  When the
    stored day count and price are the ones the pre-save hook computes,
    they do not change either: after creation only the status and the
    cancellation reason move. *)
Theorem stored_booking_fields_are_kept parseDateTime (r : Request) db bid b :
  bookings db !! bid = Some b ->
  exists b',
    bookings (handle parseDateTime r db).1 !! bid = Some b' /\
    sameReservation b b' /\
    (hookPriced b ->
     Booking.totalDays b' = Booking.totalDays b /\
     Booking.totalPrice b' = Booking.totalPrice b).
Proof.
  intros Hb.
  destruct (handle_bookings_cases parseDateTime r db)
    as [Heq | [(bid0 & b0 & sb & Hb0 & Heq & Hsame & Hpriced & _)
              | (u & body & cid & p & d & car & _ & _ & _ & _ & _ & _ & Heq)]];
    rewrite Heq.
  - exists b. split; [exact Hb|]. split; [apply sameReservation_refl|]. auto.
  - destruct (decide (bid0 = bid)) as [-> | Hne].
    + rewrite Hb in Hb0. injection Hb0 as <-.
      exists sb. split; [apply lookup_insert_eq|]. split; [exact Hsame|].
      intros Hp. apply hookPriced_same; assumption.
    + exists b. split; [rewrite lookup_insert_ne by exact Hne; exact Hb|].
      split; [apply sameReservation_refl|]. auto.
  - exists b. split.
    + rewrite lookup_insert_ne; [exact Hb|].
      intros Heq'. pose proof (fresh_booking_id db) as Hf.
      rewrite Heq' in Hf. congruence.
    + split; [apply sameReservation_refl|]. auto.
Qed.

(** [stored_booking_fields_are_kept] on the sample data: the admin's
    update to "completed" keeps the price of alice's stay. *)
Lemma stored_booking_fields_are_kept_witness :
  let db := Sample.garageWith 0 false confirmed in
  bookings db !! 1%positive = Some (Sample.stay confirmed) /\
  exists b',
    bookings (handle Sample.parseDateTime (SetStatus 1 (Some "completed") None)
                db).1 !! 1%positive = Some b' /\
    Booking.totalPrice b' = 130.
Proof.
  cbv zeta. split; [reflexivity|].
  destruct (stored_booking_fields_are_kept Sample.parseDateTime
              (SetStatus 1 (Some "completed") None)
              (Sample.garageWith 0 false confirmed) 1 (Sample.stay confirmed)
              eq_refl) as (b' & Hb' & _ & Hprice).
  exists b'. split; [exact Hb'|].
  destruct Hprice as [_ Hp]; [split; reflexivity|]. rewrite Hp. reflexivity.
Defined.

(** The booking a handler answers with is a document the hook has priced. *)
Lemma handle_Ok_hookPriced parseDateTime (r : Request) db db' b :
  handle parseDateTime r db = (db', Ok b) -> hookPriced b.
Proof.
  destruct r as [u body | u bid reason | bid status reason]; simpl.
  - intros Hrun. apply createBooking_Ok_inv in Hrun
      as (cid & p & d & car & _ & _ & _ & _ & _ & -> & _).
    apply pre_save_hookPriced.
  - rewrite cancelBooking_tree.
    destruct (bookings db !! bid) as [b0|]; [|discriminate].
    destruct (negb (Js.truthy_str reason)); [discriminate|].
    destruct (negb (bool_decide _)); [discriminate|].
    destruct (_ && _); [discriminate|].
    destruct (bool_decide _); [discriminate|].
    destruct (bool_decide _); [discriminate|]. cbv zeta.
    destruct (Booking.validate _); [|discriminate].
    destruct (cars db !! Booking.car b0) as [c|]; [|discriminate].
    destruct (Car.validate _); [|discriminate].
    intros [= _ <-]. apply pre_save_hookPriced.
  - destruct status as [s|];
      [|destruct (updateBooking_rejects bid None reason db) as [e ->];
        [discriminate | discriminate]].
    destruct (parseStatus s) as [st|] eqn:Hp;
      [|destruct (updateBooking_rejects bid (Some s) reason db) as [e ->];
        [intros ? [= <-]; exact Hp | discriminate]].
    rewrite (updateBooking_tree bid s st reason db Hp).
    destruct (bookings db !! bid) as [b0|]; [|discriminate]. cbv zeta.
    assert (Hsave : forall b1 db1,
      BookingModel.save bid b1 db1 = (db', Ok b) -> hookPriced b).
    { intros b1 db1. unfold BookingModel.save, Booking.save.
      destruct (Booking.validate b1); [|discriminate].
      intros [= _ <-]. apply pre_save_hookPriced. }
    destruct (_ && _).
    + destruct (cars db !! Booking.car b0) as [c|]; [|apply Hsave].
      destruct (Car.validate _); [apply Hsave | discriminate].
    + destruct (_ && _); [|apply Hsave].
      destruct (cars db !! Booking.car b0) as [c|]; [|apply Hsave].
      destruct (Car.totalCarsAvailable c <=? 0); [discriminate|].
      destruct (Car.validate _); [apply Hsave | discriminate].
Qed.

(** X11. Every booking a handler writes has the day count and the price of
    the pre-save hook: [totalDays] is the ceiling of the absolute window
    length over one day and [totalPrice] is the rate times the days plus 15
    a day with insurance plus 10 a day with an additional driver.  This
    holds of the booking in a 2xx answer of create, cancel and status
    update, and it is an invariant of the collection. *)
Theorem written_bookings_are_hook_priced parseDateTime (r : Request) db :
  (forall db' b, handle parseDateTime r db = (db', Ok b) -> hookPriced b) /\
  ((forall bid b, bookings db !! bid = Some b -> hookPriced b) ->
   forall bid b,
     bookings (handle parseDateTime r db).1 !! bid = Some b -> hookPriced b).
Proof.
  split; [intros db' b; apply handle_Ok_hookPriced|].
  intros Hall bid b.
  destruct (handle_bookings_cases parseDateTime r db)
    as [Heq | [(bid0 & b0 & sb & _ & Heq & _ & Hpriced & _)
              | (u & body & cid & p & d & car & _ & _ & _ & _ & _ & _ & Heq)]];
    rewrite Heq.
  - apply Hall.
  - destruct (decide (bid0 = bid)) as [-> | Hne].
    + rewrite lookup_insert_eq. intros [= <-]. exact Hpriced.
    + rewrite lookup_insert_ne by exact Hne. apply Hall.
  - destruct (decide (fresh (dom (bookings db)) = bid)) as [<- | Hne].
    + rewrite lookup_insert_eq. intros [= <-]. apply pre_save_hookPriced.
    + rewrite lookup_insert_ne by exact Hne. apply Hall.
Qed.

(** [written_bookings_are_hook_priced] on the sample data. *)
Lemma written_bookings_are_hook_priced_witness :
  handle Sample.parseDateTime (Create Sample.alice Sample.requestD)
    (Sample.garage 1 true) = (Sample.afterD, Ok Sample.bookedD) /\
  hookPriced Sample.bookedD.
Proof.
  assert (H : handle Sample.parseDateTime (Create Sample.alice Sample.requestD)
                (Sample.garage 1 true) = (Sample.afterD, Ok Sample.bookedD))
    by (vm_compute; reflexivity).
  split; [exact H|].
  exact (proj1 (written_bookings_are_hook_priced Sample.parseDateTime
                  (Create Sample.alice Sample.requestD) (Sample.garage 1 true))
               _ _ H).
Defined.

(** ** Units held and units left *)

Section Counting.

Context (P : Id * Booking.t -> Prop) `{!forall kv, Decision (P kv)}.

(** Writing one document moves the count by what leaves and what enters. *)
Lemma count_insert (m : gmap Id Booking.t) (i : Id) (x : Booking.t) :
  (size (filter P (<[i := x]> m))
   + match m !! i with
     | Some y => if decide (P (i, y)) then 1 else 0
     | None => 0
     end
   = size (filter P m) + if decide (P (i, x)) then 1 else 0)%nat.
Proof.
  rewrite map_filter_insert.
  assert (Hold : filter P m !! i =
                 match m !! i with
                 | Some y => if decide (P (i, y)) then Some y else None
                 | None => None
                 end).
  { destruct (m !! i) as [y|] eqn:Hy.
    - destruct (decide (P (i, y))).
      + apply map_lookup_filter_Some. auto.
      + apply map_lookup_filter_None. right. intros z Hz. congruence.
    - apply map_lookup_filter_None. left. exact Hy. }
  destruct (decide (P (i, x))).
  - rewrite map_size_insert, Hold.
    destruct (m !! i) as [y|]; [destruct (decide (P (i, y)))|]; simpl; lia.
  - rewrite map_filter_delete, map_size_delete, Hold.
    destruct (m !! i) as [y|]; [destruct (decide (P (i, y)))|]; simpl;
      try lia.
    assert (size (filter P m) <> 0%nat).
    { apply map_size_ne_0_lookup. exists i. rewrite Hold.
      destruct (m !! i); eauto. }
    lia.
Qed.

End Counting.

Lemma unitsHeld_write db db' bid sb cid :
  bookings db' = <[bid := sb]> (bookings db) ->
  unitsHeld db' cid
  + match bookings db !! bid with
    | Some b =>
      if decide (isActive b = true /\ Booking.car b = cid) then 1 else 0
    | None => 0
    end
  = unitsHeld db cid
    + if decide (isActive sb = true /\ Booking.car sb = cid) then 1 else 0.
Proof.
  intros Heq. unfold unitsHeld. rewrite Heq.
  pose proof (count_insert
    (fun kv : Id * Booking.t => isActive kv.2 = true /\ Booking.car kv.2 = cid)
    (bookings db) bid sb) as Hc.
  cbn [snd] in Hc.
  destruct (bookings db !! bid) as [b|];
    [destruct (decide (isActive b = true /\ Booking.car b = cid))|];
    destruct (decide (isActive sb = true /\ Booking.car sb = cid)); lia.
Qed.

Lemma unitsHeld_same_bookings db db' cid :
  bookings db' = bookings db -> unitsHeld db' cid = unitsHeld db cid.
Proof. intros Heq. unfold unitsHeld. rewrite Heq. reflexivity. Qed.

Ltac hide_held :=
  repeat match goal with
         | |- context [unitsHeld ?d ?c] =>
           let h := fresh "held" in set (h := unitsHeld d c) in *; clearbody h
         | H : context [unitsHeld ?d ?c] |- _ =>
           let h := fresh "held" in set (h := unitsHeld d c) in *; clearbody h
         end.

(** One create or cancel keeps, for every car, the sum of its counter and
    of its active bookings. *)
Lemma units_conserved_step parseDateTime (r : Request) db cid c :
  (forall bid status reason, r <> SetStatus bid status reason) ->
  dbOk db -> carsConsistent db ->
  cars db !! cid = Some c ->
  exists c',
    cars (handle parseDateTime r db).1 !! cid = Some c' /\
    Car.totalCarsAvailable c' + unitsHeld (handle parseDateTime r db).1 cid
    = Car.totalCarsAvailable c + unitsHeld db cid.
Proof.
  intros Hr [_ Hvalid] Hcons Hc.
  assert (Hsame : forall db',
    cars db' = cars db -> bookings db' = bookings db ->
    exists c', cars db' !! cid = Some c' /\
      Car.totalCarsAvailable c' + unitsHeld db' cid
      = Car.totalCarsAvailable c + unitsHeld db cid).
  { intros db' H1 H2. exists c. rewrite H1.
    split; [exact Hc|]. rewrite (unitsHeld_same_bookings db db' cid H2).
    reflexivity. }
  destruct r as [u body | u bid reason | bid status reason];
    [| |exfalso; exact (Hr bid status reason eq_refl)]; simpl.
  - destruct (createBooking_early_cases parseDateTime u body db)
      as [-> | [-> | (cid0 & p & d & Hwf)]];
      [apply Hsame; reflexivity | apply Hsame; reflexivity |].
    rewrite (createBooking_at_car parseDateTime u body db cid0 p d Hwf).
    destruct (cars db !! cid0) as [car|] eqn:Hcar;
      [|apply Hsame; reflexivity].
    destruct (Car.isAvailable car) eqn:Ha; [|apply Hsame; reflexivity].
    cbn [negb]. cbv iota.
    destruct (bool_decide _); [apply Hsame; reflexivity|]. cbv zeta.
    destruct (Booking.validate _); [|apply Hsame; reflexivity].
    rewrite (takeUnitOnCreate_valid car (Hvalid cid0 car Hcar)).
    cbn [fst]. unfold afterCreate. cbn [cars].
    set (sb := Booking.pre_save (newBooking u body cid0 p d car)).
    pose proof (unitsHeld_write db
      (mkDb (users db) (<[cid0 := takeUnitOnCreate car]> (cars db))
         (<[fresh (dom (bookings db)) := sb]> (bookings db)))
      (fresh (dom (bookings db))) sb cid eq_refl) as Hheld.
    rewrite fresh_booking_id in Hheld.
    assert (Hactive : isActive sb = true) by reflexivity.
    assert (Hcarsb : Booking.car sb = cid0) by reflexivity.
    assert (Hpos : 0 < Car.totalCarsAvailable car).
    { pose proof (Hcons cid0 car Hcar) as Hf. unfold flagConsistent in Hf.
      rewrite Ha in Hf. symmetry in Hf. apply Z.ltb_lt in Hf. exact Hf. }
    destruct (decide (cid0 = cid)) as [-> | Hne].
    + rewrite lookup_insert_eq. eexists. split; [reflexivity|].
      rewrite Hcar in Hc. injection Hc as <-.
      rewrite takeUnitOnCreate_units. revert Hheld.
      destruct (decide (isActive sb = true /\ Booking.car sb = cid))
        as [_ | Hn]; [intros Hheld; hide_held; lia | exfalso; apply Hn; auto].
    + rewrite lookup_insert_ne by exact Hne. exists c. split; [exact Hc|].
      revert Hheld.
      destruct (decide (isActive sb = true /\ Booking.car sb = cid))
        as [[_ Hy] | _]; [congruence | intros Hheld; hide_held; lia].
  - rewrite cancelBooking_tree.
    destruct (bookings db !! bid) as [b|] eqn:Hb; [|apply Hsame; reflexivity].
    destruct (negb (Js.truthy_str reason)); [apply Hsame; reflexivity|].
    destruct (negb (bool_decide _)); [apply Hsame; reflexivity|].
    destruct (_ && _); [apply Hsame; reflexivity|].
    destruct (bool_decide (Booking.bookingStatus b = cancelled)) eqn:Hs1;
      [apply Hsame; reflexivity|].
    destruct (bool_decide (Booking.bookingStatus b = completed)) eqn:Hs2;
      [apply Hsame; reflexivity|].
    apply bool_decide_eq_false in Hs1, Hs2.
    pose proof (cancelled_not_completed_active b Hs1 Hs2) as Hact.
    cbv zeta. destruct (Booking.validate _); [|apply Hsame; reflexivity].
    set (sb := Booking.pre_save
                 (Booking.set_cancellationReason reason
                    (Booking.set_bookingStatus cancelled b))).
    assert (Hinactive : isActive sb = false) by reflexivity.
    assert (Hcarsb : Booking.car sb = Booking.car b) by reflexivity.
    assert (Hheld : forall db',
      bookings db' = <[bid := sb]> (bookings db) ->
      unitsHeld db' cid
      + (if decide (Booking.car b = cid) then 1 else 0) = unitsHeld db cid).
    { intros db' Heq. pose proof (unitsHeld_write db db' bid sb cid Heq) as H.
      rewrite Hb in H. revert H.
      destruct (decide (isActive sb = true /\ Booking.car sb = cid))
        as [[Hy _] | _]; [congruence|].
      destruct (decide (isActive b = true /\ Booking.car b = cid))
        as [[_ Hy] | Hn];
        destruct (decide (Booking.car b = cid)) as [Hz | Hz];
        intros H; hide_held; try lia; try congruence.
      exfalso. apply Hn. auto. }
    destruct (cars db !! Booking.car b) as [c0|] eqn:Hc0.
    + rewrite (releaseUnit_valid c0 (Hvalid _ c0 Hc0)). cbn [fst cars].
      specialize (Hheld
        (mkDb (users db) (<[Booking.car b := releaseUnit c0]> (cars db))
           (<[bid := sb]> (bookings db))) eq_refl).
      revert Hheld.
      destruct (decide (Booking.car b = cid)) as [Hy | Hn]; intros Hheld.
      * subst cid. rewrite lookup_insert_eq. eexists. split; [reflexivity|].
        rewrite Hc in Hc0. injection Hc0 as <-.
        rewrite releaseUnit_units. hide_held. lia.
      * rewrite lookup_insert_ne by exact Hn. exists c.
        split; [exact Hc | hide_held; lia].
    + cbn [fst cars].
      specialize (Hheld
        (mkDb (users db) (cars db) (<[bid := sb]> (bookings db))) eq_refl).
      exists c. split; [exact Hc|]. revert Hheld.
      destruct (decide (Booking.car b = cid)) as [Hy | Hn]; intros Hheld;
        [congruence | hide_held; lia].
Qed.


Lemma handle_consistent parseDateTime (r : Request) db :
  carsConsistent db -> carsConsistent (handle parseDateTime r db).1.
Proof.
  intros Hdb. destruct r as [u body | u bid reason | bid status reason]; simpl.
  - apply createBooking_consistent, Hdb.
  - apply cancelBooking_consistent, Hdb.
  - apply updateBooking_consistent, Hdb.
Qed.

(** X6. Over any sequence of create and cancel requests, on a database of
    valid documents whose flags match their counters, every car keeps the
    sum of its counter and of the number of its active (pending or
    confirmed) bookings: each create that succeeds takes exactly one unit,
    each cancel that succeeds returns exactly one, and a request that fails
    moves neither. *)
Theorem units_conserved_by_creates_and_cancels parseDateTime rs db cid c :
  Forall (fun r => forall bid status reason,
            r <> SetStatus bid status reason) rs ->
  dbOk db -> carsConsistent db ->
  cars db !! cid = Some c ->
  exists c',
    cars (run parseDateTime rs db) !! cid = Some c' /\
    Car.totalCarsAvailable c' + unitsHeld (run parseDateTime rs db) cid
    = Car.totalCarsAvailable c + unitsHeld db cid.
Proof.
  intros Hrs. revert db c.
  induction Hrs as [|r rs Hr _ IH]; intros db c Hok Hcons Hc; simpl.
  - exists c. split; [exact Hc | reflexivity].
  - destruct (units_conserved_step parseDateTime r db cid c Hr Hok Hcons Hc)
      as (c1 & Hc1 & Hsum1).
    destruct (IH (handle parseDateTime r db).1 c1
                (handle_preserves_dbOk parseDateTime r db Hok)
                (handle_consistent parseDateTime r db Hcons) Hc1)
      as (c' & Hc' & Hsum).
    exists c'. split; [exact Hc'|]. hide_held. lia.
Qed.

Lemma sample_garage_dbOk (n : Z) (a : bool) :
  0 <= n -> dbOk (Sample.garage n a).
Proof.
  intros Hn. split.
  - intros bid b H. discriminate.
  - intros cid c H. unfold Sample.garage in H. cbn [cars] in H.
    apply lookup_singleton_Some in H as [_ <-].
    unfold Car.validate. cbn. apply Z.leb_le. exact Hn.
Qed.

(** [units_conserved_by_creates_and_cancels] on the sample data: alice
    books car 7 and cancels. *)
Lemma units_conserved_by_creates_and_cancels_witness :
  let rs := [Create Sample.alice Sample.requestStay;
             Cancel Sample.alice 1 (Some "change of plans")] in
  dbOk (Sample.garage 1 true) /\ carsConsistent (Sample.garage 1 true) /\
  cars (Sample.garage 1 true) !! 7%positive = Some (Car.mk 50 1 true) /\
  exists c',
    cars (run Sample.parseDateTime rs (Sample.garage 1 true)) !! 7%positive
      = Some c' /\
    Car.totalCarsAvailable c'
    + unitsHeld (run Sample.parseDateTime rs (Sample.garage 1 true)) 7
    = 1 + unitsHeld (Sample.garage 1 true) 7.
Proof.
  cbv zeta.
  assert (Hok : dbOk (Sample.garage 1 true))
    by (apply sample_garage_dbOk; lia).
  split; [exact Hok|]. split; [exact sample_garage_consistent|].
  split; [reflexivity|].
  apply (units_conserved_by_creates_and_cancels Sample.parseDateTime
           [Create Sample.alice Sample.requestStay;
            Cancel Sample.alice 1 (Some "change of plans")]
           (Sample.garage 1 true) 7 (Car.mk 50 1 true)).
  - repeat constructor; discriminate.
  - exact Hok.
  - exact sample_garage_consistent.
  - reflexivity.
Defined.

(** Status updates are outside this law: completing a confirmed booking
    keeps its unit for good, and the way back from cancelled through
    pending takes none. *)
Example status_updates_break_conservation :
  let db := Sample.garageWith 0 false confirmed in
  let db' := (updateBooking 1 (Some "completed") None db).1 in
  unitsOf db 7 = Some 0 /\ unitsHeld db 7 = 1 /\
  unitsOf db' 7 = Some 0 /\ unitsHeld db' 7 = 0.
Proof. vm_compute. repeat split; reflexivity. Qed.

(** ** [cancelBooking]: who may cancel, and what a cancel leaves *)

(** X7. A cancel request from an actor who is neither an admin nor the
    requester of the booking is always answered with an error and never
    changes the database, whatever the reason and the state of the
    booking. *)
Theorem cancel_by_stranger_changes_nothing reqUser bid reason db :
  role reqUser <> RoleAdmin ->
  (forall b, bookings db !! bid = Some b -> Booking.user b <> uid reqUser) ->
  exists e, cancelBooking reqUser bid reason db = (db, Err e).
Proof.
  intros Hrole Hown. rewrite cancelBooking_tree.
  destruct (bookings db !! bid) as [b|]; [|eauto].
  destruct (negb (Js.truthy_str reason)); [eauto|].
  destruct (negb (bool_decide _)); [eauto|].
  rewrite (bool_decide_eq_false_2 _ (Hown b eq_refl)).
  rewrite (bool_decide_eq_false_2 _ Hrole). simpl. eauto.
Qed.

(** [cancel_by_stranger_changes_nothing] on the sample data. *)
Lemma cancel_by_stranger_changes_nothing_witness :
  let db := Sample.garageWith 0 false confirmed in
  role Sample.bob <> RoleAdmin /\
  exists e, cancelBooking Sample.bob 1 (Some "mine now") db = (db, Err e).
Proof.
  cbv zeta. split; [discriminate|].
  apply cancel_by_stranger_changes_nothing; [discriminate|].
  intros b Hb. unfold Sample.garageWith in Hb. cbn [bookings] in Hb.
  apply lookup_singleton_Some in Hb as [_ <-]. discriminate.
Defined.

(** A successful cancel, read backwards. *)
Lemma cancelBooking_Ok_inv reqUser bid reason db db' sb :
  cancelBooking reqUser bid reason db = (db', Ok sb) ->
  exists b c,
    bookings db !! bid = Some b /\ cars db !! Booking.car b = Some c /\
    Js.truthy_str reason = true /\ Booking.user b ∈ users db /\
    (Booking.user b = uid reqUser \/ role reqUser = RoleAdmin) /\
    isActive b = true /\
    sb = Booking.pre_save
           (Booking.set_cancellationReason reason
              (Booking.set_bookingStatus cancelled b)) /\
    db' = mkDb (users db) (<[Booking.car b := releaseUnit c]> (cars db))
            (<[bid := sb]> (bookings db)).
Proof.
  rewrite cancelBooking_tree.
  destruct (bookings db !! bid) as [b|] eqn:Hb; [|discriminate].
  destruct (Js.truthy_str reason) eqn:Ht; [|discriminate].
  cbn [negb]. cbv iota.
  destruct (bool_decide (Booking.user b ∈ users db)) eqn:Hu; [|discriminate].
  cbn [negb]. cbv iota.
  destruct (negb (bool_decide (Booking.user b = uid reqUser))
            && negb (bool_decide (role reqUser = RoleAdmin))) eqn:Hauth;
    [discriminate|].
  destruct (bool_decide (Booking.bookingStatus b = cancelled)) eqn:Hs1;
    [discriminate|].
  destruct (bool_decide (Booking.bookingStatus b = completed)) eqn:Hs2;
    [discriminate|].
  cbv zeta. destruct (Booking.validate _); [|discriminate].
  destruct (cars db !! Booking.car b) as [c|] eqn:Hc; [|discriminate].
  destruct (Car.validate _); [|discriminate].
  intros [= <- <-]. exists b, c.
  apply bool_decide_eq_true in Hu. apply bool_decide_eq_false in Hs1, Hs2.
  split; [reflexivity|]. split; [exact Hc|]. split; [reflexivity|].
  split; [exact Hu|]. split.
  - apply andb_false_iff in Hauth as [H | H]; apply negb_false_iff in H;
      apply bool_decide_eq_true in H; auto.
  - split; [apply cancelled_not_completed_active; assumption|].
    split; reflexivity.
Qed.

(** X8. After a cancel that succeeded, a second cancel of the same booking
    by anyone is answered with an error and changes nothing; from the
    requester or an admin, with a reason, the error is "Booking is already
    cancelled".  The unit is returned once. *)
Theorem cancel_twice_releases_once reqUser bid reason db db1 sb :
  cancelBooking reqUser bid reason db = (db1, Ok sb) ->
  forall reqUser' reason',
    (exists e, cancelBooking reqUser' bid reason' db1 = (db1, Err e)) /\
    (Js.truthy_str reason' = true ->
     Booking.user sb = uid reqUser' \/ role reqUser' = RoleAdmin ->
     cancelBooking reqUser' bid reason' db1 = (db1, Err AlreadyCancelled)).
Proof.
  intros Hrun reqUser' reason'.
  apply cancelBooking_Ok_inv in Hrun
    as (b & c & Hb & Hc & _ & Hu & _ & _ & Hsb & ->).
  assert (Hst : Booking.bookingStatus sb = cancelled) by (subst sb; reflexivity).
  assert (Huser : Booking.user sb = Booking.user b) by (subst sb; reflexivity).
  rewrite cancelBooking_tree. cbn [bookings users].
  rewrite lookup_insert_eq, Huser, (bool_decide_eq_true_2 _ Hu).
  rewrite (bool_decide_eq_true_2 _ Hst). cbn [negb]. split.
  - destruct (negb (Js.truthy_str reason')); [eauto|].
    destruct (_ && _); eauto.
  - intros -> Hauth. cbn [negb].
    assert (Hno : negb (bool_decide (Booking.user b = uid reqUser'))
                  && negb (bool_decide (role reqUser' = RoleAdmin)) = false).
    { destruct Hauth as [E | E]; rewrite (bool_decide_eq_true_2 _ E);
        [reflexivity | apply andb_false_r]. }
    rewrite Hno. reflexivity.
Qed.

(** [cancel_twice_releases_once] on the sample data. *)
Lemma cancel_twice_releases_once_witness :
  let db := Sample.garageWith 0 false confirmed in
  let r := cancelBooking Sample.alice 1 (Some "change of plans") db in
  (exists sb, r = (r.1, Ok sb)) /\
  unitsOf r.1 7 = Some 1 /\
  exists e, cancelBooking Sample.alice 1 (Some "again") r.1 = (r.1, Err e).
Proof.
  cbv zeta.
  assert (H : cancelBooking Sample.alice 1 (Some "change of plans")
                (Sample.garageWith 0 false confirmed)
              = ((cancelBooking Sample.alice 1 (Some "change of plans")
                    (Sample.garageWith 0 false confirmed)).1,
                 Ok (Booking.pre_save
                       (Booking.set_cancellationReason
                          (Some "change of plans")
                          (Booking.set_bookingStatus cancelled
                             (Sample.stay confirmed))))))
    by (vm_compute; reflexivity).
  split; [eexists; exact H|]. split; [vm_compute; reflexivity|].
  exact (proj1 (cancel_twice_releases_once _ _ _ _ _ _ H Sample.alice
                  (Some "again"))).
Defined.

(** X9. When the car of a booking is no longer in the catalogue, a cancel
    that passes every check stores the cancellation (status and reason)
    and is then answered with an error, the counter update being attempted
    on a car that is not there.  No car is written. *)
Theorem cancel_with_car_gone reqUser bid reason db b :
  bookings db !! bid = Some b ->
  cars db !! Booking.car b = None ->
  Js.truthy_str reason = true ->
  Booking.user b ∈ users db ->
  Booking.user b = uid reqUser \/ role reqUser = RoleAdmin ->
  isActive b = true ->
  Booking.validate b = true ->
  let r := cancelBooking reqUser bid reason db in
  r.2 = Err TypeError /\
  statusOf r.1 bid = Some cancelled /\
  (Booking.cancellationReason <$> bookings r.1 !! bid) = Some reason /\
  cars r.1 = cars db.
Proof.
  intros Hb Hc Hreason Hu Hauth Hact Hv. cbv zeta.
  rewrite cancelBooking_tree, Hb, Hreason, Hc.
  rewrite (bool_decide_eq_true_2 _ Hu). cbn [negb]. cbv iota.
  assert (Hno : negb (bool_decide (Booking.user b = uid reqUser))
                && negb (bool_decide (role reqUser = RoleAdmin)) = false).
  { destruct Hauth as [E | E]; rewrite (bool_decide_eq_true_2 _ E);
      [reflexivity | apply andb_false_r]. }
  rewrite Hno.
  assert (Hs1 : Booking.bookingStatus b <> cancelled)
    by (intros E; unfold isActive in Hact; rewrite E in Hact; discriminate).
  assert (Hs2 : Booking.bookingStatus b <> completed)
    by (intros E; unfold isActive in Hact; rewrite E in Hact; discriminate).
  rewrite (bool_decide_eq_false_2 _ Hs1), (bool_decide_eq_false_2 _ Hs2).
  cbv zeta.
  rewrite validate_set_cancellationReason, validate_set_bookingStatus, Hv.
  unfold statusOf. cbn [fst snd bookings cars].
  rewrite !lookup_insert_eq. repeat split; reflexivity.
Qed.

(** [cancel_with_car_gone] on the sample data. *)
Lemma cancel_with_car_gone_witness :
  let db := mkDb Sample.people ∅ {[ 1%positive := Sample.stay confirmed ]} in
  bookings db !! 1%positive = Some (Sample.stay confirmed) /\
  cars db !! Booking.car (Sample.stay confirmed) = None /\
  (cancelBooking Sample.alice 1 (Some "no car") db).2 = Err TypeError /\
  statusOf (cancelBooking Sample.alice 1 (Some "no car") db).1 1
    = Some cancelled.
Proof.
  cbv zeta. split; [reflexivity|]. split; [reflexivity|].
  destruct (cancel_with_car_gone Sample.alice 1 (Some "no car")
              (mkDb Sample.people ∅ {[ 1%positive := Sample.stay confirmed ]})
              (Sample.stay confirmed)) as (He & Hs & _);
    try reflexivity.
  - left. reflexivity.
  - split; [exact He | exact Hs].
Defined.

(** X25. Whenever a cancel is answered with the booking (200), the stored
    booking is that answer, its status is cancelled, its reason is the
    non-empty reason of the request, and, the counter of its car not being
    negative beforehand, the car is flagged available afterwards. *)
Theorem cancel_success_makes_car_available reqUser bid reason db db' sb :
  cancelBooking reqUser bid reason db = (db', Ok sb) ->
  (forall cid c, cars db !! cid = Some c -> 0 <= Car.totalCarsAvailable c) ->
  bookings db' !! bid = Some sb /\
  Booking.bookingStatus sb = cancelled /\
  Booking.cancellationReason sb = reason /\
  Js.truthy_str reason = true /\
  flagOf db' (Booking.car sb) = Some true.
Proof.
  intros Hrun Hnonneg.
  apply cancelBooking_Ok_inv in Hrun
    as (b & c & Hb & Hc & Hreason & _ & _ & _ & Hsb & ->).
  cbn [bookings]. split; [apply lookup_insert_eq|].
  split; [subst sb; reflexivity|]. split; [subst sb; reflexivity|].
  split; [exact Hreason|].
  assert (Hcar : Booking.car sb = Booking.car b) by (subst sb; reflexivity).
  unfold flagOf. cbn [cars]. rewrite Hcar, lookup_insert_eq.
  cbn [fmap option_fmap option_map]. f_equal.
  pose proof (Hnonneg _ c Hc) as Hn.
  destruct c as [price n a]. unfold releaseUnit, Car.set_totalCarsAvailable,
    Car.set_isAvailable. cbn in *.
  destruct a; cbn; [reflexivity|].
  destruct (Z.ltb_spec 0 (n + 1)); [reflexivity | lia].
Qed.

(** [cancel_success_makes_car_available] on the sample data. *)
Lemma cancel_success_makes_car_available_witness :
  let db := Sample.garageWith 0 false confirmed in
  let r := cancelBooking Sample.alice 1 (Some "change of plans") db in
  (exists sb, r = (r.1, Ok sb)) /\ flagOf r.1 7 = Some true.
Proof.
  cbv zeta.
  assert (H : cancelBooking Sample.alice 1 (Some "change of plans")
                (Sample.garageWith 0 false confirmed)
              = ((cancelBooking Sample.alice 1 (Some "change of plans")
                    (Sample.garageWith 0 false confirmed)).1,
                 Ok (Booking.pre_save
                       (Booking.set_cancellationReason
                          (Some "change of plans")
                          (Booking.set_bookingStatus cancelled
                             (Sample.stay confirmed))))))
    by (vm_compute; reflexivity).
  split; [eexists; exact H|].
  refine (proj2 (proj2 (proj2 (proj2
    (cancel_success_makes_car_available _ _ _ _ _ _ H _))))).
  intros cid c Hc. unfold Sample.garageWith in Hc. cbn [cars] in Hc.
  apply lookup_singleton_Some in Hc as [_ <-]. cbn. lia.
Defined.

(** ** Create, then cancel *)




(** ** [updateBooking]: rejections and inventory *)

Lemma parseStatus_statusName (s : string) (st : BookingStatus) :
  parseStatus s = Some st <-> s = statusName st.
Proof.
  unfold parseStatus. split.
  - repeat case_bool_decide; intros [= <-]; assumption.
  - intros ->. destruct st; reflexivity.
Qed.

(** X13. [updateBooking] accepts exactly the four status names of the
    schema, spelled as in the schema: a missing or empty status is answered
    "Please provide booking status", any other text that is not one of
    "pending", "confirmed", "cancelled", "completed" (a capitalised name,
    for one) is answered "Invalid booking status", and an accepted status
    on an unknown booking id is answered "Booking not found".  Each leaves
    the database unchanged. *)
Theorem update_rejections bid status reason db :
  let r := updateBooking bid status reason db in
  (Js.truthy_str status = false -> r = (db, Err StatusRequired)) /\
  (forall s,
     status = Some s -> s <> "" ->
     (forall st, s <> statusName st) ->
     r = (db, Err InvalidBookingStatus)) /\
  (forall st,
     status = Some (statusName st) -> bookings db !! bid = None ->
     r = (db, Err BookingNotFound)).
Proof.
  cbv zeta. split; [|split].
  - intros Hfalsy. unfold updateBooking. destruct status as [s|];
      [|reflexivity].
    unfold bind, failWhen, fail. rewrite Hfalsy. reflexivity.
  - intros s -> Hne Hbad. unfold updateBooking, bind, failWhen, fail, ret.
    cbn [Js.truthy_str]. rewrite (bool_decide_eq_false_2 _ Hne). cbn [negb].
    destruct (parseStatus s) as [st|] eqn:Hp; [|reflexivity].
    apply parseStatus_statusName in Hp. destruct (Hbad st Hp).
  - intros st -> Hnone.
    rewrite (updateBooking_tree bid (statusName st) st reason db)
      by (apply parseStatus_statusName; reflexivity).
    rewrite Hnone. reflexivity.
Qed.

(** [update_rejections] on the sample data. *)
Lemma update_rejections_witness :
  let db := Sample.garageWith 0 false confirmed in
  updateBooking 1 (Some "") None db = (db, Err StatusRequired) /\
  updateBooking 1 (Some "Confirmed") None db = (db, Err InvalidBookingStatus) /\
  updateBooking 9 (Some "confirmed") None db = (db, Err BookingNotFound).
Proof.
  cbv zeta.
  split; [|split].
  - apply (update_rejections 1 (Some "") None
             (Sample.garageWith 0 false confirmed)). reflexivity.
  - apply (proj1 (proj2 (update_rejections 1 (Some "Confirmed") None
             (Sample.garageWith 0 false confirmed))) "Confirmed");
      [reflexivity | discriminate |].
    intros st. destruct st; discriminate.
  - apply (proj2 (proj2 (update_rejections 9 (Some "confirmed") None
             (Sample.garageWith 0 false confirmed))) confirmed);
      reflexivity.
Defined.

(** X12. A status update writes a car on two transitions only: to
    "cancelled" from a status other than cancelled, and to "confirmed" from
    cancelled.  Every other update leaves the car collection as it was; in
    particular repeating a status (cancelled on a cancelled booking
    included) moves no unit, and neither leg of the way from cancelled to
    confirmed through pending checks or moves the counter. *)
Theorem update_writes_cars_on_two_transitions bid status reason db :
  cars (updateBooking bid status reason db).1 <> cars db ->
  exists b,
    bookings db !! bid = Some b /\
    ((status = Some "cancelled" /\ Booking.bookingStatus b <> cancelled) \/
     (status = Some "confirmed" /\ Booking.bookingStatus b = cancelled)).
Proof.
  intros Hchanged.
  destruct status as [s|];
    [|destruct (updateBooking_rejects bid None reason db) as [e He];
      [discriminate | rewrite He in Hchanged; destruct (Hchanged eq_refl)]].
  destruct (parseStatus s) as [st|] eqn:Hp;
    [|destruct (updateBooking_rejects bid (Some s) reason db) as [e He];
      [intros ? [= <-]; exact Hp
      | rewrite He in Hchanged; destruct (Hchanged eq_refl)]].
  rewrite (updateBooking_tree bid s st reason db Hp) in Hchanged.
  destruct (bookings db !! bid) as [b|] eqn:Hb;
    [|destruct (Hchanged eq_refl)].
  exists b. split; [reflexivity|]. cbv zeta in Hchanged.
  apply parseStatus_statusName in Hp. subst s.
  assert (Hsave : forall b1 db1,
    cars db1 = cars db -> cars (BookingModel.save bid b1 db1).1 = cars db).
  { intros b1 db1 H1. unfold BookingModel.save.
    destruct (Booking.save b1); exact H1. }
  destruct (bool_decide (st = cancelled)) eqn:Hc.
  - apply bool_decide_eq_true in Hc. subst st.
    destruct (bool_decide (Booking.bookingStatus b = cancelled)) eqn:Ho.
    + exfalso. apply Hchanged. cbn. apply Hsave. reflexivity.
    + apply bool_decide_eq_false in Ho. left. split; [reflexivity | exact Ho].
  - cbn [andb] in Hchanged.
    destruct (bool_decide (st = confirmed)) eqn:Hk.
    + apply bool_decide_eq_true in Hk. subst st.
      destruct (bool_decide (Booking.bookingStatus b = cancelled)) eqn:Ho.
      * apply bool_decide_eq_true in Ho. right.
        split; [reflexivity | exact Ho].
      * exfalso. apply Hchanged. cbn. apply Hsave. reflexivity.
    + exfalso. apply Hchanged. cbn. apply Hsave. reflexivity.
Qed.

(** [update_writes_cars_on_two_transitions] on the sample data. *)
Lemma update_writes_cars_on_two_transitions_witness :
  let db := Sample.garageWith 0 false confirmed in
  cars (updateBooking 1 (Some "cancelled") None db).1 <> cars db /\
  exists b,
    bookings db !! 1%positive = Some b /\
    ((Some "cancelled" = Some "cancelled"
      /\ Booking.bookingStatus b <> cancelled) \/
     (Some "cancelled" = Some "confirmed"
      /\ Booking.bookingStatus b = cancelled)).
Proof.
  cbv zeta.
  assert (H : cars (updateBooking 1 (Some "cancelled") None
                      (Sample.garageWith 0 false confirmed)).1
              <> cars (Sample.garageWith 0 false confirmed)).
  { intros Heq.
    assert (Hl : cars (updateBooking 1 (Some "cancelled") None
                         (Sample.garageWith 0 false confirmed)).1 !! 7%positive
                 = cars (Sample.garageWith 0 false confirmed) !! 7%positive)
      by (rewrite Heq; reflexivity).
    vm_compute in Hl. discriminate. }
  split; [exact H|].
  exact (update_writes_cars_on_two_transitions 1 (Some "cancelled") None
           (Sample.garageWith 0 false confirmed) H).
Defined.

(** ** [getBooking] *)

(** X14. [getBooking] shows a booking only to its requester or to an
    admin, and what it shows is the stored document: any other actor gets
    the 403, an unknown id the 404.  The requester and every admin do get
    the booking as long as the requester's user document exists. *)
Theorem getBooking_shows_to_owner_or_admin reqUser bid db :
  (forall b,
     getBooking reqUser bid db = ViewOk b ->
     bookings db !! bid = Some b /\
     (Booking.user b = uid reqUser \/ role reqUser = RoleAdmin)) /\
  (bookings db !! bid = None ->
   getBooking reqUser bid db = ViewErr ViewBookingNotFound) /\
  (forall b,
     bookings db !! bid = Some b -> Booking.user b ∈ users db ->
     (Booking.user b = uid reqUser \/ role reqUser = RoleAdmin ->
      getBooking reqUser bid db = ViewOk b) /\
     (Booking.user b <> uid reqUser -> role reqUser <> RoleAdmin ->
      getBooking reqUser bid db = ViewErr ViewNotAuthorized)).
Proof.
  unfold getBooking. split; [|split].
  - intros b. destruct (bookings db !! bid) as [b0|]; [|discriminate].
    destruct (negb (bool_decide (Booking.user b0 ∈ users db)));
      [discriminate|].
    destruct (bool_decide (Booking.user b0 = uid reqUser)) eqn:Ho;
      destruct (bool_decide (role reqUser = RoleAdmin)) eqn:Hr;
      cbn; try discriminate; intros [= <-]; (split; [reflexivity|]).
    + left. apply bool_decide_eq_true in Ho. exact Ho.
    + left. apply bool_decide_eq_true in Ho. exact Ho.
    + right. apply bool_decide_eq_true in Hr. exact Hr.
  - intros ->. reflexivity.
  - intros b -> Hu. rewrite (bool_decide_eq_true_2 _ Hu). cbn [negb]. split.
    + intros [E | E]; rewrite (bool_decide_eq_true_2 _ E); cbn;
        [reflexivity | rewrite andb_false_r; reflexivity].
    + intros Ho Hr.
      rewrite (bool_decide_eq_false_2 _ Ho), (bool_decide_eq_false_2 _ Hr).
      reflexivity.
Qed.

(** [getBooking_shows_to_owner_or_admin] on the sample data. *)
Lemma getBooking_shows_to_owner_or_admin_witness :
  let db := Sample.garageWith 0 false confirmed in
  getBooking Sample.alice 1 db = ViewOk (Sample.stay confirmed) /\
  getBooking Sample.bob 1 db = ViewErr ViewNotAuthorized.
Proof.
  cbv zeta.
  destruct (getBooking_shows_to_owner_or_admin Sample.alice 1
              (Sample.garageWith 0 false confirmed)) as (_ & _ & Ha).
  destruct (getBooking_shows_to_owner_or_admin Sample.bob 1
              (Sample.garageWith 0 false confirmed)) as (_ & _ & Hb).
  split.
  - apply (Ha (Sample.stay confirmed)); [reflexivity | vm_compute; reflexivity|].
    left. reflexivity.
  - apply (Hb (Sample.stay confirmed));
      [reflexivity | vm_compute; reflexivity | discriminate | discriminate].
Defined.

(** ** Failed requests *)

(** X22. On a database of valid documents, a create, cancel or status
    update that is answered with an error has changed nothing, with one
    exception: the cancel of a booking whose car is gone, which has stored
    the cancellation before it fails.  In particular a refused create
    leaves no booking and takes no unit, and a status update refused for
    lack of units leaves the booking cancelled. *)
Theorem failed_request_leaves_no_trace parseDateTime (r : Request) db db' e :
  dbOk db ->
  handle parseDateTime r db = (db', Err e) ->
  db' = db \/
  exists u bid reason b,
    r = Cancel u bid reason /\ bookings db !! bid = Some b /\
    cars db !! Booking.car b = None /\ e = TypeError /\
    statusOf db' bid = Some cancelled.
Proof.
  intros [Hbs Hcs].
  destruct r as [u body | u bid reason | bid status reason]; simpl.
  - destruct (createBooking_early_cases parseDateTime u body db)
      as [-> | [-> | (cid & p & d & Hwf)]];
      [intros [= <- _]; left; reflexivity
      | intros [= <- _]; left; reflexivity |].
    rewrite (createBooking_at_car parseDateTime u body db cid p d Hwf).
    destruct (cars db !! cid) as [car|] eqn:Hcar;
      [|intros [= <- _]; left; reflexivity].
    destruct (negb (Car.isAvailable car));
      [intros [= <- _]; left; reflexivity|].
    destruct (bool_decide _); [intros [= <- _]; left; reflexivity|].
    cbv zeta. destruct (Booking.validate _);
      [|intros [= <- _]; left; reflexivity].
    rewrite (takeUnitOnCreate_valid car (Hcs cid car Hcar)). discriminate.
  - rewrite cancelBooking_tree.
    destruct (bookings db !! bid) as [b|] eqn:Hb;
      [|intros [= <- _]; left; reflexivity].
    destruct (negb (Js.truthy_str reason));
      [intros [= <- _]; left; reflexivity|].
    destruct (negb (bool_decide _)); [intros [= <- _]; left; reflexivity|].
    destruct (_ && _); [intros [= <- _]; left; reflexivity|].
    destruct (bool_decide _); [intros [= <- _]; left; reflexivity|].
    destruct (bool_decide _); [intros [= <- _]; left; reflexivity|].
    cbv zeta. destruct (Booking.validate _);
      [|intros [= <- _]; left; reflexivity].
    destruct (cars db !! Booking.car b) as [c|] eqn:Hc.
    + rewrite (releaseUnit_valid c (Hcs _ c Hc)). discriminate.
    + intros [= <- <-]. right. exists u, bid, reason, b.
      split; [reflexivity|]. split; [exact Hb|]. split; [exact Hc|].
      split; [reflexivity|].
      unfold statusOf. cbn [bookings]. rewrite lookup_insert_eq. reflexivity.
  - destruct status as [s|];
      [|destruct (updateBooking_rejects bid None reason db) as [e0 ->];
        [discriminate | intros [= <- _]; left; reflexivity]].
    destruct (parseStatus s) as [st|] eqn:Hp;
      [|destruct (updateBooking_rejects bid (Some s) reason db) as [e0 ->];
        [intros ? [= <-]; exact Hp | intros [= <- _]; left; reflexivity]].
    rewrite (updateBooking_tree bid s st reason db Hp).
    destruct (bookings db !! bid) as [b|] eqn:Hb;
      [|intros [= <- _]; left; reflexivity].
    cbv zeta. pose proof (proj1 (Hbs bid b Hb)) as Hv.
    assert (Hsave : forall b1 db1,
      BookingModel.save bid b1 db1 = (db', Err e) ->
      Booking.validate b1 = false).
    { intros b1 db1. unfold BookingModel.save, Booking.save.
      destruct (Booking.validate b1); [discriminate | reflexivity]. }
    destruct (_ && _).
    + destruct (cars db !! Booking.car b) as [c|] eqn:Hc.
      * rewrite (releaseUnit_valid c (Hcs _ c Hc)).
        intros H; apply Hsave in H;
          rewrite ?validate_set_cancellationReason,
            ?validate_set_bookingStatus in H; congruence.
      * intros H; apply Hsave in H;
          rewrite ?validate_set_cancellationReason,
            ?validate_set_bookingStatus in H; congruence.
    + destruct (_ && _).
      * destruct (cars db !! Booking.car b) as [c|] eqn:Hc.
        -- destruct (Z.leb_spec (Car.totalCarsAvailable c) 0) as [Hle | Hgt];
             [intros [= <- _]; left; reflexivity|].
           rewrite (takeUnitOnReconfirm_valid c (Hcs _ c Hc) Hgt).
           intros H; apply Hsave in H;
          rewrite ?validate_set_cancellationReason,
            ?validate_set_bookingStatus in H; congruence.
        -- intros H; apply Hsave in H;
          rewrite ?validate_set_cancellationReason,
            ?validate_set_bookingStatus in H; congruence.
      * intros H; apply Hsave in H;
          rewrite ?validate_set_cancellationReason,
            ?validate_set_bookingStatus in H; congruence.
Qed.

Lemma sample_garageWith_dbOk (n : Z) (a : bool) (st : BookingStatus) :
  0 <= n -> dbOk (Sample.garageWith n a st).
Proof.
  intros Hn. split.
  - intros bid b H. unfold Sample.garageWith in H. cbn [bookings] in H.
    apply lookup_singleton_Some in H as [_ <-].
    split; [reflexivity | discriminate].
  - intros cid c H. unfold Sample.garageWith in H. cbn [cars] in H.
    apply lookup_singleton_Some in H as [_ <-].
    unfold Car.validate. cbn. apply Z.leb_le. exact Hn.
Qed.

(** [failed_request_leaves_no_trace] on the sample data: bob's overlapping
    request is refused and nothing moves. *)
Lemma failed_request_leaves_no_trace_witness :
  let db := Sample.garageWith 1 true confirmed in
  dbOk db /\
  handle Sample.parseDateTime (Create Sample.bob Sample.requestOverlap) db
    = (db, Err AlreadyBookedForDates).
Proof.
  cbv zeta.
  assert (Hok : dbOk (Sample.garageWith 1 true confirmed))
    by (apply sample_garageWith_dbOk; lia).
  split; [exact Hok|].
  assert (H : handle Sample.parseDateTime
                (Create Sample.bob Sample.requestOverlap)
                (Sample.garageWith 1 true confirmed)
              = ((handle Sample.parseDateTime
                    (Create Sample.bob Sample.requestOverlap)
                    (Sample.garageWith 1 true confirmed)).1,
                 Err AlreadyBookedForDates))
    by (vm_compute; reflexivity).
  destruct (failed_request_leaves_no_trace _ _ _ _ _ Hok H)
    as [Heq | (u & bid & reason & b & Hr & _)]; [|discriminate].
  rewrite Heq in H. exact H.
Defined.

(** ** Pagination *)

Lemma pageDocs_nat {A : Type} (k : nat) (limitNum : Z) (docs : list A) :
  1 <= limitNum ->
  pageDocs (Z.of_nat k + 1) limitNum docs
  = take (Z.to_nat limitNum) (drop (k * Z.to_nat limitNum) docs).
Proof.
  intros Hl. unfold pageDocs, skipOf. do 2 f_equal. nia.
Qed.

Lemma pagesFrom_nat {A : Type} (n k : nat) (limitNum : Z) (docs : list A) :
  1 <= limitNum ->
  pagesFrom (Z.of_nat k + 1) n limitNum docs
  = take (n * Z.to_nat limitNum) (drop (k * Z.to_nat limitNum) docs).
Proof.
  intros Hl. revert k. induction n as [|n IH]; intros k; [reflexivity|].
  cbn [pagesFrom]. rewrite (pageDocs_nat k limitNum docs Hl).
  replace (Z.of_nat k + 1 + 1) with (Z.of_nat (S k) + 1) by lia.
  rewrite IH.
  replace (S k * Z.to_nat limitNum)%nat
    with (k * Z.to_nat limitNum + Z.to_nat limitNum)%nat by lia.
  rewrite <- drop_drop, take_take_drop. f_equal.
Qed.

(** X15. With [limitNum >= 1], the pages 1, 2, ..., [pages] of a result,
    where [pages = Math.ceil(total / limitNum)] as reported in the answer,
    put one after the other give back the whole sorted result: no document
    is skipped and none is repeated.  Every page holds at most [limitNum]
    documents, and for [pageNum >= 1] a page is non-empty exactly when
    [pageNum <= pages]. *)
Theorem pages_partition_the_result {A : Type} (limitNum : Z) (docs : list A) :
  1 <= limitNum ->
  let total := Z.of_nat (length docs) in
  let pages := pagesOf total limitNum in
  pagesFrom 1 (Z.to_nat pages) limitNum docs = docs /\
  (forall pageNum,
     Z.of_nat (length (pageDocs pageNum limitNum docs)) <= limitNum) /\
  (forall pageNum,
     1 <= pageNum ->
     (pageDocs pageNum limitNum docs <> [] <-> pageNum <= pages)).
Proof.
  intros Hl. cbv zeta. unfold pagesOf.
  pose proof (ceil_div_bounds (Z.of_nat (length docs)) limitNum ltac:(lia))
    as Hc.
  set (pages := Js.ceil_div (Z.of_nat (length docs)) limitNum) in *.
  split; [|split].
  - change 1 with (Z.of_nat 0 + 1).
    rewrite (pagesFrom_nat (Z.to_nat pages) 0 limitNum docs Hl).
    cbn [Nat.mul drop]. apply take_ge. nia.
  - intros pageNum. unfold pageDocs. rewrite length_take. lia.
  - intros pageNum Hp.
    replace pageNum with (Z.of_nat (Z.to_nat (pageNum - 1)) + 1) at 1 by lia.
    rewrite (pageDocs_nat _ limitNum docs Hl).
    set (k := Z.to_nat (pageNum - 1)).
    assert (Hk : Z.of_nat k = pageNum - 1) by lia.
    split.
    + intros Hne.
      destruct (Z.le_gt_cases pageNum pages) as [Hle | Hgt]; [exact Hle|].
      exfalso. apply Hne. rewrite drop_ge; [apply take_nil | nia].
    + intros Hle Hnil. apply take_nil_inv in Hnil as [H0 | Hd]; [lia|].
      apply drop_nil_inv in Hd. nia.
Qed.

(** [pages_partition_the_result] on seven documents, three a page. *)
Lemma pages_partition_the_result_witness :
  let docs := [1; 2; 3; 4; 5; 6; 7]%nat in
  1 <= 3 /\
  pagesOf 7 3 = 3 /\
  pageDocs 3 3 docs = [7]%nat /\
  pagesFrom 1 3 3 docs = docs.
Proof.
  cbv zeta. split; [lia|]. split; [reflexivity|]. split; [reflexivity|].
  exact (proj1 (pages_partition_the_result 3 [1; 2; 3; 4; 5; 6; 7]%nat
                  ltac:(lia))).
Defined.

(** ** Day counts *)

Lemma roundHalfEven_near (num den : Z) :
  0 < den ->
  2 * num - den <= 2 * (Double.roundHalfEven num den * den) <= 2 * num + den.
Proof.
  intros Hd. unfold Double.roundHalfEven.
  pose proof (Z.div_mod num den ltac:(lia)) as Hdm.
  pose proof (Z.mod_pos_bound num den Hd) as Hm.
  destruct (Z.ltb_spec (2 * (num mod den)) den);
    [|destruct (Z.ltb_spec den (2 * (num mod den)));
      [|destruct (Z.even (num / den))]]; nia.
Qed.

Lemma roundHalfEven_whole (num : Z) : Double.roundHalfEven num 1 = num.
Proof.
  unfold Double.roundHalfEven. rewrite Z.mod_1_r, Z.div_1_r. reflexivity.
Qed.

Lemma round_pos (a b : Z) :
  0 < a ->
  exists e,
    Z.log2 a - Z.log2 b - 53 <= e <= Z.log2 a - Z.log2 b - 52 /\
    Double.round a b =
      Double.mk (Double.roundHalfEven (a * 2 ^ Z.max 0 (- e))
                   (b * 2 ^ Z.max 0 e)) e.
Proof.
  intros Ha. unfold Double.round.
  destruct (Z.leb_spec a 0) as [H | _]; [lia|]. cbv zeta.
  set (k := Z.log2 a - Z.log2 b).
  destruct (a * 2 ^ Z.max 0 (- k) <? b * 2 ^ Z.max 0 k);
    eexists; (split; [|reflexivity]); lia.
Qed.

(** A whole number below [2 ^ 53] is a double. *)
Lemma ofZ_exact (x : Z) :
  0 < x < 2 ^ 53 ->
  exists s, 0 <= s /\ Double.ofZ x = Double.mk (x * 2 ^ s) (- s) /\
            Z.log2 x + s = 52.
Proof.
  intros Hx. unfold Double.ofZ, Double.round.
  destruct (Z.leb_spec x 0) as [H | _]; [lia|]. cbv zeta.
  change (Z.log2 1) with 0. rewrite Z.sub_0_r.
  pose proof (Z.log2_nonneg x) as Hl0.
  assert (Hl : Z.log2 x < 53) by (apply Z.log2_lt_pow2; lia).
  pose proof (Z.log2_spec x ltac:(lia)) as [Hlo _].
  rewrite (Z.max_l 0 (- Z.log2 x)) by lia.
  rewrite (Z.max_r 0 (Z.log2 x)) by lia.
  destruct (Z.ltb_spec (x * 2 ^ 0) (1 * 2 ^ Z.log2 x)) as [H | _]; [lia|].
  exists (52 - Z.log2 x). split; [lia|]. split; [|lia].
  rewrite (Z.max_r 0 (- (Z.log2 x - 52))) by lia.
  rewrite (Z.max_l 0 (Z.log2 x - 52)) by lia.
  change (1 * 2 ^ 0) with 1. rewrite roundHalfEven_whole.
  f_equal; [f_equal; f_equal; lia | lia].
Qed.

(** Below [2 ^ 53] milliseconds the rounded quotient by [oneDay] has the
    ceiling of the exact one: the doubles next to a whole number of days
    below [2 ^ 27] are less than half a millisecond away from it. *)
Lemma ceil_div_ofZ (x : Z) :
  0 <= x < 2 ^ 53 ->
  Double.ceil (Double.div (Double.ofZ x) oneDay) = Js.ceil_div x oneDay.
Proof.
  intros Hx. destruct (Z.eq_dec x 0) as [-> | Hx0]; [reflexivity|].
  destruct (ofZ_exact x ltac:(lia)) as (s0 & Hs0 & -> & Hlog).
  unfold Double.div. cbn [Double.mant Double.expo].
  rewrite (Z.max_l 0 (- s0)) by lia. rewrite Z.opp_involutive.
  rewrite (Z.max_r 0 s0) by lia. rewrite Z.pow_0_r, Z.mul_1_r.
  assert (Hp0 : 0 < 2 ^ s0) by (apply Z.pow_pos_nonneg; lia).
  assert (HD : 0 < oneDay) by reflexivity.
  destruct (round_pos (x * 2 ^ s0) (oneDay * 2 ^ s0) ltac:(nia))
    as (e & He & ->).
  rewrite !Z.log2_mul_pow2 in He by lia.
  change (Z.log2 oneDay) with 26 in He.
  assert (He' : e <= -26) by lia.
  unfold Double.ceil. cbn [Double.mant Double.expo].
  destruct (Z.leb_spec 0 e) as [H | _]; [lia|].
  rewrite (Z.max_r 0 (- e)) by lia. rewrite (Z.max_l 0 e) by lia.
  rewrite Z.pow_0_r, Z.mul_1_r.
  set (s := 2 ^ (- e)).
  assert (Hs : 2 ^ 26 <= s) by (apply Z.pow_le_mono_r; lia).
  pose proof (roundHalfEven_near (x * 2 ^ s0 * s) (oneDay * 2 ^ s0) ltac:(nia))
    as Hm.
  set (m := Double.roundHalfEven (x * 2 ^ s0 * s) (oneDay * 2 ^ s0)) in *.
  pose proof (ceil_div_bounds x oneDay HD) as Hn.
  set (n := Js.ceil_div x oneDay) in *.
  assert (Hm' : 2 * (x * s) - oneDay <= 2 * (m * oneDay)
                <= 2 * (x * s) + oneDay).
  { set (p := 2 ^ s0) in *. clearbody p m s n. nia. }
  change (2 ^ 26) with 67108864 in Hs. unfold oneDay in *.
  apply ceil_div_unique; [lia|]. clearbody m s n. clear Hm. nia.
Qed.

(** X16. For two dates less than [2 ^ 53] milliseconds apart, the day
    count of [calculateTotalDays], computed on doubles, is the ceiling of
    the exact quotient of the absolute difference by a day: it does not
    depend on the order of the two dates, is 0 only for equal dates, is [n]
    for a window of exactly [n] days and [n + 1] as soon as the window
    exceeds [n] days by a millisecond (up to one more whole day); and it is
    the day count the pre-save hook stores for a booking with these two
    dates. *)
Theorem day_count_rounds_up (pickupDate dropoffDate : Z) :
  Z.abs pickupDate <= Helpers.maxTime ->
  Z.abs dropoffDate <= Helpers.maxTime ->
  Z.abs (dropoffDate - pickupDate) < 2 ^ 53 ->
  Helpers.calculateTotalDays pickupDate dropoffDate
    = Some (Js.ceil_div (Z.abs (dropoffDate - pickupDate)) oneDay) /\
  Helpers.calculateTotalDays dropoffDate pickupDate
    = Helpers.calculateTotalDays pickupDate dropoffDate /\
  (Helpers.calculateTotalDays pickupDate dropoffDate = Some 0
   <-> pickupDate = dropoffDate) /\
  (forall n,
     0 <= n -> Z.abs (dropoffDate - pickupDate) = n * oneDay ->
     Helpers.calculateTotalDays pickupDate dropoffDate = Some n) /\
  (forall n r,
     0 <= n -> 0 < r <= oneDay ->
     Z.abs (dropoffDate - pickupDate) = n * oneDay + r ->
     Helpers.calculateTotalDays pickupDate dropoffDate = Some (n + 1)) /\
  (forall b : Booking.t,
     Booking.pickupDate b = pickupDate ->
     Booking.dropoffDate b = dropoffDate ->
     Helpers.calculateTotalDays pickupDate dropoffDate
     = Some (Booking.totalDays (Booking.pre_save b))).
Proof.
  intros Hp Hd Hx.
  pose proof oneDay_pos as HD.
  assert (Hexact : Helpers.calculateTotalDays pickupDate dropoffDate
                   = Some (Js.ceil_div (Z.abs (dropoffDate - pickupDate))
                             oneDay)).
  { unfold Helpers.calculateTotalDays.
    rewrite (proj2 (Z.leb_le _ _) Hp), (proj2 (Z.leb_le _ _) Hd).
    cbn [andb]. rewrite ceil_div_ofZ by lia. reflexivity. }
  split; [exact Hexact|]. split.
  { unfold Helpers.calculateTotalDays.
    rewrite (andb_comm (Z.abs dropoffDate <=? Helpers.maxTime)).
    replace (Z.abs (pickupDate - dropoffDate))
      with (Z.abs (dropoffDate - pickupDate)) by lia.
    reflexivity. }
  rewrite Hexact.
  pose proof (ceil_div_bounds (Z.abs (dropoffDate - pickupDate)) oneDay HD)
    as Hc.
  split; [|split; [|split]].
  - split.
    + intros H0. injection H0 as H0. rewrite H0 in Hc. lia.
    + intros ->. f_equal. apply ceil_div_unique; [exact HD | lia].
  - intros n Hn ->. f_equal. apply ceil_div_unique; [exact HD | nia].
  - intros n r Hn Hr ->. f_equal. apply ceil_div_unique; [exact HD | nia].
  - intros b <- <-. rewrite pre_save_totalDays. reflexivity.
Qed.

(** [day_count_rounds_up] on two days and one minute. *)
Lemma day_count_rounds_up_witness :
  Z.abs 0 <= Helpers.maxTime /\
  Z.abs (2 * oneDay + 60000) <= Helpers.maxTime /\
  Z.abs (2 * oneDay + 60000 - 0) < 2 ^ 53 /\
  0 < 60000 <= oneDay /\
  Helpers.calculateTotalDays 0 (2 * oneDay + 60000) = Some (2 + 1).
Proof.
  assert (H1 : Z.abs 0 <= Helpers.maxTime) by (vm_compute; discriminate).
  assert (H2 : Z.abs (2 * oneDay + 60000) <= Helpers.maxTime)
    by (vm_compute; discriminate).
  assert (H3 : Z.abs (2 * oneDay + 60000 - 0) < 2 ^ 53)
    by (vm_compute; reflexivity).
  assert (Hr : 0 < 60000 <= oneDay) by (unfold oneDay; lia).
  split; [exact H1|]. split; [exact H2|]. split; [exact H3|].
  split; [exact Hr|].
  exact (proj1 (proj2 (proj2 (proj2 (proj2
           (day_count_rounds_up 0 (2 * oneDay + 60000) H1 H2 H3)))))
           2 60000 ltac:(lia) Hr ltac:(vm_compute; reflexivity)).
Defined.

(** The bound is needed: between the first millisecond of the range of
    [Date] and a date 150000000 days and one millisecond later, the
    difference is not a double, the subtraction rounds the millisecond
    away and the helper counts 150000000 days where the exact ceiling is
    150000001; and a time value outside the range of [Date] gives [NaN]. *)
Example day_count_beyond_the_doubles :
  Helpers.calculateTotalDays (-8640000000000000) 4320000000000001
    = Some 150000000 /\
  Js.ceil_div (Z.abs (4320000000000001 - -8640000000000000)) oneDay
    = 150000001 /\
  Helpers.calculateTotalDays 0 8640000000000001 = None.
Proof. split; [|split]; vm_compute; reflexivity. Qed.

(** ** The hour conversion *)

(** X17. For an hour from 1 to 12 and a period "AM" or "PM", the hour
    conversion of [parseDateTime] yields an hour of the day from 0 to 23,
    before 12 for "AM" and from 12 on for "PM", and two different
    (hour, period) pairs never yield the same hour.  With any other period
    text (lower case "pm", or none) the hour is taken as it stands. *)
Theorem hours24_is_a_clock (period period' : option string) (hours hours' : Z) :
  (period = Some "AM" \/ period = Some "PM") ->
  (period' = Some "AM" \/ period' = Some "PM") ->
  1 <= hours <= 12 -> 1 <= hours' <= 12 ->
  0 <= hours24 period hours <= 23 /\
  (period = Some "AM" -> hours24 period hours < 12) /\
  (period = Some "PM" -> 12 <= hours24 period hours) /\
  (hours24 period hours = hours24 period' hours' ->
   period = period' /\ hours = hours') /\
  (forall other h,
     other <> Some "AM" -> other <> Some "PM" -> hours24 other h = h).
Proof.
  intros Hp Hp' Hh Hh'.
  assert (Hother : forall other h,
    other <> Some "AM" -> other <> Some "PM" -> hours24 other h = h).
  { intros other h H1 H2. unfold hours24.
    rewrite (bool_decide_eq_false_2 _ H1), (bool_decide_eq_false_2 _ H2).
    reflexivity. }
  assert (Ham : forall h, hours24 (Some "AM") h = if h =? 12 then 0 else h).
  { intros h. unfold hours24. cbn. reflexivity. }
  assert (Hpm : forall h, hours24 (Some "PM") h = if h <? 12 then h + 12 else h).
  { intros h. unfold hours24. cbn. destruct (h <? 12); reflexivity. }
  destruct Hp as [-> | ->]; destruct Hp' as [-> | ->];
    rewrite ?Ham, ?Hpm;
    repeat match goal with
           | |- context [?x =? ?y] => destruct (Z.eqb_spec x y)
           | |- context [?x <? ?y] => destruct (Z.ltb_spec x y)
           end;
    (split; [lia|]); (split; [intros; try discriminate; lia|]);
    (split; [intros; try discriminate; lia|]);
    (split; [intros; first [split; [reflexivity | lia] | lia] | exact Hother]).
Qed.

(** [hours24_is_a_clock] at 12 AM and 1 PM. *)
Lemma hours24_is_a_clock_witness :
  hours24 (Some "AM") 12 = 0 /\ hours24 (Some "PM") 1 = 13 /\
  0 <= hours24 (Some "AM") 12 <= 23.
Proof.
  split; [reflexivity|]. split; [reflexivity|].
  apply (hours24_is_a_clock (Some "AM") (Some "PM") 12 1);
    [left; reflexivity | right; reflexivity | lia | lia].
Defined.

(** ** The listing and the booking agree *)

Lemma windowQuery_overlapQuery cid p d (b : Booking.t) :
  overlapQuery cid p d b
  = bool_decide (Booking.car b = cid) && windowQuery p d b.
Proof.
  unfold overlapQuery, windowQuery.
  destruct (bool_decide (Booking.car b = cid)),
    (bool_decide (Booking.bookingStatus b = confirmed)
     || bool_decide (Booking.bookingStatus b = pending)),
    (Booking.pickupDate b <? d), (p <? Booking.dropoffDate b); reflexivity.
Qed.

Lemma elem_of_bookedCarIds cid p d db :
  cid ∈ bookedCarIds p d db <->
  exists bid b,
    bookings db !! bid = Some b /\ windowQuery p d b = true /\
    Booking.car b = cid.
Proof.
  unfold bookedCarIds. rewrite elem_of_list_to_set, list_elem_of_fmap. split.
  - intros (b & -> & Hin). apply list_elem_of_In, filter_In in Hin as [Hin Hq].
    apply list_elem_of_In, list_elem_of_fmap in Hin as ([bid b'] & -> & Hin).
    apply elem_of_map_to_list in Hin. exists bid, b'. auto.
  - intros (bid & b & Hb & Hq & <-). exists b. split; [reflexivity|].
    apply list_elem_of_In, filter_In. split; [|exact Hq].
    apply list_elem_of_In, list_elem_of_fmap. exists (bid, b).
    split; [reflexivity|]. apply elem_of_map_to_list. exact Hb.
Qed.

Lemma listedFor_true p d db cid (c : Car.t) :
  listedFor p d db cid c = true <->
  Car.isAvailable c = true /\ cid ∉ bookedCarIds p d db.
Proof.
  unfold listedFor. cbv zeta. rewrite andb_true_iff.
  destruct (bool_decide (bookedCarIds p d db = ∅)) eqn:He.
  - apply bool_decide_eq_true in He. rewrite He. split.
    + intros [Ha _]. split; [exact Ha | apply not_elem_of_empty].
    + intros [Ha _]. auto.
  - rewrite negb_true_iff, bool_decide_eq_false. reflexivity.
Qed.

(** X18. For one and the same window, a car passes the availability and
    date part of the [getCars] query exactly when [createBooking] refuses
    it neither as unavailable nor as already booked: the listing and the
    booking apply the same flag test and the same overlap test.  (The
    optional filters of the listing only remove cars from the result.) *)
Theorem listed_iff_bookable parseDateTime reqUser body db cid p d c :
  wellFormed parseDateTime body cid p d ->
  cars db !! cid = Some c ->
  let r := createBooking parseDateTime reqUser body db in
  listedFor p d db cid c = true <->
  (r.2 <> Err CarNotAvailable /\ r.2 <> Err AlreadyBookedForDates).
Proof.
  intros Hwf Hc. cbv zeta.
  rewrite (createBooking_at_car parseDateTime reqUser body db cid p d Hwf).
  rewrite Hc, listedFor_true.
  assert (Hbooked : cid ∈ bookedCarIds p d db <->
                    is_Some (findOneIn (overlapQuery cid p d) (bookings db))).
  { rewrite elem_of_bookedCarIds, findOneIn_is_Some. split.
    - intros (bid & b & Hb & Hq & Hcar). exists bid, b. split; [exact Hb|].
      rewrite windowQuery_overlapQuery, Hq, (bool_decide_eq_true_2 _ Hcar).
      reflexivity.
    - intros (bid & b & Hb & Hq). exists bid, b. split; [exact Hb|].
      rewrite windowQuery_overlapQuery in Hq.
      apply andb_true_iff in Hq as [Hcar Hq].
      apply bool_decide_eq_true in Hcar. auto. }
  destruct (Car.isAvailable c); cbn [negb]; cbv iota.
  - destruct (bool_decide (is_Some _)) eqn:Hf.
    + apply bool_decide_eq_true in Hf. split.
      * intros [_ Hn]. destruct (Hn (proj2 Hbooked Hf)).
      * intros [_ Hn]. destruct (Hn eq_refl).
    + apply bool_decide_eq_false in Hf. split.
      * intros _. cbv zeta.
        destruct (Booking.validate _); [destruct (Car.validate _)|];
          split; discriminate.
      * intros _. split; [reflexivity|]. intros Hin. apply Hf, Hbooked, Hin.
  - split.
    + intros [Ha _]. discriminate.
    + intros [Hn _]. destruct (Hn eq_refl).
Qed.

(** [listed_iff_bookable] on the sample data: car 7 with alice's confirmed
    stay is not listed for 2 to 4 June, and bob's request is refused. *)
Lemma listed_iff_bookable_witness :
  let db := Sample.garageWith 1 true confirmed in
  let p := Sample.parseDateTime "2025-06-02" "10:00 AM" in
  let d := Sample.parseDateTime "2025-06-04" "10:00 AM" in
  wellFormed Sample.parseDateTime Sample.requestOverlap 7 p d /\
  cars db !! 7%positive = Some (Car.mk 50 1 true) /\
  listedFor p d db 7 (Car.mk 50 1 true) = false /\
  ~ ((createBooking Sample.parseDateTime Sample.bob Sample.requestOverlap db).2
       <> Err CarNotAvailable /\
     (createBooking Sample.parseDateTime Sample.bob Sample.requestOverlap db).2
       <> Err AlreadyBookedForDates).
Proof.
  cbv zeta.
  assert (Hwf : wellFormed Sample.parseDateTime Sample.requestOverlap 7
                  (Sample.parseDateTime "2025-06-02" "10:00 AM")
                  (Sample.parseDateTime "2025-06-04" "10:00 AM"))
    by (apply sample_wellFormed; [discriminate | discriminate | reflexivity]).
  assert (Hl : listedFor (Sample.parseDateTime "2025-06-02" "10:00 AM")
                 (Sample.parseDateTime "2025-06-04" "10:00 AM")
                 (Sample.garageWith 1 true confirmed) 7 (Car.mk 50 1 true)
               = false) by (vm_compute; reflexivity).
  split; [exact Hwf|]. split; [reflexivity|]. split; [exact Hl|].
  intros Hok.
  apply (listed_iff_bookable Sample.parseDateTime Sample.bob
           Sample.requestOverlap (Sample.garageWith 1 true confirmed) 7 _ _
           (Car.mk 50 1 true) Hwf eq_refl) in Hok.
  rewrite Hl in Hok. discriminate.
Defined.

(** ** The counter and the flag of a new car *)

(** X19. The flag [createCar] stores agrees with the counter it stores
    exactly when the submitted count parses to a number other than 0.  A
    missing or unparsable count, and a count of 0, are stored as 1 unit
    together with [isAvailable = false]: the default applies to the
    counter but not to the flag. *)
Theorem created_car_flag_and_counter (price : Z) (parsed : option Z) :
  (flagConsistent (Car.mk price (createdUnits parsed) (createdFlag parsed))
   <-> exists n, parsed = Some n /\ n <> 0) /\
  (parsed = None \/ parsed = Some 0 ->
   createdUnits parsed = 1 /\ createdFlag parsed = false).
Proof.
  unfold flagConsistent, createdUnits, createdFlag. cbn. split.
  - destruct parsed as [n|].
    + destruct (Z.eqb_spec n 0) as [-> | Hne]; cbn.
      * split; [discriminate | intros (n & [= <-] & Hn); congruence].
      * split; [intros _; eauto | reflexivity].
    + split; [discriminate | intros (n & H & _); discriminate].
  - intros [-> | ->]; split; reflexivity.
Qed.

(** ** [deleteUser] and the requesters of bookings *)

Lemma handle_users parseDateTime (r : Request) db :
  users (handle parseDateTime r db).1 = users db.
Proof.
  destruct r as [u body | u bid reason | bid status reason]; simpl.
  - destruct (createBooking_early_cases parseDateTime u body db)
      as [-> | [-> | (cid & p & d & Hwf)]]; [reflexivity..|].
    rewrite (createBooking_at_car parseDateTime u body db cid p d Hwf).
    destruct (cars db !! cid) as [car|]; [|reflexivity].
    destruct (negb (Car.isAvailable car)); [reflexivity|].
    destruct (bool_decide _); [reflexivity|]. cbv zeta.
    destruct (Booking.validate _); [|reflexivity].
    destruct (Car.validate _); reflexivity.
  - rewrite cancelBooking_tree.
    destruct (bookings db !! bid) as [b|]; [|reflexivity].
    destruct (negb (Js.truthy_str reason)); [reflexivity|].
    destruct (negb (bool_decide _)); [reflexivity|].
    destruct (_ && _); [reflexivity|].
    destruct (bool_decide _); [reflexivity|].
    destruct (bool_decide _); [reflexivity|]. cbv zeta.
    destruct (Booking.validate _); [|reflexivity].
    destruct (cars db !! Booking.car b) as [c|]; [|reflexivity].
    destruct (Car.validate _); reflexivity.
  - destruct status as [s|];
      [|destruct (updateBooking_rejects bid None reason db) as [e ->];
        [discriminate | reflexivity]].
    destruct (parseStatus s) as [st|] eqn:Hp;
      [|destruct (updateBooking_rejects bid (Some s) reason db) as [e ->];
        [intros ? [= <-]; exact Hp | reflexivity]].
    rewrite (updateBooking_tree bid s st reason db Hp).
    destruct (bookings db !! bid) as [b|]; [|reflexivity]. cbv zeta.
    assert (Hsave : forall b1 db1,
      users db1 = users db -> users (BookingModel.save bid b1 db1).1 = users db).
    { intros b1 db1 H1. unfold BookingModel.save.
      destruct (Booking.save b1); exact H1. }
    destruct (_ && _).
    + destruct (cars db !! Booking.car b) as [c|]; [|apply Hsave; reflexivity].
      destruct (Car.validate _); [apply Hsave|]; reflexivity.
    + destruct (_ && _); [|apply Hsave; reflexivity].
      destruct (cars db !! Booking.car b) as [c|]; [|apply Hsave; reflexivity].
      destruct (Car.totalCarsAvailable c <=? 0); [reflexivity|].
      destruct (Car.validate _); [apply Hsave|]; reflexivity.
Qed.

(** X23. [deleteUser] removes a user only when no booking refers to it, so
    it keeps the property that the requester of every booking exists; it
    answers 404 for an unknown user and 400 for a user with bookings, both
    without change.  The three booking handlers keep the property too, a
    create being issued by an existing user.  Under it the requester
    reference that [cancelBooking] and [getBooking] dereference is never
    null. *)
Theorem requesters_resolve_is_kept parseDateTime db :
  requestersResolve db ->
  (forall userId,
     requestersResolve (deleteUser userId db).1 /\
     (userId ∉ users db -> deleteUser userId db = (db, Some UserNotFound)) /\
     (userId ∈ users db ->
      (exists bid b, bookings db !! bid = Some b /\ Booking.user b = userId) ->
      deleteUser userId db = (db, Some UserHasBookings)) /\
     ((deleteUser userId db).2 = None ->
      userId ∉ users (deleteUser userId db).1)) /\
  (forall r,
     (forall u body, r = Create u body -> uid u ∈ users db) ->
     requestersResolve (handle parseDateTime r db).1).
Proof.
  intros Hres. split.
  - intros userId. unfold deleteUser.
    set (P := fun kv : Id * Booking.t => Booking.user kv.2 = userId).
    destruct (bool_decide (userId ∈ users db)) eqn:Hin.
    + apply bool_decide_eq_true in Hin.
      destruct (Nat.ltb_spec 0 (size (filter P (bookings db)))) as [Hpos | Hz].
      * split; [exact Hres|]. split; [intros Hn; destruct (Hn Hin)|].
        split; [reflexivity | discriminate].
      * assert (Hnone : forall bid b,
                  bookings db !! bid = Some b -> Booking.user b <> userId).
        { intros bid b Hb Hu.
          assert (Hf : filter P (bookings db) !! bid = Some b)
            by (apply map_lookup_filter_Some; split; [exact Hb | exact Hu]).
          assert (Hsz : size (filter P (bookings db)) <> 0%nat)
            by (apply map_size_ne_0_lookup; eauto).
          lia. }
        split; [|split; [intros Hn; destruct (Hn Hin)|split]].
        -- intros bid b Hb. cbn [fst users bookings] in *.
           apply elem_of_difference. split; [apply (Hres bid b Hb)|].
           intros Hs. apply elem_of_singleton in Hs.
           exact (Hnone bid b Hb Hs).
        -- intros _ (bid & b & Hb & Hu). destruct (Hnone bid b Hb Hu).
        -- intros _. cbn [fst users]. intros Hs.
           apply elem_of_difference in Hs as [_ Hs]. apply Hs.
           apply elem_of_singleton. reflexivity.
    + apply bool_decide_eq_false in Hin.
      split; [exact Hres|]. split; [reflexivity|].
      split; [intros Hy; destruct (Hin Hy) | discriminate].
  - intros r Hcreate bid b Hb. rewrite handle_users.
    destruct (handle_bookings_cases parseDateTime r db)
      as [Heq | [(bid0 & b0 & sb & Hb0 & Heq & Hsame & _)
                | (u & body & cid & p & d & car & Hr & _ & _ & _ & _ & _
                   & Heq)]];
      rewrite Heq in Hb.
    + exact (Hres bid b Hb).
    + destruct (decide (bid0 = bid)) as [-> | Hne].
      * rewrite lookup_insert_eq in Hb. injection Hb as <-.
        destruct Hsame as [Hu _]. rewrite Hu. exact (Hres bid b0 Hb0).
      * rewrite lookup_insert_ne in Hb by exact Hne. exact (Hres bid b Hb).
    + destruct (decide (fresh (dom (bookings db)) = bid)) as [<- | Hne].
      * rewrite lookup_insert_eq in Hb. injection Hb as <-.
        exact (Hcreate u body Hr).
      * rewrite lookup_insert_ne in Hb by exact Hne. exact (Hres bid b Hb).
Qed.

Lemma sample_garageWith_requesters (n : Z) (a : bool) (st : BookingStatus) :
  requestersResolve (Sample.garageWith n a st).
Proof.
  intros bid b H. unfold Sample.garageWith in H. cbn [bookings] in H.
  apply lookup_singleton_Some in H as [_ <-]. vm_compute. reflexivity.
Qed.

(** [requesters_resolve_is_kept] on the sample data: alice has a booking
    and cannot be deleted; bob can. *)
Lemma requesters_resolve_is_kept_witness :
  let db := Sample.garageWith 0 false confirmed in
  requestersResolve db /\
  deleteUser 1 db = (db, Some UserHasBookings) /\
  requestersResolve (deleteUser 2 db).1.
Proof.
  cbv zeta.
  pose proof (sample_garageWith_requesters 0 false confirmed) as Hres.
  destruct (requesters_resolve_is_kept Sample.parseDateTime _ Hres)
    as [Hdel _].
  split; [exact Hres|]. split.
  - apply (Hdel 1%positive); [vm_compute; reflexivity|].
    exists 1%positive, (Sample.stay confirmed). split; reflexivity.
  - apply (Hdel 2%positive).
Defined.

(** ** Revenue *)

Lemma revenue_write db db' bid sb :
  bookings db' = <[bid := sb]> (bookings db) ->
  revenue db'
  + match bookings db !! bid with
    | Some b =>
      if bool_decide (Booking.bookingStatus b = confirmed)
      then Booking.totalPrice b else 0
    | None => 0
    end
  = revenue db
    + if bool_decide (Booking.bookingStatus sb = confirmed)
      then Booking.totalPrice sb else 0.
Proof.
  intros Heq. unfold revenue. rewrite Heq.
  set (f := fun (_ : Id) (b : Booking.t) (acc : Z) =>
              if bool_decide (Booking.bookingStatus b = confirmed)
              then Booking.totalPrice b + acc else acc).
  assert (Hcomm : forall (j1 j2 : Id) z1 z2 y,
            f j1 z1 (f j2 z2 y) = f j2 z2 (f j1 z1 y)).
  { intros j1 j2 z1 z2 y. unfold f.
    destruct (bool_decide (Booking.bookingStatus z1 = confirmed)),
      (bool_decide (Booking.bookingStatus z2 = confirmed)); lia. }
  destruct (bookings db !! bid) as [b|] eqn:Hb.
  - rewrite <- (insert_delete_eq (bookings db)).
    rewrite (map_fold_insert_L f 0 bid sb (delete bid (bookings db)))
      by first [apply lookup_delete_eq | intros; apply Hcomm].
    rewrite (map_fold_delete_L f 0 bid b (bookings db))
      by first [exact Hb | intros; apply Hcomm].
    unfold f.
    destruct (bool_decide (Booking.bookingStatus b = confirmed)),
      (bool_decide (Booking.bookingStatus sb = confirmed)); lia.
  - rewrite (map_fold_insert_L f 0 bid sb (bookings db))
      by first [exact Hb | intros; apply Hcomm].
    unfold f.
    destruct (bool_decide (Booking.bookingStatus sb = confirmed)); lia.
Qed.

(** X24. Where the sums of the dashboard are exact before and after the
    request (whole-number prices, none negative, sums below [2 ^ 53]), the
    revenue of the dashboard (the sum of [totalPrice] over the confirmed
    bookings) grows by the price of the answered booking with every
    successful create, and drops by the stored price of the booking with
    every successful cancel of a confirmed booking; the cancel of a pending
    booking leaves it as it is. *)
Theorem revenue_follows_create_and_cancel parseDateTime reqUser db db' sb :
  exactRevenue db -> exactRevenue db' ->
  (forall body,
     createBooking parseDateTime reqUser body db = (db', Ok sb) ->
     revenue db' = revenue db + Booking.totalPrice sb) /\
  (forall bid reason b,
     cancelBooking reqUser bid reason db = (db', Ok sb) ->
     bookings db !! bid = Some b ->
     revenue db' =
       revenue db - (if bool_decide (Booking.bookingStatus b = confirmed)
                     then Booking.totalPrice b else 0)).
Proof.
  intros _ _. split.
  - intros body Hrun. apply createBooking_Ok_inv in Hrun
      as (cid & p & d & car & _ & _ & _ & _ & _ & Hsb & ->).
    pose proof (revenue_write db (afterCreate db cid car sb)
                  (fresh (dom (bookings db))) sb eq_refl) as H.
    rewrite fresh_booking_id in H.
    assert (Hst : Booking.bookingStatus sb = confirmed)
      by (subst sb; reflexivity).
    rewrite (bool_decide_eq_true_2 _ Hst) in H. lia.
  - intros bid reason b Hrun Hb. apply cancelBooking_Ok_inv in Hrun
      as (b0 & c & Hb0 & _ & _ & _ & _ & _ & Hsb & ->).
    rewrite Hb in Hb0. injection Hb0 as <-.
    pose proof (revenue_write db
      (mkDb (users db) (<[Booking.car b := releaseUnit c]> (cars db))
         (<[bid := sb]> (bookings db))) bid sb eq_refl) as H.
    rewrite Hb in H.
    assert (Hst : Booking.bookingStatus sb = cancelled)
      by (subst sb; reflexivity).
    rewrite (bool_decide_eq_false_2 (Booking.bookingStatus sb = confirmed))
      in H by (rewrite Hst; discriminate).
    lia.
Qed.

Lemma exactRevenue_checked (db : Db) :
  bool_decide
    (map_Forall (fun (_ : Id) (b : Booking.t) => 0 <= Booking.totalPrice b)
                (bookings db)) = true ->
  (revenue db <? 2 ^ 53) = true ->
  exactRevenue db.
Proof.
  intros H1 H2. split; [exact (bool_decide_eq_true_1 _ H1)|].
  apply Z.ltb_lt, H2.
Qed.

(** [revenue_follows_create_and_cancel] on the garage with two stays, whose
    revenue is 65 + 75: the stay created between them adds its 130, and the
    cancel of alice's first stay takes its 65 away. *)
Lemma revenue_follows_create_and_cancel_witness :
  let created :=
    createBooking Sample.parseDateTime Sample.alice Busy.between Busy.db in
  let cancelled1 :=
    cancelBooking Sample.alice 1 (Some "change of plans") Busy.db in
  exactRevenue Busy.db /\ exactRevenue created.1 /\ exactRevenue cancelled1.1 /\
  revenue Busy.db = 140 /\
  created.2 = Ok Busy.middle /\
  revenue created.1 = 140 + 130 /\
  (exists sb, cancelled1.2 = Ok sb) /\
  revenue cancelled1.1 = 140 - 65.
Proof.
  cbv zeta.
  assert (E0 : exactRevenue Busy.db)
    by (apply exactRevenue_checked; vm_compute; reflexivity).
  assert (E1 : exactRevenue
                 (createBooking Sample.parseDateTime Sample.alice
                    Busy.between Busy.db).1)
    by (apply exactRevenue_checked; vm_compute; reflexivity).
  assert (E2 : exactRevenue
                 (cancelBooking Sample.alice 1 (Some "change of plans")
                    Busy.db).1)
    by (apply exactRevenue_checked; vm_compute; reflexivity).
  assert (R0 : revenue Busy.db = 140) by (vm_compute; reflexivity).
  assert (H1 : createBooking Sample.parseDateTime Sample.alice Busy.between
                 Busy.db
               = ((createBooking Sample.parseDateTime Sample.alice
                     Busy.between Busy.db).1, Ok Busy.middle))
    by (vm_compute; reflexivity).
  assert (H2 : cancelBooking Sample.alice 1 (Some "change of plans") Busy.db
               = ((cancelBooking Sample.alice 1 (Some "change of plans")
                     Busy.db).1,
                  Ok (Booking.pre_save
                        (Booking.set_cancellationReason
                           (Some "change of plans")
                           (Booking.set_bookingStatus cancelled Busy.early)))))
    by (vm_compute; reflexivity).
  split; [exact E0|]. split; [exact E1|]. split; [exact E2|].
  split; [exact R0|]. split; [rewrite H1 at 1; reflexivity|].
  split.
  - rewrite (proj1 (revenue_follows_create_and_cancel Sample.parseDateTime
                      Sample.alice Busy.db _ _ E0 E1) Busy.between H1).
    rewrite R0. reflexivity.
  - split; [eexists; rewrite H2 at 1; reflexivity|].
    rewrite (proj2 (revenue_follows_create_and_cancel Sample.parseDateTime
                      Sample.alice Busy.db _ _ E0 E2) 1%positive
               (Some "change of plans") Busy.early H2 eq_refl).
    rewrite R0. reflexivity.
Defined.

(** ** Invariants over runs *)

(** X21. Starting from valid documents, after any sequence of create,
    cancel and status-update requests every stored booking still passes
    the schema validators of models/Booking.js and has distinct window
    ends, and every stored car still passes those of models/Car.js; so no
    run drives a counter below 0 and a later [save] of any of these
    documents cannot fail validation. *)
Theorem runs_keep_documents_valid parseDateTime rs db :
  dbOk db ->
  dbOk (run parseDateTime rs db) /\
  (forall cid c,
     cars (run parseDateTime rs db) !! cid = Some c ->
     0 <= Car.totalCarsAvailable c) /\
  (forall bid b,
     bookings (run parseDateTime rs db) !! bid = Some b ->
     exists sb, Booking.save b = Some sb).
Proof.
  intros Hok.
  assert (Hrun : dbOk (run parseDateTime rs db)).
  { revert db Hok. induction rs as [|r rs IH]; intros db Hok; [exact Hok|].
    cbn [run]. apply IH, handle_preserves_dbOk, Hok. }
  split; [exact Hrun|]. destruct Hrun as [Hbs Hcs]. split.
  - intros cid c Hc. specialize (Hcs cid c Hc). unfold Car.validate in Hcs.
    apply andb_true_iff in Hcs as [_ Hn]. apply Z.leb_le in Hn. exact Hn.
  - intros bid b Hb. destruct (Hbs bid b Hb) as [Hv _].
    unfold Booking.save. rewrite Hv. eauto.
Qed.

(** [runs_keep_documents_valid] on the sample run [Sample.bounce]. *)
Lemma runs_keep_documents_valid_witness :
  dbOk (Sample.garage 1 true) /\
  dbOk (run Sample.parseDateTime Sample.bounce (Sample.garage 1 true)).
Proof.
  assert (Hok : dbOk (Sample.garage 1 true))
    by (apply sample_garage_dbOk; lia).
  split; [exact Hok|].
  exact (proj1 (runs_keep_documents_valid Sample.parseDateTime Sample.bounce
                  (Sample.garage 1 true) Hok)).
Defined.

(** ** Cancelled bookings carry a reason *)

(** X26. If every cancelled booking has a non-empty cancellation reason,
    this is still so after any request: a cancel requires the reason, a
    status update to "cancelled" from another status stores the reason of
    the request or, when that is missing or empty, "Cancelled by admin",
    and an update of an already cancelled booking to "cancelled" keeps
    the stored reason. *)
Theorem cancelled_bookings_keep_a_reason parseDateTime (r : Request) db :
  (forall bid b,
     bookings db !! bid = Some b ->
     Booking.bookingStatus b = cancelled ->
     Js.truthy_str (Booking.cancellationReason b) = true) ->
  forall bid b,
    bookings (handle parseDateTime r db).1 !! bid = Some b ->
    Booking.bookingStatus b = cancelled ->
    Js.truthy_str (Booking.cancellationReason b) = true.
Proof.
  intros Hinv.
  assert (Hwrite : forall db' bid0 sb,
    bookings db' = <[bid0 := sb]> (bookings db) ->
    (Booking.bookingStatus sb = cancelled ->
     Js.truthy_str (Booking.cancellationReason sb) = true) ->
    forall bid b,
      bookings db' !! bid = Some b -> Booking.bookingStatus b = cancelled ->
      Js.truthy_str (Booking.cancellationReason b) = true).
  { intros db' bid0 sb Heq Hsb bid b. rewrite Heq.
    destruct (decide (bid0 = bid)) as [-> | Hne].
    - rewrite lookup_insert_eq. intros [= <-]. exact Hsb.
    - rewrite lookup_insert_ne by exact Hne. apply Hinv. }
  assert (Hsame : forall db',
    bookings db' = bookings db ->
    forall bid b,
      bookings db' !! bid = Some b -> Booking.bookingStatus b = cancelled ->
      Js.truthy_str (Booking.cancellationReason b) = true).
  { intros db' Heq bid b. rewrite Heq. apply Hinv. }
  destruct r as [u body | u bid0 reason | bid0 status reason]; simpl.
  - destruct (handle_bookings_cases parseDateTime (Create u body) db)
      as [Heq | [(bid1 & b1 & sb & _ & _ & _ & _ & [(? & ? & Hr & _)
                                                    | (? & ? & ? & Hr & _)])
                | (u' & body' & cid & p & d & car & _ & _ & _ & _ & _ & _
                   & Heq)]]; try discriminate.
    + apply Hsame, Heq.
    + apply (Hwrite _ _ _ Heq). discriminate.
  - rewrite cancelBooking_tree.
    destruct (bookings db !! bid0) as [b0|]; [|apply Hsame; reflexivity].
    destruct (Js.truthy_str reason) eqn:Ht; [|apply Hsame; reflexivity].
    cbn [negb]. cbv iota.
    destruct (negb (bool_decide _)); [apply Hsame; reflexivity|].
    destruct (_ && _); [apply Hsame; reflexivity|].
    destruct (bool_decide _); [apply Hsame; reflexivity|].
    destruct (bool_decide _); [apply Hsame; reflexivity|]. cbv zeta.
    destruct (Booking.validate _); [|apply Hsame; reflexivity].
    destruct (cars db !! Booking.car b0) as [c|];
      [destruct (Car.validate _)|];
      (eapply Hwrite; [cbn [fst bookings]; reflexivity | intros _; exact Ht]).
  - destruct status as [s|];
      [|destruct (updateBooking_rejects bid0 None reason db) as [e ->];
        [discriminate | apply Hsame; reflexivity]].
    destruct (parseStatus s) as [st|] eqn:Hp;
      [|destruct (updateBooking_rejects bid0 (Some s) reason db) as [e ->];
        [intros ? [= <-]; exact Hp | apply Hsame; reflexivity]].
    rewrite (updateBooking_tree bid0 s st reason db Hp).
    destruct (bookings db !! bid0) as [b0|] eqn:Hb0;
      [|apply Hsame; reflexivity].
    cbv zeta.
    assert (Hsave : forall b1 db1,
      bookings db1 = bookings db ->
      (Booking.bookingStatus b1 = cancelled ->
       Js.truthy_str (Booking.cancellationReason b1) = true) ->
      forall bid b,
        bookings (BookingModel.save bid0 b1 db1).1 !! bid = Some b ->
        Booking.bookingStatus b = cancelled ->
        Js.truthy_str (Booking.cancellationReason b) = true).
    { intros b1 db1 H1 Hb1. unfold BookingModel.save, Booking.save.
      destruct (Booking.validate b1); [|apply Hsame; exact H1].
      apply (Hwrite _ bid0 (Booking.pre_save b1));
        [cbn [fst bookings]; rewrite H1; reflexivity | exact Hb1]. }
    assert (Hdefault : Js.truthy_str
              (Some (Js.or_str reason "Cancelled by admin")) = true).
    { unfold Js.or_str, Js.truthy_str. destruct reason as [t|]; [|reflexivity].
      destruct (bool_decide (t = "")) eqn:E; [reflexivity|].
      rewrite E. reflexivity. }
    destruct (bool_decide (st = cancelled)
              && negb (bool_decide (Booking.bookingStatus b0 = cancelled)))
      eqn:Hcase.
    + destruct (cars db !! Booking.car b0) as [c|];
        [destruct (Car.validate _); [|apply Hsame; reflexivity]|];
        (apply Hsave; [reflexivity | intros _; exact Hdefault]).
    + assert (Hkeep : Booking.bookingStatus (Booking.set_bookingStatus st b0)
                      = cancelled ->
                      Js.truthy_str (Booking.cancellationReason
                        (Booking.set_bookingStatus st b0)) = true).
      { cbn. intros ->. rewrite (bool_decide_eq_true_2 _ eq_refl) in Hcase.
        cbn in Hcase. apply negb_false_iff, bool_decide_eq_true in Hcase.
        exact (Hinv bid0 b0 Hb0 Hcase). }
      destruct (bool_decide (st = confirmed)
                && bool_decide (Booking.bookingStatus b0 = cancelled)).
      * destruct (cars db !! Booking.car b0) as [c|].
        -- destruct (Car.totalCarsAvailable c <=? 0);
             [apply Hsame; reflexivity|].
           destruct (Car.validate _); [|apply Hsame; reflexivity].
           apply Hsave; [reflexivity | exact Hkeep].
        -- apply Hsave; [reflexivity | exact Hkeep].
      * apply Hsave; [reflexivity | exact Hkeep].
Qed.

(** [cancelled_bookings_keep_a_reason] on the sample data: the admin
    cancels alice's stay without giving a reason. *)
Lemma cancelled_bookings_keep_a_reason_witness :
  let db := Sample.garageWith 0 false confirmed in
  let db' := (handle Sample.parseDateTime (SetStatus 1 (Some "cancelled") None)
                db).1 in
  (Booking.cancellationReason <$> bookings db' !! 1%positive)
    = Some (Some "Cancelled by admin") /\
  forall bid b,
    bookings db' !! bid = Some b -> Booking.bookingStatus b = cancelled ->
    Js.truthy_str (Booking.cancellationReason b) = true.
Proof.
  cbv zeta. split; [vm_compute; reflexivity|].
  apply (cancelled_bookings_keep_a_reason Sample.parseDateTime
           (SetStatus 1 (Some "cancelled") None)
           (Sample.garageWith 0 false confirmed)).
  intros bid b H. unfold Sample.garageWith in H. cbn [bookings] in H.
  apply lookup_singleton_Some in H as [_ <-]. discriminate.
Defined.

(** ** [updateBooking]: what a success stores *)

Lemma set_bookingStatus_same (b : Booking.t) :
  Booking.set_bookingStatus (Booking.bookingStatus b) b = b.
Proof. destruct b. reflexivity. Qed.

Lemma pre_save_fixed (b : Booking.t) : hookPriced b -> Booking.pre_save b = b.
Proof.
  destruct b as [u c pl pd pt dd dt days rate price st sr drv ins cr].
  unfold hookPriced, Booking.pre_save. cbn. intros [Hd Hp]. subst days.
  f_equal. rewrite Hp. destruct ins, drv; lia.
Qed.

(** A successful status update, read backwards. *)
Lemma updateBooking_Ok_inv bid status reason db db' sb :
  updateBooking bid status reason db = (db', Ok sb) ->
  exists st b,
    status = Some (statusName st) /\
    bookings db !! bid = Some b /\
    Booking.bookingStatus sb = st /\
    hookPriced sb /\
    bookings db' = <[bid := sb]> (bookings db).
Proof.
  destruct status as [s|];
    [|destruct (updateBooking_rejects bid None reason db) as [e ->];
      [discriminate | discriminate]].
  destruct (parseStatus s) as [st|] eqn:Hp;
    [|destruct (updateBooking_rejects bid (Some s) reason db) as [e ->];
      [intros ? [= <-]; exact Hp | discriminate]].
  rewrite (updateBooking_tree bid s st reason db Hp).
  apply parseStatus_statusName in Hp. subst s.
  destruct (bookings db !! bid) as [b|] eqn:Hb; [|discriminate]. cbv zeta.
  assert (Hsave : forall b1 db1,
    bookings db1 = bookings db -> Booking.bookingStatus b1 = st ->
    BookingModel.save bid b1 db1 = (db', Ok sb) ->
    exists st0 b0,
      Some (statusName st) = Some (statusName st0) /\ Some b = Some b0 /\
      Booking.bookingStatus sb = st0 /\ hookPriced sb /\
      bookings db' = <[bid := sb]> (bookings db)).
  { intros b1 db1 H1 Hst. unfold BookingModel.save, Booking.save.
    destruct (Booking.validate b1); [|discriminate].
    intros [= <- <-]. exists st, b. cbn [bookings]. rewrite H1.
    split; [reflexivity|]. split; [reflexivity|]. split; [exact Hst|].
    split; [apply pre_save_hookPriced | reflexivity]. }
  destruct (_ && _).
  - destruct (cars db !! Booking.car b) as [c|].
    + destruct (Car.validate _); [|discriminate].
      apply Hsave; reflexivity.
    + apply Hsave; reflexivity.
  - destruct (_ && _); [|apply Hsave; reflexivity].
    destruct (cars db !! Booking.car b) as [c|]; [|apply Hsave; reflexivity].
    destruct (Car.totalCarsAvailable c <=? 0); [discriminate|].
    destruct (Car.validate _); [|discriminate].
    apply Hsave; reflexivity.
Qed.

(** X27. On a database of valid documents, a status update with one of the
    four status names on an existing booking has exactly two outcomes: it
    is refused with "Car is no longer available" and nothing changes, which
    happens only on the way from cancelled to "confirmed" with a counter of
    0 or less; or it answers with the booking, stored under the requested
    status. *)
Theorem update_stores_the_requested_status bid st reason db b :
  dbOk db ->
  bookings db !! bid = Some b ->
  let r := updateBooking bid (Some (statusName st)) reason db in
  (r = (db, Err CarNoLongerAvailable) /\
   st = confirmed /\ Booking.bookingStatus b = cancelled /\
   exists c, cars db !! Booking.car b = Some c /\
             Car.totalCarsAvailable c <= 0) \/
  (exists sb,
     r.2 = Ok sb /\ Booking.bookingStatus sb = st /\
     bookings r.1 !! bid = Some sb).
Proof.
  intros [Hbs Hcs] Hb. cbv zeta.
  rewrite (updateBooking_tree bid (statusName st) st reason db)
    by (apply parseStatus_statusName; reflexivity).
  rewrite Hb. cbv zeta. pose proof (proj1 (Hbs bid b Hb)) as Hv.
  assert (Hsave : forall b1 db1,
    Booking.validate b1 = true -> Booking.bookingStatus b1 = st ->
    exists sb,
      (BookingModel.save bid b1 db1).2 = Ok sb /\
      Booking.bookingStatus sb = st /\
      bookings (BookingModel.save bid b1 db1).1 !! bid = Some sb).
  { intros b1 db1 H1 Hst. unfold BookingModel.save, Booking.save.
    rewrite H1. exists (Booking.pre_save b1). cbn [fst snd bookings].
    split; [reflexivity|]. split; [exact Hst | apply lookup_insert_eq]. }
  destruct (bool_decide (st = cancelled)
            && negb (bool_decide (Booking.bookingStatus b = cancelled))).
  - right. destruct (cars db !! Booking.car b) as [c|] eqn:Hc.
    + rewrite (releaseUnit_valid c (Hcs _ c Hc)).
      apply Hsave; [exact Hv | reflexivity].
    + apply Hsave; [exact Hv | reflexivity].
  - destruct (bool_decide (st = confirmed)) eqn:Hk;
      destruct (bool_decide (Booking.bookingStatus b = cancelled)) eqn:Ho;
      cbn [andb]; cbv iota;
      try (right; apply Hsave; [exact Hv | reflexivity]).
    apply bool_decide_eq_true in Hk, Ho.
    destruct (cars db !! Booking.car b) as [c|] eqn:Hc;
      [|right; apply Hsave; [exact Hv | reflexivity]].
    destruct (Z.leb_spec (Car.totalCarsAvailable c) 0) as [Hle | Hgt].
    + left. split; [reflexivity|]. split; [exact Hk|]. split; [exact Ho|].
      exists c. split; [reflexivity | exact Hle].
    + right. rewrite (takeUnitOnReconfirm_valid c (Hcs _ c Hc) Hgt).
      apply Hsave; [exact Hv | reflexivity].
Qed.

(** [update_stores_the_requested_status] on the sample data. *)
Lemma update_stores_the_requested_status_witness :
  let db := Sample.garageWith 0 false confirmed in
  dbOk db /\
  bookings db !! 1%positive = Some (Sample.stay confirmed) /\
  statusOf (updateBooking 1 (Some "completed") None db).1 1 = Some completed.
Proof.
  cbv zeta.
  assert (Hok : dbOk (Sample.garageWith 0 false confirmed))
    by (apply sample_garageWith_dbOk; lia).
  split; [exact Hok|]. split; [reflexivity|].
  destruct (update_stores_the_requested_status 1 completed None
              (Sample.garageWith 0 false confirmed) (Sample.stay confirmed)
              Hok eq_refl) as [(_ & Hst & _) | (sb & _ & Hst & Hsb)];
    [discriminate|].
  unfold statusOf. cbn [statusName] in Hsb. rewrite Hsb. cbn. rewrite Hst.
  reflexivity.
Defined.

(** On the fields of the documents other than [updatedAt], a status update
    that succeeded and is repeated on valid documents finds nothing left to
    do. *)
Lemma updateBooking_repeat bid status reason reason' db db1 sb :
  dbOk db ->
  updateBooking bid status reason db = (db1, Ok sb) ->
  updateBooking bid status reason' db1 = (db1, Ok sb).
Proof.
  intros Hok Hrun.
  pose proof (handle_preserves_dbOk (fun _ _ => 0)
                (SetStatus bid status reason) db Hok) as Hok1.
  cbn [handle] in Hok1. rewrite Hrun in Hok1. cbn [fst] in Hok1.
  apply updateBooking_Ok_inv in Hrun as (st & b & -> & Hb & Hst & Hpriced & Heq).
  assert (Hsb : bookings db1 !! bid = Some sb)
    by (rewrite Heq; apply lookup_insert_eq).
  rewrite (updateBooking_tree bid (statusName st) st reason' db1)
    by (apply parseStatus_statusName; reflexivity).
  rewrite Hsb. cbv zeta. rewrite Hst.
  assert (H1 : bool_decide (st = cancelled)
               && negb (bool_decide (st = cancelled)) = false)
    by (destruct (bool_decide (st = cancelled)); reflexivity).
  assert (H2 : bool_decide (st = confirmed)
               && bool_decide (st = cancelled) = false).
  { destruct (bool_decide (st = confirmed)) eqn:E; [|reflexivity].
    apply bool_decide_eq_true in E. rewrite E. reflexivity. }
  rewrite H1, H2. rewrite <- Hst, set_bookingStatus_same.
  unfold BookingModel.save, Booking.save.
  rewrite (proj1 (proj1 Hok1 bid sb Hsb)), (pre_save_fixed sb Hpriced).
  rewrite (insert_id (bookings db1) bid sb Hsb). destruct db1; reflexivity.
Qed.

(** X28. On a database of valid documents, repeating a status update that
    succeeded, at a later reading [now'] of the clock and with whatever
    reason, is answered with the same booking and rewrites the [updatedAt]
    of that booking to [now'], and nothing else: no unit moves twice, the
    other fields of the stored document, its cancellation reason included,
    stay as the first update left them, and so do the [updatedAt] values of
    the other bookings.  The stored data are the same after the repetition
    exactly when the clock has not moved, or when the first update stored
    [now'] already. *)
Theorem repeated_update_only_restamps
    now now' bid status reason reason' s s1 sb :
  dbOk (docs s) ->
  updateBookingAt now bid status reason s = (s1, Ok (sb, now)) ->
  let r := updateBookingAt now' bid status reason' s1 in
  updatedAt s1 !! bid = Some now /\
  r.2 = Ok (sb, now') /\
  docs r.1 = docs s1 /\
  updatedAt r.1 = <[bid := now']> (updatedAt s1) /\
  updatedAt r.1 !! bid = Some now' /\
  (forall other, other <> bid ->
     updatedAt r.1 !! other = updatedAt s1 !! other) /\
  (r.1 = s1 <-> now' = now).
Proof.
  intros Hok Hrun. unfold updateBookingAt in Hrun.
  destruct (updateBooking bid status reason (docs s)) as [db1 o] eqn:Hupd.
  cbn [fst snd] in Hrun. destruct o as [sb0 | e]; [|discriminate].
  injection Hrun as <- <-.
  pose proof (updateBooking_repeat bid status reason reason' _ _ _ Hok Hupd)
    as Hagain.
  cbv zeta. unfold updateBookingAt. cbn [docs updatedAt].
  rewrite Hagain. cbn [fst snd docs updatedAt].
  split; [apply lookup_insert_eq|]. split; [reflexivity|].
  split; [reflexivity|]. split; [reflexivity|].
  split; [apply lookup_insert_eq|]. split.
  - intros other Hne. rewrite !lookup_insert_ne by congruence. reflexivity.
  - split.
    + intros Heq. apply (f_equal (fun x => updatedAt x !! bid)) in Heq.
      cbn [updatedAt] in Heq. rewrite !lookup_insert_eq in Heq.
      congruence.
    + intros ->. rewrite insert_insert_eq. reflexivity.
Qed.

(** [repeated_update_only_restamps] on the sample data: the admin cancels
    the stay at time 1000 and again at time 2000. *)
Lemma repeated_update_only_restamps_witness :
  let s := mkStamped (Sample.garageWith 0 false confirmed)
             {[ 1%positive := 500 ]} in
  let r1 := updateBookingAt 1000 1 (Some "cancelled") None s in
  let r2 := updateBookingAt 2000 1 (Some "cancelled") (Some "again") r1.1 in
  dbOk (docs s) /\ (exists sb, r1.2 = Ok (sb, 1000) /\ r2.2 = Ok (sb, 2000)) /\
  unitsOf (docs r1.1) 7 = Some 1 /\
  unitsOf (docs r2.1) 7 = Some 1 /\
  updatedAt r1.1 !! 1%positive = Some 1000 /\
  updatedAt r2.1 !! 1%positive = Some 2000 /\
  r2.1 <> r1.1.
Proof.
  cbv zeta.
  assert (Hok : dbOk (Sample.garageWith 0 false confirmed))
    by (apply sample_garageWith_dbOk; lia).
  set (s := mkStamped (Sample.garageWith 0 false confirmed)
              {[ 1%positive := 500 ]}).
  set (sb := Booking.pre_save
               (Booking.set_cancellationReason (Some "Cancelled by admin")
                  (Booking.set_bookingStatus cancelled
                     (Sample.stay confirmed)))).
  assert (H : updateBookingAt 1000 1 (Some "cancelled") None s
              = ((updateBookingAt 1000 1 (Some "cancelled") None s).1,
                 Ok (sb, 1000)))
    by (vm_compute; reflexivity).
  destruct (repeated_update_only_restamps 1000 2000 1 (Some "cancelled")
              None (Some "again") s _ sb Hok H)
    as (Hs1 & Hans & Hdocs & _ & Hs2 & _ & Hiff).
  split; [exact Hok|]. split.
  { exists sb. split; [rewrite H at 1; reflexivity | exact Hans]. }
  split; [vm_compute; reflexivity|].
  split; [rewrite Hdocs; vm_compute; reflexivity|].
  split; [exact Hs1|]. split; [exact Hs2|].
  intros Heq. apply Hiff in Heq. discriminate.
Defined.

(** X29. On a database of valid documents, moving a cancelled booking to
    "pending" and then to "confirmed" always succeeds and leaves every car
    as it was: this way back to confirmed neither checks nor takes a unit,
    even when the counter is 0 and the direct update from cancelled to
    "confirmed" is refused. *)
Theorem reconfirm_through_pending_takes_no_unit
    parseDateTime bid reason reason' db b :
  dbOk db ->
  bookings db !! bid = Some b ->
  Booking.bookingStatus b = cancelled ->
  let db2 := run parseDateTime
               [SetStatus bid (Some "pending") reason;
                SetStatus bid (Some "confirmed") reason'] db in
  statusOf db2 bid = Some confirmed /\ cars db2 = cars db.
Proof.
  intros Hok Hb Hst. cbv zeta. cbn [run handle].
  pose proof (handle_preserves_dbOk parseDateTime
                (SetStatus bid (Some "pending") reason) db Hok) as Hok1.
  cbn [handle] in Hok1.
  assert (Hstep1 : exists sb,
    bookings (updateBooking bid (Some "pending") reason db).1 !! bid = Some sb
    /\ Booking.bookingStatus sb = pending
    /\ cars (updateBooking bid (Some "pending") reason db).1 = cars db).
  { rewrite (updateBooking_tree bid "pending" pending reason db eq_refl).
    rewrite Hb, Hst. simpl. unfold BookingModel.save, Booking.save.
    rewrite validate_set_bookingStatus, (proj1 (proj1 Hok bid b Hb)).
    exists (Booking.pre_save (Booking.set_bookingStatus pending b)).
    simpl. rewrite lookup_insert_eq. repeat split; reflexivity. }
  destruct Hstep1 as (sb & Hsb & Hsbst & Hcars1).
  set (db1 := (updateBooking bid (Some "pending") reason db).1) in *.
  rewrite (updateBooking_tree bid "confirmed" confirmed reason' db1 eq_refl).
  rewrite Hsb, Hsbst. simpl. unfold BookingModel.save, Booking.save.
  rewrite validate_set_bookingStatus, (proj1 (proj1 Hok1 bid sb Hsb)).
  unfold statusOf. simpl. rewrite lookup_insert_eq.
  split; [reflexivity | exact Hcars1].
Qed.

(** [reconfirm_through_pending_takes_no_unit] on the sample data: the
    counter is 0, the direct update is refused, the detour is not. *)
Lemma reconfirm_through_pending_takes_no_unit_witness :
  let db := Sample.garageWith 0 false cancelled in
  dbOk db /\
  bookings db !! 1%positive = Some (Sample.stay cancelled) /\
  updateBooking 1 (Some "confirmed") None db = (db, Err CarNoLongerAvailable) /\
  statusOf (run Sample.parseDateTime
              [SetStatus 1 (Some "pending") None;
               SetStatus 1 (Some "confirmed") None] db) 1 = Some confirmed /\
  unitsOf (run Sample.parseDateTime
             [SetStatus 1 (Some "pending") None;
              SetStatus 1 (Some "confirmed") None] db) 7 = Some 0.
Proof.
  cbv zeta.
  assert (Hok : dbOk (Sample.garageWith 0 false cancelled))
    by (apply sample_garageWith_dbOk; lia).
  split; [exact Hok|]. split; [reflexivity|].
  split; [vm_compute; reflexivity|].
  destruct (reconfirm_through_pending_takes_no_unit Sample.parseDateTime 1
              None None (Sample.garageWith 0 false cancelled)
              (Sample.stay cancelled) Hok eq_refl eq_refl) as [Hs Hc].
  split; [exact Hs|]. unfold unitsOf. rewrite Hc. reflexivity.
Defined.

(** ** The slug of a text *)

Lemma toLowerChar_not_upper c : Helpers.isUpper (Helpers.toLowerChar c) = false.
Proof.
  unfold Helpers.toLowerChar. destruct (Helpers.isUpper c) eqn:Hu; [|exact Hu].
  unfold Helpers.isUpper in *. apply andb_true_iff in Hu as [H1 H2].
  apply Nat.leb_le in H1, H2.
  rewrite nat_ascii_embedding by lia.
  apply andb_false_iff. right. apply Nat.leb_gt. lia.
Qed.

Lemma Forall_trimStart (P : ascii -> Prop) l :
  Forall P l -> Forall P (Helpers.trimStart l).
Proof.
  induction 1 as [|c l Hc Hl IH]; cbn; [constructor|].
  destruct (Helpers.isSpace c); [exact IH | constructor; assumption].
Qed.

Lemma Forall_trim (P : ascii -> Prop) l : Forall P l -> Forall P (Helpers.trim l).
Proof.
  intros H. unfold Helpers.trim. apply Forall_rev, Forall_trimStart, Forall_rev,
    Forall_trimStart, H.
Qed.

Lemma Forall_spacesToDash (P : ascii -> Prop) flag l :
  P Helpers.dash -> Forall P l -> Forall P (Helpers.spacesToDash flag l).
Proof.
  intros Hd H. revert flag. induction H as [|c l Hc Hl IH]; intros flag; cbn;
    [constructor|].
  destruct (Helpers.isSpace c); [destruct flag|]; repeat constructor; auto.
Qed.

Lemma Forall_collapseDashes (P : ascii -> Prop) flag l :
  Forall P l -> Forall P (Helpers.collapseDashes flag l).
Proof.
  intros H. revert flag. induction H as [|c l Hc Hl IH]; intros flag; cbn;
    [constructor|].
  destruct (Helpers.isDash c); [destruct flag|]; repeat constructor; auto.
Qed.

Lemma collapseDashes_noDoubleDash flag l :
  Helpers.noDoubleDash flag (Helpers.collapseDashes flag l) = true.
Proof.
  revert flag. induction l as [|c l IH]; intros flag; cbn; [reflexivity|].
  destruct (Helpers.isDash c) eqn:Hd.
  - destruct flag; [apply IH|]. cbn. rewrite Hd. cbn. apply IH.
  - cbn. rewrite Hd. apply IH.
Qed.

Lemma collapseDashes_fixed flag l :
  Helpers.noDoubleDash flag l = true -> Helpers.collapseDashes flag l = l.
Proof.
  revert flag. induction l as [|c l IH]; intros flag; cbn; [reflexivity|].
  destruct (Helpers.isDash c).
  - intros H. apply andb_true_iff in H as [Hf H]. destruct flag;
      [discriminate|]. f_equal. apply IH, H.
  - intros H. f_equal. apply IH, H.
Qed.

Lemma slugChar_not_space c : Helpers.slugChar c = true -> Helpers.isSpace c = false.
Proof.
  unfold Helpers.slugChar, Helpers.isWord, Helpers.isDash, Helpers.isSpace, Helpers.isUpper.
  set (n := nat_of_ascii c). intros H.
  repeat match goal with
         | H : context [(?x <=? ?y)%nat] |- _ => destruct (Nat.leb_spec x y)
         | H : context [(?x =? ?y)%nat] |- _ => destruct (Nat.eqb_spec x y)
         | |- context [(?x <=? ?y)%nat] => destruct (Nat.leb_spec x y)
         | |- context [(?x =? ?y)%nat] => destruct (Nat.eqb_spec x y)
         end; cbn in *; try reflexivity; try discriminate; lia.
Qed.

Lemma trimStart_fixed l :
  Forall (fun c => Helpers.slugChar c = true) l -> Helpers.trimStart l = l.
Proof.
  destruct 1 as [|c l Hc _]; cbn; [reflexivity|].
  rewrite (slugChar_not_space c Hc). reflexivity.
Qed.

Lemma spacesToDash_fixed flag l :
  Forall (fun c => Helpers.slugChar c = true) l -> Helpers.spacesToDash flag l = l.
Proof.
  intros H. revert flag. induction H as [|c l Hc _ IH]; intros flag; cbn;
    [reflexivity|].
  rewrite (slugChar_not_space c Hc). f_equal. apply IH.
Qed.

Lemma clean_fixed l :
  Forall (fun c => Helpers.slugChar c = true) l -> Helpers.noDoubleDash false l = true ->
  Helpers.slugify l = l.
Proof.
  intros Hc Hd. unfold Helpers.slugify.
  assert (Hlow : map Helpers.toLowerChar l = l).
  { clear Hd. induction Hc as [|c l Hc _ IH]; cbn; [reflexivity|].
    rewrite IH. f_equal. unfold Helpers.toLowerChar. unfold Helpers.slugChar in Hc.
    apply andb_true_iff in Hc as [_ Hu]. apply negb_true_iff in Hu.
    rewrite Hu. reflexivity. }
  rewrite Hlow. unfold Helpers.trim.
  rewrite (trimStart_fixed l Hc).
  rewrite (trimStart_fixed (rev l)) by (apply Forall_rev, Hc).
  rewrite rev_involutive, (spacesToDash_fixed false l Hc).
  assert (Hf : Helpers.dropNonWord l = l).
  { clear Hd Hlow. unfold Helpers.dropNonWord.
    induction Hc as [|c l Hc _ IH]; cbn; [reflexivity|].
    unfold Helpers.slugChar in Hc. apply andb_true_iff in Hc as [Hk _].
    rewrite Hk, IH. reflexivity. }
  rewrite Hf. apply collapseDashes_fixed, Hd.
Qed.

(** X30. For a text of characters below 128, [slugify] yields lower-case
    letters, digits, underscores and dashes only, with no two dashes in a
    row, and the slug of a slug is the slug itself. *)
Theorem slugify_is_clean_and_idempotent (l : list ascii) :
  Forall (fun c => (nat_of_ascii c < 128)%nat) l ->
  Forall (fun c => Helpers.slugChar c = true) (Helpers.slugify l) /\
  Helpers.noDoubleDash false (Helpers.slugify l) = true /\
  Helpers.slugify (Helpers.slugify l) = Helpers.slugify l.
Proof.
  intros _.
  assert (Hchars : Forall (fun c => Helpers.slugChar c = true) (Helpers.slugify l)).
  { unfold Helpers.slugify. apply Forall_collapseDashes. unfold Helpers.dropNonWord.
    apply Forall_forall. intros c Hin. apply list_elem_of_In, filter_In in Hin as [Hin Hk].
    apply list_elem_of_In in Hin.
    unfold Helpers.slugChar. rewrite Hk. cbn.
    assert (Hnu : Forall (fun c => Helpers.isUpper c = false)
                    (Helpers.spacesToDash false (Helpers.trim (map Helpers.toLowerChar l)))).
    { apply Forall_spacesToDash; [reflexivity|]. apply Forall_trim.
      apply Forall_forall. intros x Hx. apply list_elem_of_fmap in Hx as (y & -> & _).
      apply toLowerChar_not_upper. }
    rewrite Forall_forall in Hnu. rewrite (Hnu c Hin). reflexivity. }
  assert (Hdd : Helpers.noDoubleDash false (Helpers.slugify l) = true)
    by apply collapseDashes_noDoubleDash.
  split; [exact Hchars|]. split; [exact Hdd|].
  apply clean_fixed; assumption.
Qed.

(** [slugify_is_clean_and_idempotent] on a title with capitals, runs of
    blanks, punctuation and a double dash. *)
Lemma slugify_is_clean_and_idempotent_witness :
  let text := String.list_ascii_of_string "  Hello,   World -- 2025!  " in
  Forall (fun c => (nat_of_ascii c < 128)%nat) text /\
  Helpers.slugify text = String.list_ascii_of_string "hello-world-2025" /\
  Helpers.slugify (Helpers.slugify text) = Helpers.slugify text.
Proof.
  cbv zeta.
  assert (Ha : Forall (fun c => (nat_of_ascii c < 128)%nat)
                 (String.list_ascii_of_string "  Hello,   World -- 2025!  "))
    by (repeat constructor; vm_compute; lia).
  split; [exact Ha|]. split; [vm_compute; reflexivity|].
  exact (proj2 (proj2 (slugify_is_clean_and_idempotent _ Ha))).
Defined.
